(** * Shallow embedding of the youtube_sentiment comment pipeline

    Modules modelled (from [src/youtube_sentiment]):
    - [language_processor.py]: [detect_language], [translate_to_english];
    - [sentiment_analyzer.py]: [analyze_sentiment], [detect_toxicity];
    - [youtube_api.py]: [get_video_id], [fetch_all_comments], [fetch_comments];
    - [main.py]: [process_comments], [get_analysis_summary];
    - [app.py]: the sample lists of the [/api/analyze] route;
    - [dashboard.py]: [get_top_comments].

    Texts are modelled as ASCII strings ([String.string]); Python's
    character predicates ([isalnum], [isspace], [lower], the regex classes
    [\w] and [\s]) are written out on that alphabet.  Python floats are
    modelled by the exact rationals they denote ([Q]); the literal [0.1]
    is the double nearest to 1/10.

    The external libraries (langdetect, deep-translator, TextBlob, the
    YouTube Data API client) are parameters: each is a function from its
    input to one of its possible outcomes, including raising. *)

From Stdlib Require Import String Ascii List Bool ZArith QArith Lia.
From Stdlib Require Import Permutation Sorting.Sorted Lqa.
Import ListNotations.
Open Scope string_scope.

(* ------------------------------------------------------------------ *)
(** ** Python string helpers on ASCII text *)

Module PyStr.
Local Open Scope nat_scope.

Definition code (c : ascii) : nat := nat_of_ascii c.

(** [str.isalnum] on one ASCII character. *)
Definition isalnum (c : ascii) : bool :=
  let n := code c in
  ((48 <=? n) && (n <=? 57)) || ((65 <=? n) && (n <=? 90))
  || ((97 <=? n) && (n <=? 122)).

(** [str.isspace] on one ASCII character: \t \n \v \f \r, \x1c-\x1f, space. *)
Definition isspace (c : ascii) : bool :=
  let n := code c in
  ((9 <=? n) && (n <=? 13)) || ((28 <=? n) && (n <=? 32)).

(** [str.lower] on one ASCII character. *)
Definition lower_char (c : ascii) : ascii :=
  let n := code c in
  if (65 <=? n) && (n <=? 90) then ascii_of_nat (n + 32) else c.

Fixpoint lower (s : string) : string :=
  match s with
  | EmptyString => EmptyString
  | String c s' => String (lower_char c) (lower s')
  end.

Fixpoint lstrip (s : string) : string :=
  match s with
  | EmptyString => EmptyString
  | String c s' => if isspace c then lstrip s' else s
  end.

Definition rev_str (s : string) : string :=
  string_of_list_ascii (rev (list_ascii_of_string s)).

(** [str.strip()] with no argument. *)
Definition strip (s : string) : string := rev_str (lstrip (rev_str (lstrip s))).

(** [all(not ch.isalnum() for ch in text)] *)
Definition all_not_alnum (s : string) : bool :=
  forallb (fun ch => negb (isalnum ch)) (list_ascii_of_string s).

(** [needle in hay] *)
Fixpoint contains (needle hay : string) : bool :=
  prefix needle hay ||
  match hay with
  | EmptyString => false
  | String _ hay' => contains needle hay'
  end.

(** [hay.find(needle, start)]: [None] stands for Python's [-1]. *)
Fixpoint find_from (needle hay : string) (start pos : nat) : option nat :=
  if (start <=? pos) && prefix needle hay then Some pos
  else match hay with
       | EmptyString => None
       | String _ hay' => find_from needle hay' start (S pos)
       end.

Definition find (needle hay : string) (start : nat) : option nat :=
  find_from needle hay start 0.

(** [s[i:j]] for [0 <= i], [0 <= j]. *)
Definition slice (i j : nat) (s : string) : string := substring i (j - i) s.

End PyStr.

(* ------------------------------------------------------------------ *)
(** ** A backtracking matcher for the regular expressions of the source

    The constructors cover the syntax the source's patterns use.  The
    matcher follows Python's [re] search order (left alternative first,
    greedy repetition first), so the first success is the match [re]
    reports.  Its result is [None] on failure and [Some cap] on success,
    where [cap] is the text of the first capturing group that took part
    in the match. *)

Module Re.
Local Open Scope nat_scope.

Inductive regex : Type :=
| RStr (s : string)                 (* literal text *)
| RCls (cls : ascii -> bool)        (* one character of a class *)
| RPlus (cls : ascii -> bool)       (* cls+ , greedy *)
| RAnyStar                          (* .*  , greedy, '.' excludes newline *)
| RWordB                            (* \b *)
| RDollar                           (* $ : end, or before a final newline *)
| ROpt (r : regex)                  (* r? , greedy *)
| RAlt (r1 r2 : regex)              (* r1|r2 *)
| RSeq (r1 r2 : regex)
| RGroup (r : regex).               (* ( r ) *)

Definition result := option (option string).

Definition orelse (a b : result) : result :=
  match a with Some _ => a | None => b end.

(** [\w] on ASCII. *)
Definition is_word (c : ascii) : bool :=
  PyStr.isalnum c || (PyStr.code c =? 95).

Definition word_opt (c : option ascii) : bool :=
  match c with Some c => is_word c | None => false end.

Definition head_opt (s : string) : option ascii :=
  match s with EmptyString => None | String c _ => Some c end.

Definition is_newline (c : ascii) : bool := PyStr.code c =? 10.

Fixpoint mt (r : regex) (prev : option ascii) (s : string)
         (k : option ascii -> string -> result) {struct r} : result :=
  match r with
  | RStr lit =>
      (fix lit_go (l : string) (p : option ascii) (t : string) : result :=
         match l, t with
         | EmptyString, _ => k p t
         | String a l', String b t' =>
             if Ascii.eqb a b then lit_go l' (Some b) t' else None
         | String _ _, EmptyString => None
         end) lit prev s
  | RCls cls =>
      match s with
      | String c s' => if cls c then k (Some c) s' else None
      | EmptyString => None
      end
  | RPlus cls =>
      (fix plus_go (p : option ascii) (t : string) : result :=
         match t with
         | String c t' =>
             if cls c then orelse (plus_go (Some c) t') (k (Some c) t')
             else None
         | EmptyString => None
         end) prev s
  | RAnyStar =>
      (fix star_go (p : option ascii) (t : string) : result :=
         orelse
           (match t with
            | String c t' => if is_newline c then None else star_go (Some c) t'
            | EmptyString => None
            end)
           (k p t)) prev s
  | RWordB =>
      if xorb (word_opt prev) (word_opt (head_opt s)) then k prev s else None
  | RDollar =>
      match s with
      | EmptyString => k prev s
      | String c EmptyString => if is_newline c then k prev s else None
      | _ => None
      end
  | ROpt r1 => orelse (mt r1 prev s k) (k prev s)
  | RAlt r1 r2 => orelse (mt r1 prev s k) (mt r2 prev s k)
  | RSeq r1 r2 => mt r1 prev s (fun p t => mt r2 p t k)
  | RGroup r1 =>
      mt r1 prev s (fun p t =>
        match k p t with
        | Some _ => Some (Some (substring 0 (String.length s - String.length t) s))
        | None => None
        end)
  end.

(** [re.search(r, s)] *)
Definition search (r : regex) (s : string) : result :=
  (fix go (p : option ascii) (t : string) : result :=
     orelse (mt r p t (fun _ _ => Some None))
            (match t with
             | EmptyString => None
             | String c t' => go (Some c) t'
             end)) None s.

(** [re.match(r, s)]: anchored at the start. *)
Definition rmatch (r : regex) (s : string) : result :=
  mt r None s (fun _ _ => Some None).

Fixpoint seqs (rs : list regex) : regex :=
  match rs with
  | [] => RStr ""
  | [r] => r
  | r :: rs' => RSeq r (seqs rs')
  end.

Fixpoint alts (rs : list regex) : regex :=
  match rs with
  | [] => RCls (fun _ => false)
  | [r] => r
  | r :: rs' => RAlt r (alts rs')
  end.

(** [r{n}] *)
Fixpoint rep (n : nat) (r : regex) : regex :=
  match n with
  | O => RStr ""
  | S n' => RSeq r (rep n' r)
  end.

(** [\s] on ASCII (Python's Unicode whitespace restricted to ASCII). *)
Definition space_cls : ascii -> bool := PyStr.isspace.

End Re.

(* ------------------------------------------------------------------ *)
(** ** [language_processor.py] *)

Module Lang.

(** Outcome of a call into an external library: it returns or raises. *)
Inductive outcome (A : Type) : Type :=
| Returns (a : A)
| Raises (err : string).
Arguments Returns {A} a.
Arguments Raises {A} err.

Section Language.

(** [langdetect.detect] *)
Variable langdetect : string -> outcome string.
(** [GoogleTranslator(source='auto', target='en').translate]; it may
    return [None], modelled by [Returns None]. *)
Variable google_translate : string -> outcome (option string).

(** [detect_language(text)]; the [except] branch maps a raising detector
    to ['unknown'].  Every other statement of the [try] block is total. *)
Definition detect_language (text : string) : string :=
  if (text =? "") || (PyStr.strip text =? "") then "unknown"
  else if PyStr.all_not_alnum text then "unknown"
  else match langdetect text with
       | Returns lang => lang
       | Raises _ => "unknown"
       end.

(** The language [translate_to_english] works with: the supplied
    [src_lang], or the detected one when [src_lang is None]. *)
Definition resolved_src (text : string) (src_lang : option string) : string :=
  match src_lang with
  | Some l => l
  | None => detect_language text
  end.

(** [translate_to_english(text, src_lang=None)] *)
Definition translate_to_english (text : string) (src_lang : option string)
  : string :=
  if (text =? "") || (PyStr.strip text =? "") then text
  else
    let src := resolved_src text src_lang in
    if (src =? "en") || (src =? "unknown") then text
    else match google_translate text with
         | Returns None => text
         | Returns (Some translated) => translated
         | Raises _ => text
         end.

End Language.
End Lang.

(* ------------------------------------------------------------------ *)
(** ** [sentiment_analyzer.py] *)

Module Sentiment.
Import Lang.

(** What [TextBlob(text).sentiment] gives: an object with a [polarity]
    attribute, one without it, or an exception (also covering a failing
    [float(...)]). *)
Inductive blob_sentiment : Type :=
| HasPolarity (p : Q)
| NoPolarity
| BlobRaises (err : string).

Record sentiment_result : Type := {
  sentiment : string;
  polarity : Q
}.

(** The Python literal [0.1]: the double 3602879701896397 / 2^55. *)
Definition py_0_1 : Q := 3602879701896397 # 36028797018963968.

(** [polarity > 0.1] / [polarity < -0.1] on exact values. *)
Definition label_of (polarity : Q) : string :=
  if negb (Qle_bool polarity py_0_1) then "Positive"
  else if negb (Qle_bool (- py_0_1) polarity) then "Negative"
  else "Neutral".

Section Analyzer.

Variable textblob_sentiment : string -> blob_sentiment.

(** [analyze_sentiment(text)] *)
Definition analyze_sentiment (text : string) : sentiment_result :=
  match textblob_sentiment text with
  | BlobRaises _ => {| sentiment := "Neutral"; polarity := 0 |}
  | HasPolarity p => {| sentiment := label_of p; polarity := p |}
  | NoPolarity => {| sentiment := label_of 0; polarity := 0 |}
  end.

End Analyzer.

Definition toxicity_keywords : list string :=
  [ "hate"; "kill"; "stupid"; "idiot"; "dumb"; "worthless"; "disgusting";
    "disgust"; "shut up"; "shutup"; "shut your"; "go to hell"; "damn";
    "retard"; "retarded"; "moron"; "moronic"; "crap"; "trash"; "garbage";
    "useless"; "pathetic"; "awful"; "terrible"; "horrible"; "horrid" ].

Import Re.

(** [\b<word>\b] *)
Definition bounded_word (w : string) : regex := seqs [RWordB; RStr w; RWordB].

Definition toxic_patterns : list regex :=
  [ (* r'\byou\s+are\s+(a\s+)?(idiot|stupid|dumb|moron|retard)' *)
    seqs [RWordB; RStr "you"; RPlus space_cls; RStr "are"; RPlus space_cls;
          ROpt (RGroup (RSeq (RStr "a") (RPlus space_cls)));
          RGroup (alts [RStr "idiot"; RStr "stupid"; RStr "dumb";
                        RStr "moron"; RStr "retard"])];
    bounded_word "fuck";   (* r'\bfuck\b' *)
    bounded_word "shit";   (* r'\bshit\b' *)
    bounded_word "die";    (* r'\bdie\b' *)
    bounded_word "kys" ].  (* r'\bkys\b' *)

(** The keyword [for] loop of [detect_toxicity]: [True] on the first hit. *)
Fixpoint keyword_loop (text_lower : string) (kws : list string) : bool :=
  match kws with
  | [] => false
  | keyword :: kws' =>
      if PyStr.contains keyword text_lower then true else keyword_loop text_lower kws'
  end.

(** The pattern [for] loop: [re.search(pattern, text_lower)] on each. *)
Fixpoint pattern_loop (text_lower : string) (ps : list regex) : bool :=
  match ps with
  | [] => false
  | pattern :: ps' =>
      match search pattern text_lower with
      | Some _ => true
      | None => pattern_loop text_lower ps'
      end
  end.

(** [detect_toxicity(text)] *)
Definition detect_toxicity (text : string) : bool :=
  let text_lower := PyStr.lower text in
  if keyword_loop text_lower toxicity_keywords then true
  else pattern_loop text_lower toxic_patterns.

End Sentiment.

(* ------------------------------------------------------------------ *)
(** ** [youtube_api.py] *)

Module YouTube.
Import Lang Re.
Local Open Scope nat_scope.

(** [[a-zA-Z0-9_-]] *)
Definition id_cls (c : ascii) : bool := is_word c || (PyStr.code c =? 45)%nat.

Definition id11 : regex := RGroup (rep 11 (RCls id_cls)).

Definition video_id_patterns : list regex :=
  [ (* r'(?:youtube\.com\/watch\?v=|youtu\.be\/|youtube\.com\/embed\/)([a-zA-Z0-9_-]{11})' *)
    RSeq (alts [RStr "youtube.com/watch?v="; RStr "youtu.be/";
                RStr "youtube.com/embed/"]) id11;
    (* r'youtube\.com\/watch\?.*v=([a-zA-Z0-9_-]{11})' *)
    seqs [RStr "youtube.com/watch?"; RAnyStar; RStr "v="; id11];
    (* r'youtu\.be\/([a-zA-Z0-9_-]{11})' *)
    RSeq (RStr "youtu.be/") id11;
    (* r'youtube\.com\/embed\/([a-zA-Z0-9_-]{11})' *)
    RSeq (RStr "youtube.com/embed/") id11 ].

(** r'^[a-zA-Z0-9_-]+$' *)
Definition video_id_re : regex := RSeq (RPlus id_cls) RDollar.

(** [get_video_id(url)]; [None] is Python's [None]. *)
Definition get_video_id (url : string) : option string :=
  if String.eqb url "" then None
  else
    let fix try_patterns (ps : list regex) : option (option string) :=
      match ps with
      | [] => None
      | p :: ps' =>
          match search p url with
          | Some group1 => Some group1
          | None => try_patterns ps'
          end
      end in
    match try_patterns video_id_patterns with
    | Some group1 => group1
    | None =>
        if PyStr.contains "v=" url then
          let start := match PyStr.find "v=" url 0 with
                       | Some i => i + 2
                       | None => 1 (* url.find returned -1 *)
                       end in
          let end_ := match PyStr.find "&" url start with
                      | Some e => e
                      | None => String.length url
                      end in
          let video_id := PyStr.slice start end_ url in
          if (String.length video_id =? 11)%nat
             && (match rmatch video_id_re video_id with Some _ => true | None => false end)
          then Some video_id else None
        else None
    end.

(** [item['snippet']['topLevelComment']['snippet']] of an API item. *)
Record comment_snippet : Type := {
  authorDisplayName : string;
  textDisplay : string;
  publishedAt : string;
  likeCount : Z;
  updatedAt : string
}.

Record api_item : Type := {
  item_id : string;
  top_level_snippet : comment_snippet
}.

(** One [commentThreads().list(...).execute()] response. *)
Record api_page : Type := {
  items : list api_item;
  nextPageToken : option string
}.

(** A [RawComment]: the dictionary the fetch loops build. *)
Record raw_comment : Type := {
  id : string;
  author : string;
  text : string;
  published_at : string;
  like_count : Z;
  updated_at : string
}.

Definition to_comment (item : api_item) : raw_comment :=
  let c := top_level_snippet item in
  {| id := item_id item; author := authorDisplayName c; text := textDisplay c;
     published_at := publishedAt c; like_count := likeCount c;
     updated_at := updatedAt c |}.

(** [not next_page_token] *)
Definition token_falsy (t : option string) : bool :=
  match t with None => true | Some s => String.eqb s "" end.

(** [comments[:n]] for a Python int [n]. *)
Definition py_take {A} (n : Z) (l : list A) : list A :=
  if (0 <=? n)%Z then firstn (Z.to_nat n) l
  else firstn (length l - Z.to_nat (- n)) l.

(** A request sent to the API: [(pageToken, maxResults)]. *)
Definition request : Type := (option string * Z)%type.

(** The result of a fetch.  [OutOfFuel] is not a behaviour of the source:
    the [while] loops are run with a bound on iterations, and [OutOfFuel]
    reports that the bound was reached before the loop ended. *)
Inductive fetch_outcome : Type :=
| Fetched (comments : list raw_comment)
| FetchError (msg : string)
| OutOfFuel.

Definition invalid_url_msg : string :=
  "Invalid YouTube URL or unable to extract video ID".
Definition missing_key_msg : string :=
  "YouTube API key not found. Please set YOUTUBE_API_KEY in .env file".
Definition fetch_error_msg (e : string) : string :=
  "Error fetching comments: " ++ e.

Section Fetch.

(** [config.YOUTUBE_API_KEY] *)
Variable YOUTUBE_API_KEY : option string.
(** [build('youtube', 'v3', developerKey=...)] *)
Variable youtube_build : outcome unit.
(** [youtube.commentThreads().list(part='snippet', videoId=..,
    maxResults=.., order='relevance', pageToken=..).execute()] *)
Variable commentThreads_list : string -> option string -> Z -> outcome api_page.

(** Every request sent is recorded, in order, in the returned log. *)
Fixpoint fetch_all_loop (fuel : nat) (video_id : string)
         (comments : list raw_comment) (next_page_token : option string)
         (log : list request) : list request * fetch_outcome :=
  match fuel with
  | O => (log, OutOfFuel)
  | S fuel' =>
      let log' := app log [(next_page_token, 100%Z)] in
      match commentThreads_list video_id next_page_token 100 with
      | Raises e => (log', FetchError (fetch_error_msg e))
      | Returns response =>
          let comments' := app comments (map to_comment (items response)) in
          if token_falsy (nextPageToken response) then (log', Fetched comments')
          else fetch_all_loop fuel' video_id comments' (nextPageToken response) log'
      end
  end.

(** [fetch_all_comments(video_url)] *)
Definition fetch_all_comments (fuel : nat) (video_url : string)
  : list request * fetch_outcome :=
  match get_video_id video_url with
  | None => ([], FetchError invalid_url_msg)
  | Some video_id =>
      if token_falsy YOUTUBE_API_KEY then ([], FetchError missing_key_msg)
      else match youtube_build with
           | Raises e => ([], FetchError e)
           | Returns _ => fetch_all_loop fuel video_id [] None []
           end
  end.

Fixpoint fetch_loop (fuel : nat) (video_id : string) (max_results : Z)
         (comments : list raw_comment) (next_page_token : option string)
         (log : list request) : list request * fetch_outcome :=
  match fuel with
  | O => (log, OutOfFuel)
  | S fuel' =>
      if (Z.of_nat (length comments) <? max_results)%Z then
        let size := Z.min 100 (max_results - Z.of_nat (length comments)) in
        let log' := app log [(next_page_token, size)] in
        match commentThreads_list video_id next_page_token size with
        | Raises e => (log', FetchError (fetch_error_msg e))
        | Returns response =>
            let comments' := app comments (map to_comment (items response)) in
            if token_falsy (nextPageToken response)
            then (log', Fetched (py_take max_results comments'))
            else fetch_loop fuel' video_id max_results comments'
                            (nextPageToken response) log'
        end
      else (log, Fetched (py_take max_results comments))
  end.

(** [fetch_comments(video_url, max_results)] *)
Definition fetch_comments (fuel : nat) (video_url : string) (max_results : Z)
  : list request * fetch_outcome :=
  match get_video_id video_url with
  | None => ([], FetchError invalid_url_msg)
  | Some video_id =>
      if token_falsy YOUTUBE_API_KEY then ([], FetchError missing_key_msg)
      else match youtube_build with
           | Raises e => ([], FetchError e)
           | Returns _ => fetch_loop fuel video_id max_results [] None []
           end
  end.

End Fetch.
End YouTube.

(* ------------------------------------------------------------------ *)
(** ** [main.py]: the enrichment pipeline *)

Module Pipeline.
Import Lang Sentiment YouTube.

(** An [EnrichedComment]: [{**comment, 'original_language': ..., ...}].
    The raw comment has none of the added keys, so the merge keeps all
    its fields. *)
Record processed_comment : Type := {
  p_id : string;
  p_author : string;
  p_text : string;
  p_published_at : string;
  p_like_count : Z;
  p_updated_at : string;
  original_language : string;
  translated_text : string;
  p_sentiment : string;
  p_polarity : Q;
  is_toxic : bool
}.

Inductive process_outcome : Type :=
| Processed (comments : list processed_comment)
| ProcessError (msg : string)
| ProcessOutOfFuel.

Section Process.

Variable langdetect : string -> outcome string.
Variable google_translate : string -> outcome (option string).
Variable textblob_sentiment : string -> blob_sentiment.
Variable YOUTUBE_API_KEY : option string.
Variable youtube_build : outcome unit.
Variable commentThreads_list : string -> option string -> Z -> outcome api_page.

(** The body of the [for] loop of [process_comments], for one comment. *)
Definition process_one (comment : raw_comment) : processed_comment :=
  let original_language := detect_language langdetect (text comment) in
  let translated_text :=
    if negb (original_language =? "en")
    then translate_to_english langdetect google_translate (text comment) None
    else text comment in
  let sentiment_result := analyze_sentiment textblob_sentiment translated_text in
  let is_toxic := detect_toxicity translated_text in
  {| p_id := id comment; p_author := author comment; p_text := text comment;
     p_published_at := published_at comment; p_like_count := like_count comment;
     p_updated_at := updated_at comment;
     original_language := original_language;
     translated_text := translated_text;
     p_sentiment := sentiment sentiment_result;
     p_polarity := polarity sentiment_result;
     is_toxic := is_toxic |}.

(** The [for] loop: [processed_comments.append(...)] per comment. *)
Definition process_loop (comments : list raw_comment) : list processed_comment :=
  fold_left (fun processed comment => app processed [process_one comment])
            comments [].

(** [process_comments(video_url, max_comments=None)] *)
Definition process_comments (fuel : nat) (video_url : string)
           (max_comments : option Z) : process_outcome :=
  let fetched :=
    match max_comments with
    | None => snd (fetch_all_comments YOUTUBE_API_KEY youtube_build
                    commentThreads_list fuel video_url)
    | Some m => snd (fetch_comments YOUTUBE_API_KEY youtube_build
                       commentThreads_list fuel video_url m)
    end in
  match fetched with
  | Fetched comments => Processed (process_loop comments)
  | FetchError msg => ProcessError msg
  | OutOfFuel => ProcessOutOfFuel
  end.

End Process.
End Pipeline.

(* ------------------------------------------------------------------ *)
(** ** Aggregation: [main.py] [get_analysis_summary], [app.py] samples *)

Module Summary.
Import Pipeline.
Local Open Scope nat_scope.

(** [dict(Counter(xs))]: keys in first-occurrence order. *)
Fixpoint counter_add (x : string) (m : list (string * nat)) : list (string * nat) :=
  match m with
  | [] => [(x, 1)]
  | (k, n) :: m' => if String.eqb x k then (k, S n) :: m' else (k, n) :: counter_add x m'
  end.

Definition counter (xs : list string) : list (string * nat) :=
  fold_left (fun m x => counter_add x m) xs [].

(** [c['text'][:100] + '...' if len(c['text']) > 100 else c['text']] *)
Definition excerpt (t : string) : string :=
  if 100 <? String.length t then (substring 0 100 t ++ "...")%string else t.

Record analysis_summary : Type := {
  total_comments : nat;
  sentiment_distribution : list (string * nat);
  language_distribution : list (string * nat);
  toxic_comments_count : nat;
  sample_positive : list string;
  sample_negative : list string;
  sample_neutral : list string
}.

Definition with_sentiment (s : string) (cs : list processed_comment) :=
  filter (fun c => String.eqb (p_sentiment c) s) cs.

(** [get_analysis_summary(processed_comments)] *)
Definition get_analysis_summary (processed_comments : list processed_comment)
  : analysis_summary :=
  let sentiments := map p_sentiment processed_comments in
  let languages := map original_language processed_comments in
  let toxic_comments := filter is_toxic processed_comments in
  let positive_comments := firstn 3 (with_sentiment "Positive" processed_comments) in
  let negative_comments := firstn 3 (with_sentiment "Negative" processed_comments) in
  let neutral_comments := firstn 3 (with_sentiment "Neutral" processed_comments) in
  {| total_comments := length processed_comments;
     sentiment_distribution := counter sentiments;
     language_distribution := counter languages;
     toxic_comments_count := length toxic_comments;
     sample_positive := map (fun c => excerpt (p_text c)) positive_comments;
     sample_negative := map (fun c => excerpt (p_text c)) negative_comments;
     sample_neutral := map (fun c => excerpt (p_text c)) neutral_comments |}.

(** The ['sample_comments'] entry of the [/api/analyze] JSON response in
    [app.py]: [[c['text'] for c in processed_comments if ...][:5]]. *)
Definition api_sample_comments (processed_comments : list processed_comment)
  : list string * list string * list string :=
  (firstn 5 (map p_text (with_sentiment "Positive" processed_comments)),
   firstn 5 (map p_text (with_sentiment "Negative" processed_comments)),
   firstn 5 (map p_text (with_sentiment "Neutral" processed_comments))).

(** The distributions of the [/api/analyze] route, as in [main.py]. *)
Definition api_distributions (processed_comments : list processed_comment) :=
  (counter (map p_sentiment processed_comments),
   counter (map original_language processed_comments)).

End Summary.

(* ------------------------------------------------------------------ *)
(** ** [dashboard.py]: [get_top_comments] *)

Module Dashboard.
Import Pipeline.

(** Python's [sorted] is stable, so its result is the one of a stable
    insertion sort: each element goes after the elements already placed
    that are not ordered after it.  [reverse=True] keeps stability. *)
Fixpoint insert_by (before : Q -> Q -> bool) (c : processed_comment)
         (l : list processed_comment) : list processed_comment :=
  match l with
  | [] => [c]
  | y :: l' => if before (p_polarity c) (p_polarity y) then c :: l
               else y :: insert_by before c l'
  end.

Definition sorted_by_polarity (reverse : bool) (l : list processed_comment)
  : list processed_comment :=
  let before := if reverse then fun a b => negb (Qle_bool a b)   (* a > b *)
                else fun a b => negb (Qle_bool b a) in         (* a < b *)
  fold_left (fun acc c => insert_by before c acc) l [].

(** [get_top_comments(comments_data, sentiment, top_n=5)] *)
Definition get_top_comments (comments_data : list processed_comment)
           (sentiment : string) (top_n : Z) : list processed_comment :=
  let filtered_comments :=
    filter (fun c => String.eqb (p_sentiment c) sentiment) comments_data in
  let sorted_comments :=
    if String.eqb sentiment "Positive" then sorted_by_polarity true filtered_comments
    else sorted_by_polarity false filtered_comments in
  YouTube.py_take top_n sorted_comments.

End Dashboard.

(* ================================================================== *)
(** * Observations used by the specification *)

Module Vocab.
Import Lang YouTube Pipeline Dashboard.
Local Open Scope nat_scope.

(** ** Counts *)

(** The count a [Counter] dictionary holds for a key. *)
Fixpoint lookup (k : string) (m : list (string * nat)) : option nat :=
  match m with
  | [] => None
  | (k', n) :: m' => if String.eqb k k' then Some n else lookup k m'
  end.

Definition sum_counts (m : list (string * nat)) : nat :=
  fold_right (fun kv acc => snd kv + acc) 0 m.

(** A comment text of 150 characters. *)
Definition long_comment_text : string :=
  Eval cbv in string_of_list_ascii (repeat "a"%char 150).

Definition long_positive_comment : processed_comment :=
  {| p_id := "c1"; p_author := "a"; p_text := long_comment_text;
     p_published_at := "2024-01-01T00:00:00Z"; p_like_count := 0%Z;
     p_updated_at := "2024-01-01T00:00:00Z"; original_language := "en";
     translated_text := long_comment_text; p_sentiment := "Positive";
     p_polarity := 1%Q; is_toxic := false |}.

(** ** Ranking *)

(** [a] may precede [b] in the output. *)
Definition may_precede (before : Q -> Q -> bool) (a b : processed_comment) : Prop :=
  before (p_polarity b) (p_polarity a) = false.

Definition ins_step (before : Q -> Q -> bool) (acc : list processed_comment) (c : processed_comment) :=
  insert_by before c acc.

Definition same_polarity (q : Q) (c : processed_comment) : bool :=
  Qeq_bool (p_polarity c) q.

(** The orders of [sorted(..., reverse=True)] and [sorted(...)] on polarities. *)
Definition desc_before (a b : Q) : bool := negb (Qle_bool a b).
Definition asc_before (a b : Q) : bool := negb (Qle_bool b a).

(** ** Page requests *)

Section Requests.

Variable commentThreads_list : string -> option string -> Z -> outcome api_page.
Variable video_id : string.

(** The comments the API returned for the requests of a log, in order. *)
Definition received (log : list request) : list raw_comment :=
  flat_map (fun r => match commentThreads_list video_id (fst r) (snd r) with
                     | Returns page => map to_comment (items page)
                     | Raises _ => []
                     end) log.

(** The [nextPageToken] of the response to a request. *)
Definition next_token (r : request) : option string :=
  match commentThreads_list video_id (fst r) (snd r) with
  | Returns page => nextPageToken page
  | Raises _ => None
  end.

(** The token the [i]-th request must carry: none for the first, the
    previous response's [nextPageToken] after. *)
Definition prev_token (log : list request) (i : nat) : option string :=
  match i with
  | O => None
  | S j => match nth_error log j with Some r => next_token r | None => None end
  end.

Definition answered (r : request) : Prop :=
  exists page, commentThreads_list video_id (fst r) (snd r) = Returns page.

(** What each request of [fetch_comments] satisfies. *)
Definition capped_request_ok (N : Z) (log : list request) (i : nat) (r : request) : Prop :=
  let before := Z.of_nat (length (received (firstn i log))) in
  (before < N)%Z
  /\ snd r = Z.min 100 (N - before)
  /\ fst r = prev_token log i
  /\ (i <> O -> token_falsy (fst r) = false)
  /\ answered r.

(** What each request of [fetch_all_comments] satisfies. *)
Definition full_request_ok (log : list request) (i : nat) (r : request) : Prop :=
  snd r = 100%Z
  /\ fst r = prev_token log i
  /\ (i <> O -> token_falsy (fst r) = false)
  /\ answered r.

(** The response to the last request of a log has no [nextPageToken]. *)
Definition last_token_absent (log : list request) : Prop :=
  exists i r, nth_error log i = Some r /\ S i = length log
              /\ token_falsy (next_token r) = true.

End Requests.

(** An upstream serving a fixed sequence of pages: the [i]-th page is
    requested with a token of length [i] (none for the first page), and
    carries a token for the next page exactly when there is one. *)
Definition page_token (i : nat) : string := string_of_list_ascii (repeat "p"%char i).

Definition page_index (tok : option string) : nat :=
  match tok with None => O | Some s => String.length s end.

Definition paged_api (pages : list (list api_item))
  : string -> option string -> Z -> outcome api_page :=
  fun _ tok _ =>
    let i := page_index tok in
    Returns {| items := nth i pages [];
               nextPageToken := if (S i <? length pages)%nat
                                then Some (page_token (S i)) else None |}.

(** Two pages of two comments each, for a video URL. *)
Definition sample_item (n : string) : api_item :=
  {| item_id := n;
     top_level_snippet := {| authorDisplayName := "a"; textDisplay := n;
                             publishedAt := "2024-01-01T00:00:00Z"; likeCount := 0%Z;
                             updatedAt := "2024-01-01T00:00:00Z" |} |}.

Definition sample_pages : list (list api_item) :=
  [[sample_item "1"; sample_item "2"]; [sample_item "3"; sample_item "4"]].

Definition sample_url : string := "https://www.youtube.com/watch?v=dQw4w9WgXcQ".

End Vocab.

(* ================================================================== *)
(** * Observations used by the further properties *)

Module ReVocab.
Import Re.

(** The regular expressions with no capturing group. *)
Fixpoint nogroup (r : regex) : bool :=
  match r with
  | RGroup _ => false
  | ROpt r1 => nogroup r1
  | RAlt r1 r2 | RSeq r1 r2 => nogroup r1 && nogroup r2
  | _ => true
  end.

(** Every character of a string is in a class. *)
Definition all_cls (cls : ascii -> bool) (s : string) : bool :=
  forallb cls (list_ascii_of_string s).

End ReVocab.

(* ------------------------------------------------------------------ *)
(** ** Python's [str] and [repr] of the values the chatbot prompt shows *)

Module PyFmt.
Local Open Scope nat_scope.

Fixpoint uint_digits (d : Decimal.uint) : string :=
  match d with
  | Decimal.Nil => ""
  | Decimal.D0 d' => String "0" (uint_digits d')
  | Decimal.D1 d' => String "1" (uint_digits d')
  | Decimal.D2 d' => String "2" (uint_digits d')
  | Decimal.D3 d' => String "3" (uint_digits d')
  | Decimal.D4 d' => String "4" (uint_digits d')
  | Decimal.D5 d' => String "5" (uint_digits d')
  | Decimal.D6 d' => String "6" (uint_digits d')
  | Decimal.D7 d' => String "7" (uint_digits d')
  | Decimal.D8 d' => String "8" (uint_digits d')
  | Decimal.D9 d' => String "9" (uint_digits d')
  end.

(** [str(n)] for a non-negative [int]. *)
Definition py_str_nat (n : nat) : string := uint_digits (Nat.to_uint n).

Definition dquote : ascii := ascii_of_nat 34.
Definition squote : ascii := "'"%char.
Definition bslash : ascii := "\"%char.

Definition hex_digit (n : nat) : ascii :=
  nth n (list_ascii_of_string "0123456789abcdef") "0"%char.

(** [str.isprintable] on a code point below 256 (characters above 127
    read as Latin-1). *)
Definition py_printable (n : nat) : bool :=
  ((32 <=? n) && (n <=? 126)) || ((161 <=? n) && (n <=? 255) && negb (n =? 173)).

(** One character of [repr(s)] when [s] is quoted with [quote]. *)
Definition repr_char (quote c : ascii) : string :=
  let n := PyStr.code c in
  if Ascii.eqb c quote || Ascii.eqb c bslash then String bslash (String c "")
  else if n =? 9 then String bslash "t"
  else if n =? 10 then String bslash "n"
  else if n =? 13 then String bslash "r"
  else if py_printable n then String c ""
  else String bslash (String "x" (String (hex_digit (n / 16))
                                   (String (hex_digit (n mod 16)) ""))).

(** [repr(s)]: single quotes, unless [s] has a single quote and no double
    quote. *)
Definition py_repr_str (s : string) : string :=
  let quote := if PyStr.contains (String squote "") s
                  && negb (PyStr.contains (String dquote "") s)
               then dquote else squote in
  String quote (String.concat "" (map (repr_char quote) (list_ascii_of_string s))
                ++ String quote "").

(** [str(d)] for a [dict] from [str] to [int] ([dict(Counter(...))]). *)
Definition py_str_counts (d : list (string * nat)) : string :=
  "{" ++ String.concat ", " (map (fun kv => py_repr_str (fst kv) ++ ": " ++ py_str_nat (snd kv)) d)
  ++ "}".

(** [str.upper] on one ASCII character. *)
Definition upper_char (c : ascii) : ascii :=
  let n := PyStr.code c in
  if (97 <=? n) && (n <=? 122) then ascii_of_nat (n - 32) else c.

(** [str.capitalize()] *)
Definition py_capitalize (s : string) : string :=
  match s with
  | EmptyString => EmptyString
  | String c s' => String (upper_char c) (PyStr.lower s')
  end.

End PyFmt.

(* ------------------------------------------------------------------ *)
(** ** [chatbot.py] *)

Module Chatbot.
Import Lang Summary PyFmt.

(** An element of [genai.list_models()]. *)
Record model_info : Type := {
  name : string;
  supported_generation_methods : list string
}.

Definition preferred_models : list string :=
  [ "models/gemini-1.5-flash"; "models/gemini-1.5-pro";
    "models/gemini-flash-latest"; "models/gemini-pro-latest";
    "gemini-1.5-flash"; "gemini-1.5-pro"; "gemini-pro" ].

Definition fallback_models : list string :=
  [ "models/gemini-flash-latest"; "models/gemini-pro-latest";
    "models/gemini-1.5-flash"; "models/gemini-1.5-pro" ].

(** What [list_available_models] returns when [list_models] is missing or
    raises. *)
Definition common_models : list string :=
  [ "models/gemini-1.5-flash"; "models/gemini-1.5-pro" ].

Definition unavailable_msg : string :=
  "Chatbot is not available. Please check your API configuration.".

Definition error_prefix : string :=
  "Sorry, I encountered an error while processing your question: ".

(** Truthiness of an optional string argument ([None] and [''] are falsy). *)
Definition py_truthy (s : option string) : bool :=
  match s with
  | Some v => negb (v =? "")
  | None => false
  end.

Definition nl : string := String (ascii_of_nat 10) "".

(** The first f-string of [ask_question], with its three fields filled. *)
Definition prompt_head (total_comments sentiment_distribution language_distribution : string)
  : string :=
  "
            You are an AI assistant analyzing YouTube comment sentiment data. 
            Based on the following analysis data, answer the question at the end.
            
            === ANALYSIS DATA ===
            Total Comments Analyzed: "
  ++ total_comments
  ++ "
            
            Sentiment Distribution: 
            "
  ++ sentiment_distribution
  ++ "
            
            Language Distribution: 
            "
  ++ language_distribution
  ++ "
            
            Sample Comments by Sentiment:
            ".

(** The closing f-string of [ask_question]. *)
Definition prompt_tail (question : string) : string :=
  "
            === QUESTION ===
            "
  ++ question
  ++ "
            
            === INSTRUCTIONS ===
            Provide a concise and helpful response based on the data when relevant. 
            When discussing what people are talking about, reference the sample comments 
            to provide specific insights about the topics and themes in the comments.
            Keep your response under 200 words.
            ".

(** [for i, comment in enumerate(comments, 1): prompt += f"  {i}. {comment}\n"] *)
Fixpoint numbered_lines (i : nat) (comments : list string) : string :=
  match comments with
  | [] => ""
  | comment :: rest =>
      "  " ++ py_str_nat i ++ ". " ++ comment ++ nl ++ numbered_lines (S i) rest
  end.

(** The block one [(sentiment, comments)] item adds; nothing when
    [comments] is empty. *)
Definition sample_block (sentiment : string) (comments : list string) : string :=
  match comments with
  | [] => ""
  | _ => nl ++ py_capitalize sentiment ++ " Comments:" ++ nl ++ numbered_lines 1 comments
  end.

(** [context_data['sample_comments']] of a summary, in its key order. *)
Definition sample_comments (s : analysis_summary) : list (string * list string) :=
  [("positive", sample_positive s); ("negative", sample_negative s);
   ("neutral", sample_neutral s)].

(** The [prompt] [ask_question] sends.  The context is a summary built by
    [get_analysis_summary] (a non-empty, hence truthy, dict), or [None]
    for a falsy one ([None] or the empty dict the web dashboard starts
    with).  The summary's [sample_comments] dict has three keys, so it is
    truthy. *)
Definition build_prompt (question : string) (context_data : option analysis_summary)
  : string :=
  match context_data with
  | None => question
  | Some s =>
      prompt_head (py_str_nat (total_comments s))
                  (py_str_counts (sentiment_distribution s))
                  (py_str_counts (language_distribution s))
      ++ String.concat "" (map (fun kv => sample_block (fst kv) (snd kv)) (sample_comments s))
      ++ prompt_tail question
  end.

Section Gemini.

(** The import of [google.generativeai] succeeded; [genai] and
    [GenerativeModel] are then a module and a class, both truthy. *)
Variable GEMINI_AVAILABLE : bool.
Variable GEMINI_API_KEY : string.
(** [getattr(genai, 'list_models', None)]: [None] when absent, otherwise
    the outcome of calling it and reading its elements. *)
Variable list_models : option (outcome (list model_info)).
(** Model objects; an instance of a class without [__bool__] is truthy. *)
Variable gen_model : Type.
Variable GenerativeModel : string -> outcome gen_model.
(** [model.generate_content(prompt).text] *)
Variable generate_content : gen_model -> string -> outcome string.

(** [list_available_models()] *)
Definition list_available_models : list string :=
  if negb GEMINI_AVAILABLE then []
  else match list_models with
       | Some (Returns models) =>
           map name (filter (fun m => existsb (String.eqb "generateContent")
                                               (supported_generation_methods m))
                            models)
       | Some (Raises _) => common_models
       | None => common_models
       end.

(** The name [initialize_chatbot] passes to [GenerativeModel] first.  When
    [model_name] is falsy it stays falsy unless the preference loop or
    [available_models[0]] sets it; [""] stands for that falsy value, as
    only its truthiness is tested afterwards. *)
Definition choose_model_name (model_name : option string) : string :=
  if py_truthy model_name then
    match model_name with Some n => n | None => "" end
  else
    let available_models := list_available_models in
    let no_models := match available_models with [] => true | _ => false end in
    let name1 :=
      match find (fun m => existsb (String.eqb m) available_models || no_models)
                 preferred_models with
      | Some m => m
      | None => ""
      end in
    let name2 :=
      if (name1 =? "") && negb no_models then hd "" available_models else name1 in
    if name2 =? "" then "models/gemini-flash-latest" else name2.

(** The [for fallback_model in fallback_models] loop: the names tried, and
    the model of the first that constructs. *)
Fixpoint try_fallbacks (model_name : string) (fs : list string)
  : list string * option gen_model :=
  match fs with
  | [] => ([], None)
  | fallback_model :: fs' =>
      if negb (fallback_model =? model_name) then
        match GenerativeModel fallback_model with
        | Returns model => ([fallback_model], Some model)
        | Raises _ =>
            let '(tried, r) := try_fallbacks model_name fs' in
            (fallback_model :: tried, r)
        end
      else try_fallbacks model_name fs'
  end.

(** [initialize_chatbot(model_name=None)]: the names passed to
    [GenerativeModel], in order, and the model returned ([None] for
    Python's [None]). *)
Definition initialize_chatbot (model_name : option string)
  : list string * option gen_model :=
  if negb GEMINI_AVAILABLE then ([], None)
  else if GEMINI_API_KEY =? "" then ([], None)
  else
    let model_name := choose_model_name model_name in
    match GenerativeModel model_name with
    | Returns model => ([model_name], Some model)
    | Raises _ =>
        let '(tried, r) := try_fallbacks model_name fallback_models in
        (model_name :: tried, r)
    end.

(** [ask_question(model, question, context_data=None)]; [None] stands for
    a falsy [model]. *)
Definition ask_question (model : option gen_model) (question : string)
           (context_data : option analysis_summary) : string :=
  match model with
  | None => unavailable_msg
  | Some m =>
      match generate_content m (build_prompt question context_data) with
      | Returns text => text
      | Raises e => error_prefix ++ e
      end
  end.

End Gemini.
End Chatbot.

(* ------------------------------------------------------------------ *)
(** ** [web_dashboard.py]: the Dash callbacks *)

Module Web.
Import Lang Sentiment YouTube Pipeline Dashboard Chatbot PyFmt.

(** The first output of [update_dashboard]: [""] or the error [html.Div],
    of which the text of its [html.P] is kept. *)
Inductive status_message : Type :=
| NoMessage
| ErrorMessage (text : string).

(** The ten outputs of [update_dashboard].  A figure is the pair of lists
    given to [px.pie] / [px.bar] ([None] for [{}]); a list of top comments
    is the [(author + ": ", text)] of each [html.Li] ([None] for [""]). *)
Record dashboard_view : Type := {
  loading_message : status_message;
  results_display : bool;   (* [{'display': 'block'}] / [{'display': 'none'}] *)
  total_text : string;
  positive_text : string;
  negative_text : string;
  neutral_text : string;
  sentiment_fig : option (list (string * nat));
  language_fig : option (list (string * nat));
  top_positive_html : option (list (string * string));
  top_negative_html : option (list (string * string))
}.

Definition reset_view : dashboard_view :=
  {| loading_message := NoMessage; results_display := false;
     total_text := "0"; positive_text := "0"; negative_text := "0"; neutral_text := "0";
     sentiment_fig := None; language_fig := None;
     top_positive_html := None; top_negative_html := None |}.

Definition error_view (e : string) : dashboard_view :=
  {| loading_message := ErrorMessage ("Error: " ++ e); results_display := false;
     total_text := "0"; positive_text := "0"; negative_text := "0"; neutral_text := "0";
     sentiment_fig := None; language_fig := None;
     top_positive_html := None; top_negative_html := None |}.

(** [sentiment_counts.get(k, 0)] *)
Definition counter_get (k : string) (m : list (string * nat)) : nat :=
  match Vocab.lookup k m with
  | Some n => n
  | None => 0
  end.

(** [html.Li([html.Strong(comment['author'] + ": "), comment['text']])] *)
Definition comment_item (c : processed_comment) : string * string :=
  (p_author c ++ ": ", p_text c).

(** An entry of the [chatbot-history] children. *)
Inductive chat_entry : Type :=
| YouSaid (text : string)
| BotSaid (text : string).

(** The [chat_history] state: [None], a list, or another value. *)
Inductive history_value : Type :=
| HistNone
| HistList (entries : list chat_entry)
| HistOther.

Section Callbacks.

Variable langdetect : string -> outcome string.
Variable google_translate : string -> outcome (option string).
Variable textblob_sentiment : string -> blob_sentiment.
Variable YOUTUBE_API_KEY : option string.
Variable youtube_build : outcome unit.
Variable commentThreads_list : string -> option string -> Z -> outcome api_page.
Variable GEMINI_AVAILABLE : bool.
Variable GEMINI_API_KEY : string.
Variable list_models : option (outcome (list model_info)).
Variable gen_model : Type.
Variable GenerativeModel : string -> outcome gen_model.
Variable generate_content : gen_model -> string -> outcome string.

(** The module's globals.  [analysis_summary] starts as [{}], falsy like
    [None]. *)
Record web_state : Type := {
  processed_data : list processed_comment;
  analysis_summary : option Summary.analysis_summary;
  chatbot_model : option gen_model
}.

Definition initial_state : web_state :=
  {| processed_data := []; analysis_summary := None; chatbot_model := None |}.

(** [update_dashboard(n_clicks, video_url, max_comments, fetch_all_value)]
    on the globals [st]: the new globals and the outputs, or [None] when
    the fetch does not end within [fuel] pages.  [max_comments] is the
    number the input holds.  Only [process_comments] can raise in the
    [try] block; its error text is [str(e)]. *)
Definition update_dashboard (fuel : nat) (n_clicks : Z) (video_url : option string)
           (max_comments : Z) (fetch_all_value : list string) (st : web_state)
  : option (web_state * dashboard_view) :=
  if (n_clicks =? 0)%Z || negb (py_truthy video_url) then Some (st, reset_view)
  else
    let video_url := match video_url with Some u => u | None => "" end in
    let fetch_all := existsb (String.eqb "yes") fetch_all_value in
    match process_comments langdetect google_translate textblob_sentiment
            YOUTUBE_API_KEY youtube_build commentThreads_list fuel video_url
            (if fetch_all then None else Some max_comments) with
    | ProcessOutOfFuel => None
    | ProcessError e => Some (st, error_view e)
    | Processed processed_data =>
        let analysis_summary := Summary.get_analysis_summary processed_data in
        let chatbot_model :=
          snd (initialize_chatbot GEMINI_AVAILABLE GEMINI_API_KEY list_models gen_model
                 GenerativeModel (Some "models/gemini-flash-latest")) in
        let total_comments := Summary.total_comments analysis_summary in
        let sentiment_counts := Summary.counter (map p_sentiment processed_data) in
        let positive_count := counter_get "Positive" sentiment_counts in
        let negative_count := counter_get "Negative" sentiment_counts in
        let neutral_count := counter_get "Neutral" sentiment_counts in
        let language_counts := Summary.counter (map original_language processed_data) in
        let positive_comments := Summary.with_sentiment "Positive" processed_data in
        let negative_comments := Summary.with_sentiment "Negative" processed_data in
        let top_positive := firstn 3 (sorted_by_polarity true positive_comments) in
        let top_negative := firstn 3 (sorted_by_polarity false negative_comments) in
        Some ({| processed_data := processed_data;
                 analysis_summary := Some analysis_summary;
                 chatbot_model := chatbot_model |},
              {| loading_message := NoMessage; results_display := true;
                 total_text := py_str_nat total_comments;
                 positive_text := py_str_nat positive_count;
                 negative_text := py_str_nat negative_count;
                 neutral_text := py_str_nat neutral_count;
                 sentiment_fig := Some sentiment_counts;
                 language_fig := Some language_counts;
                 top_positive_html := Some (map comment_item top_positive);
                 top_negative_html := Some (map comment_item top_negative) |})
    end.

(** [update_chatbot(n_clicks, user_input, chat_history)] on the globals
    [st].  [ask_question] catches every exception itself, so the
    [except] branch around it is never taken. *)
Definition update_chatbot (st : web_state) (n_clicks : Z) (user_input : option string)
           (chat_history : history_value) : history_value :=
  let chat_history := match chat_history with HistNone => HistList [] | h => h end in
  if (n_clicks =? 0)%Z || negb (py_truthy user_input) then chat_history
  else
    let user_input := match user_input with Some u => u | None => "" end in
    let new_history :=
      match chat_history with
      | HistList l => (l ++ [YouSaid user_input])%list
      | _ => [YouSaid user_input]
      end in
    let bot_message :=
      match chatbot_model st with
      | Some m => BotSaid (ask_question gen_model generate_content (Some m) user_input
                                       (analysis_summary st))
      | None => BotSaid unavailable_msg
      end in
    HistList (new_history ++ [bot_message])%list.

End Callbacks.
End Web.

(* ------------------------------------------------------------------ *)
(** ** Observations on the chatbot and the web callbacks *)

Module CbVocab.
Import Lang Sentiment YouTube Chatbot Web.

(** [GenerativeModel(n)] raises. *)
Definition raised {gen_model : Type} (GenerativeModel : string -> outcome gen_model)
           (n : string) : Prop :=
  exists e, GenerativeModel n = Raises e.

(** The entries a chat turn starts from. *)
Definition hist_entries (h : history_value) : list chat_entry :=
  match h with HistList l => l | _ => [] end.

(** A run of [update_dashboard] from the initial globals, on an upstream
    serving [Vocab.sample_pages], every text read as English with
    polarity 1, and a chatbot whose library is missing. *)
Definition sample_langdetect : string -> outcome string := fun _ => Returns "en".
Definition sample_translate : string -> outcome (option string) := fun _ => Returns None.
Definition sample_textblob : string -> blob_sentiment := fun _ => HasPolarity 1.
Definition sample_generate : unit -> string -> outcome string := fun _ _ => Returns "ok".

Definition sample_update : option (web_state unit * dashboard_view) :=
  update_dashboard sample_langdetect sample_translate sample_textblob (Some "key")
    (Returns tt) (Vocab.paged_api Vocab.sample_pages) false "" None unit
    (fun _ => Returns tt) 5 1 (Some Vocab.sample_url) 50 [] (initial_state unit).

Definition sample_result : web_state unit * dashboard_view :=
  match sample_update with
  | Some r => r
  | None => (initial_state unit, reset_view)
  end.

End CbVocab.

(* ------------------------------------------------------------------ *)
(** ** [auth.py]: registration and login *)

Module Auth.
Import Chatbot.
Local Open Scope nat_scope.

(** A row of the [User] table ([created_at] is not read by the code). *)
Record user : Type := {
  user_pk : nat;
  username : string;
  email : string;
  password_hash : string;
  last_login : option string;
  is_active : bool
}.

(** A row of the [LoginHistory] table. *)
Record login_record : Type := {
  record_user_id : nat;
  ip_address : option string;
  user_agent : option string
}.

Record auth_db : Type := {
  users : list user;
  login_history : list login_record
}.

(** A flashed message and its category. *)
Definition flash : Type := (string * string)%type.

Inductive response : Type :=
| Render (template : string)
| Redirect (location : string).

(** [url_for(...)] of the routes used; the blueprint is mounted at [/auth]. *)
Definition url_login : string := "/auth/login".
Definition url_register : string := "/auth/register".
Definition url_dashboard : string := "/dashboard/".

(** The primary key SQLite gives the next row: one more than the largest. *)
Definition next_pk (us : list user) : nat := S (fold_right (fun u m => Nat.max (user_pk u) m) 0 us).

(** [User.query.filter_by(username=username).first()] *)
Definition find_by_username (name : string) (us : list user) : option user :=
  find (fun u => String.eqb (username u) name) us.

(** [User.query.filter_by(email=email).first()] *)
Definition find_by_email (mail : string) (us : list user) : option user :=
  find (fun u => String.eqb (email u) mail) us.

(** [password != confirm_password] on the form values ([None] when absent). *)
Definition opt_str_eqb (a b : option string) : bool :=
  match a, b with
  | Some x, Some y => String.eqb x y
  | None, None => true
  | _, _ => false
  end.

Section Routes.

(** [generate_password_hash(password)]: the hash this call returns. *)
Variable generate_password_hash : string -> string.
(** [check_password_hash(pwhash, password)] *)
Variable check_password_hash : string -> string -> bool.
(** [datetime.utcnow()] at the time of the request. *)
Variable utcnow : string.
(** [request.environ.get('HTTP_X_REAL_IP', request.remote_addr)] and
    [request.headers.get('User-Agent')]. *)
Variable client_ip : option string.
Variable client_agent : option string.

(** [register()] on a POST: the flashed message, the redirect and the new
    database. *)
Definition register (username email password confirm_password : option string)
           (db : auth_db) : flash * response * auth_db :=
  if negb (py_truthy username) || negb (py_truthy email) || negb (py_truthy password) then
    (("All fields are required", "error"), Redirect url_register, db)
  else if negb (opt_str_eqb password confirm_password) then
    (("Passwords do not match", "error"), Redirect url_register, db)
  else
    let username := match username with Some u => u | None => "" end in
    let email := match email with Some e => e | None => "" end in
    let password := match password with Some p => p | None => "" end in
    if String.length password <? 6 then
      (("Password must be at least 6 characters long", "error"), Redirect url_register, db)
    else if find_by_username username (users db) then
      (("Username already exists", "error"), Redirect url_register, db)
    else if find_by_email email (users db) then
      (("Email already registered", "error"), Redirect url_register, db)
    else
      let new_user := {| user_pk := next_pk (users db); username := username; email := email;
                         password_hash := generate_password_hash password;
                         last_login := None; is_active := true |} in
      (("Registration successful. Please log in.", "success"), Redirect url_login,
       {| users := (users db ++ [new_user])%list; login_history := login_history db |}).

(** [user.last_login = datetime.utcnow()] on the row of [pk]. *)
Definition set_last_login (pk : nat) (us : list user) : list user :=
  map (fun u => if user_pk u =? pk then
                  {| user_pk := user_pk u; username := username u; email := email u;
                     password_hash := password_hash u; last_login := Some utcnow;
                     is_active := is_active u |}
                else u) us.

(** [login()] on a POST, with [next] the [next] query argument: the
    flashed message if any, the response, the new database and the user
    [login_user] logged in ([login_user] refuses an inactive user; the
    route does not look at its result). *)
Definition login (username password next : option string) (db : auth_db)
  : option flash * response * auth_db * option nat :=
  if negb (py_truthy username) || negb (py_truthy password) then
    (Some ("Username and password are required", "error"), Render "login.html", db, None)
  else
    let username := match username with Some u => u | None => "" end in
    let password := match password with Some p => p | None => "" end in
    match find_by_username username (users db) with
    | Some u =>
        if check_password_hash (password_hash u) password then
          let logged := if is_active u then Some (user_pk u) else None in
          let db' := {| users := set_last_login (user_pk u) (users db);
                        login_history := (login_history db
                                          ++ [{| record_user_id := user_pk u;
                                                 ip_address := client_ip;
                                                 user_agent := client_agent |}])%list |} in
          let target := if py_truthy next then match next with Some n => n | None => "" end
                        else url_dashboard in
          (None, Redirect target, db', logged)
        else (Some ("Invalid username or password", "error"), Render "login.html", db, None)
    | None => (Some ("Invalid username or password", "error"), Render "login.html", db, None)
    end.

End Routes.
End Auth.

Module AuthVocab.
Import Auth.

(** A hash function and its check, and a table with one user. *)
Definition sample_hash (pw : string) : string := "pbkdf2:" ++ pw.
Definition sample_check (h pw : string) : bool := String.eqb h ("pbkdf2:" ++ pw).

Definition sample_db : auth_db :=
  {| users := [{| user_pk := 1; username := "alice"; email := "alice@example.org";
                  password_hash := sample_hash "alice-pw"; last_login := None;
                  is_active := true |}];
     login_history := [] |}.

End AuthVocab.

(* ------------------------------------------------------------------ *)
(** ** [app.py]: the [/api/analyze] route *)

Module Api.
Import Lang Sentiment YouTube Pipeline Summary PyFmt.

(** One character of [json.dumps(s)] ([ensure_ascii=True]): the
    backslash, the double quote and the characters outside [[ -~]] are
    escaped, the named ones by their short escape, the others as
    [\u00xx]. *)
Definition json_escape_char (c : ascii) : string :=
  let n := PyStr.code c in
  if Ascii.eqb c bslash || Ascii.eqb c dquote then String bslash (String c "")
  else if (n =? 8)%nat then String bslash "b"
  else if (n =? 12)%nat then String bslash "f"
  else if (n =? 10)%nat then String bslash "n"
  else if (n =? 13)%nat then String bslash "r"
  else if (n =? 9)%nat then String bslash "t"
  else if (32 <=? n)%nat && (n <=? 126)%nat then String c ""
  else String bslash (String "u" (String "0" (String "0"
         (String (hex_digit (n / 16)) (String (hex_digit (n mod 16)) ""))))).

(** [json.dumps] of a [str]. *)
Definition json_str (s : string) : string :=
  String dquote (String.concat "" (map json_escape_char (list_ascii_of_string s))
                 ++ String dquote "").

(** [json.dumps(dict(Counter(...)))]: default separators [', '] and [': ']. *)
Definition json_dumps_counts (d : list (string * nat)) : string :=
  "{" ++ String.concat ", " (map (fun kv => json_str (fst kv) ++ ": " ++ py_str_nat (snd kv)) d)
  ++ "}".

(** A row of the [SearchHistory] table ([title] stays [NULL]; [created_at]
    is not read by the code). *)
Record search_row : Type := {
  sh_id : nat;
  sh_user_id : nat;
  sh_youtube_url : string;
  sh_video_id : string;
  sh_total_comments : nat;
  sh_sentiment_distribution : string;
  sh_language_distribution : string
}.

(** A row of the [CommentAnalysis] table. *)
Record comment_row : Type := {
  ca_id : nat;
  ca_search_id : nat;
  ca_comment_id : string;
  ca_author : string;
  ca_text : string;
  ca_original_language : string;
  ca_sentiment : string;
  ca_polarity : Q;
  ca_is_toxic : bool
}.

Record analysis_db : Type := {
  search_history : list search_row;
  comment_analysis : list comment_row
}.

(** The id SQLite gives the next row of a table with an integer primary
    key: one more than the largest. *)
Definition next_search_id (rows : list search_row) : nat :=
  S (fold_right (fun r m => Nat.max (sh_id r) m) 0%nat rows).
Definition next_comment_id (rows : list comment_row) : nat :=
  S (fold_right (fun r m => Nat.max (ca_id r) m) 0%nat rows).

(** The [CommentAnalysis] rows of [for comment in processed_comments[:50]],
    added in order, with ids from [next]. *)
Fixpoint comment_rows (search_id next : nat) (cs : list processed_comment)
  : list comment_row :=
  match cs with
  | [] => []
  | c :: cs' =>
      {| ca_id := next; ca_search_id := search_id; ca_comment_id := p_id c;
         ca_author := p_author c; ca_text := p_text c;
         ca_original_language := original_language c; ca_sentiment := p_sentiment c;
         ca_polarity := p_polarity c; ca_is_toxic := is_toxic c |}
      :: comment_rows search_id (S next) cs'
  end.

(** The JSON body of a successful analysis. *)
Record analyze_body : Type := {
  body_comments : list processed_comment;
  body_total_comments : nat;
  body_sentiment_distribution : list (string * nat);
  body_language_distribution : list (string * nat);
  body_sample_comments : list string * list string * list string
}.

(** [jsonify({'success': True, ...})] or [jsonify({'error': msg}), status]. *)
Inductive api_response : Type :=
| ApiOk (body : analyze_body)
| ApiError (error : string) (status : nat).

Definition url_required_msg : string := "YouTube URL is required".

Section Analyze.

Variable langdetect : string -> outcome string.
Variable google_translate : string -> outcome (option string).
Variable textblob_sentiment : string -> blob_sentiment.
Variable YOUTUBE_API_KEY : option string.
Variable youtube_build : outcome unit.
Variable commentThreads_list : string -> option string -> Z -> outcome api_page.

(** [api_analyze()] for the logged-in user [user_id], on the request
    fields [url], [max_comments] and [fetch_all] ([None] when the key is
    absent), with [fuel] bounding the fetch loops ([None] when it runs
    out).  The body of its [for] loop is the one of [process_comments],
    hence [process_loop]; the database is taken to accept every write. *)
Definition api_analyze (fuel : nat) (user_id : nat) (url : option string)
           (max_comments : option Z) (fetch_all : option bool) (db : analysis_db)
  : option (api_response * analysis_db) :=
  match url with
  | None => Some (ApiError url_required_msg 400, db)
  | Some youtube_url =>
      if String.eqb youtube_url "" then Some (ApiError url_required_msg 400, db)
      else
        let max_comments := match max_comments with Some m => m | None => 100%Z end in
        let fetch_all := match fetch_all with Some b => b | None => false end in
        let fetched :=
          if fetch_all
          then snd (fetch_all_comments YOUTUBE_API_KEY youtube_build commentThreads_list
                                       fuel youtube_url)
          else snd (fetch_comments YOUTUBE_API_KEY youtube_build commentThreads_list
                                   fuel youtube_url max_comments) in
        match fetched with
        | OutOfFuel => None
        | FetchError e => Some (ApiError e 500, db)
        | Fetched comments =>
            let processed_comments :=
              process_loop langdetect google_translate textblob_sentiment comments in
            let sentiment_distribution := counter (map p_sentiment processed_comments) in
            let language_distribution := counter (map original_language processed_comments) in
            let db' :=
              match get_video_id youtube_url with
              | Some video_id =>
                  if String.eqb video_id "" then db
                  else
                    let search_id := next_search_id (search_history db) in
                    let search :=
                      {| sh_id := search_id; sh_user_id := user_id;
                         sh_youtube_url := youtube_url; sh_video_id := video_id;
                         sh_total_comments := length processed_comments;
                         sh_sentiment_distribution := json_dumps_counts sentiment_distribution;
                         sh_language_distribution := json_dumps_counts language_distribution |} in
                    {| search_history := (search_history db ++ [search])%list;
                       comment_analysis :=
                         (comment_analysis db
                          ++ comment_rows search_id (next_comment_id (comment_analysis db))
                                          (firstn 50 processed_comments))%list |}
              | None => db
              end in
            Some (ApiOk {| body_comments := processed_comments;
                           body_total_comments := length processed_comments;
                           body_sentiment_distribution := sentiment_distribution;
                           body_language_distribution := language_distribution;
                           body_sample_comments := api_sample_comments processed_comments |},
                  db')
        end
  end.

End Analyze.

(** An empty database and a request on the sample video, all comments
    English and positive. *)
Definition empty_db : analysis_db := {| search_history := []; comment_analysis := [] |}.

Definition sample_analyze : option (api_response * analysis_db) :=
  api_analyze CbVocab.sample_langdetect CbVocab.sample_translate CbVocab.sample_textblob
              (Some "key") (Returns tt) (Vocab.paged_api Vocab.sample_pages)
              5 7 (Some Vocab.sample_url) None None empty_db.

Definition sample_body : analyze_body :=
  match sample_analyze with
  | Some (ApiOk b, _) => b
  | _ => {| body_comments := []; body_total_comments := 0; body_sentiment_distribution := [];
            body_language_distribution := []; body_sample_comments := ([], [], []) |}
  end.

Definition sample_saved_db : analysis_db :=
  match sample_analyze with Some (_, db') => db' | None => empty_db end.

End Api.

(* ------------------------------------------------------------------ *)
(** ** [main.py]: [interactive_chatbot] *)

Module MainChat.
Import Lang Summary Chatbot.

(** How the session ends: [break] on [exit] or [quit], or the [EOFError]
    [input()] raises when the input has no line left, which propagates. *)
Inductive session_end : Type :=
| SessionExit
| SessionEOFError.

(** [question.lower() in ['exit', 'quit']] *)
Definition is_exit (question : string) : bool :=
  String.eqb (PyStr.lower question) "exit" || String.eqb (PyStr.lower question) "quit".

(** The prompt [input] writes, and what [print(f"\nBot: {response}")] writes. *)
Definition you_prompt : string := nl ++ "You: ".
Definition bot_line (response : string) : string := nl ++ "Bot: " ++ response ++ nl.

Section Session.

Variable gen_model : Type.
Variable generate_content : gen_model -> string -> outcome string.
Variable model : option gen_model.
Variable context_data : option analysis_summary.

(** The [while True] loop over the lines [input()] reads: what it writes
    to standard output, and how it ends. *)
Fixpoint chat_loop (lines : list string) : list string * session_end :=
  match lines with
  | [] => ([you_prompt], SessionEOFError)
  | line :: rest =>
      let question := PyStr.strip line in
      if is_exit question then ([you_prompt], SessionExit)
      else
        let '(out, e) := chat_loop rest in
        if negb (String.eqb question "")
        then (you_prompt :: bot_line (ask_question gen_model generate_content model
                                        question context_data) :: out, e)
        else (you_prompt :: out, e)
  end.

(** [interactive_chatbot(model, context_data)] *)
Definition interactive_chatbot (lines : list string) : list string * session_end :=
  let '(out, e) := chat_loop lines in
  ((nl ++ "--- Chatbot Session ---" ++ nl)
   :: ("Ask questions about the analysis or type 'exit' to quit." ++ nl) :: out, e).

End Session.

(** The lines of the output that [print(f"\nBot: ...")] wrote. *)
Definition bot_lines (out : list string) : list string :=
  filter (fun l => String.prefix (nl ++ "Bot: ") l) out.

Definition sample_session : list string :=
  ["  What do people like?  "; "   "; "Why?"; " QUIT "; "ignored"].

End MainChat.

(* ================================================================== *)
(** * Properties *)

(* ------------------------------------------------------------------ *)
(** ** Strings *)

Module StrFacts.
Import PyStr.

Lemma prefix_app_self : forall s t, prefix s (s ++ t) = true.
Proof.
  induction s as [|a s IH]; intro t; [destruct t; reflexivity|]; simpl.
  destruct (ascii_dec a a) as [_|n]; [apply IH | congruence].
Qed.

Lemma contains_of_prefix : forall needle hay,
  prefix needle hay = true -> contains needle hay = true.
Proof. intros needle hay H; destruct hay; simpl in *; rewrite H; reflexivity. Qed.

Lemma contains_app_l : forall needle a b,
  contains needle b = true -> contains needle (a ++ b) = true.
Proof.
  intros needle a b H; induction a as [|c a IH]; simpl; [exact H|].
  rewrite IH, orb_true_r; reflexivity.
Qed.

Lemma contains_middle : forall pre needle post,
  contains needle (pre ++ needle ++ post) = true.
Proof.
  intros pre needle post; apply contains_app_l.
  apply contains_of_prefix, prefix_app_self.
Qed.

Lemma lower_app : forall a b, lower (a ++ b) = lower a ++ lower b.
Proof.
  induction a as [|c a IH]; intro b; simpl; [reflexivity|]; rewrite IH; reflexivity.
Qed.

Lemma isspace_not_alnum : forall c, isspace c = true -> isalnum c = false.
Proof.
  intros c; destruct c as [[] [] [] [] [] [] [] []]; vm_compute; congruence.
Qed.

Lemma all_not_alnum_spec : forall t,
  all_not_alnum t = true <->
  (forall c, In c (list_ascii_of_string t) -> isalnum c = false).
Proof.
  intro t; unfold all_not_alnum; rewrite forallb_forall; split; intros H c Hc.
  - apply negb_true_iff, H, Hc.
  - apply negb_true_iff, H, Hc.
Qed.

End StrFacts.

(* ------------------------------------------------------------------ *)
(** ** Language detection and translation *)

Module LangFacts.
Import Lang PyStr StrFacts.

Lemma detect_language_no_alnum : forall langdetect text,
  all_not_alnum text = true -> detect_language langdetect text = "unknown".
Proof.
  intros langdetect text H; unfold detect_language.
  destruct ((text =? "") || (strip text =? "")); [reflexivity|].
  rewrite H; reflexivity.
Qed.

(** C4: input that is empty, whitespace-only or without an alphanumeric
    character gives ['unknown'] whatever the detector does (so the
    detector is not consulted); a raising detector gives ['unknown'].
    The function returns a string on every input: it never raises. *)
Theorem detect_language_unknown_and_total : forall langdetect text,
  ((text = ""
    \/ (forall c, In c (list_ascii_of_string text) -> isspace c = true)
    \/ (forall c, In c (list_ascii_of_string text) -> isalnum c = false)) ->
   forall other_detector : string -> outcome string,
     detect_language langdetect text = "unknown"
     /\ detect_language other_detector text = "unknown")
  /\ (forall err, langdetect text = Raises err ->
        detect_language langdetect text = "unknown").
Proof.
  intros langdetect text; split.
  - intros H other.
    assert (Hn : all_not_alnum text = true).
    { apply all_not_alnum_spec.
      destruct H as [-> | [Hs | Ha]].
      - intros c [].
      - intros c Hc; apply isspace_not_alnum, Hs, Hc.
      - exact Ha. }
    split; apply detect_language_no_alnum, Hn.
  - intros err Herr; unfold detect_language.
    destruct ((text =? "") || (strip text =? "")); [reflexivity|].
    destruct (all_not_alnum text); [reflexivity|].
    rewrite Herr; reflexivity.
Qed.

(** C3 (defect): a backend that returns the empty string for a non-empty,
    non-English text makes [translate_to_english] return the empty
    string: only [None] falls back to the original text. *)
Theorem translate_to_english_empty_backend_result :
  translate_to_english (fun _ => Returns "fr") (fun _ => Returns (Some ""))
    "bonjour" None = "".
Proof. reflexivity. Qed.

End LangFacts.

(* ------------------------------------------------------------------ *)
(** ** Sentiment and toxicity *)

Module SentimentFacts.
Import Sentiment PyStr StrFacts.

Lemma label_of_cases : forall p,
  (py_0_1 < p /\ label_of p = "Positive")%Q
  \/ (p < - py_0_1 /\ label_of p = "Negative")%Q
  \/ (- py_0_1 <= p /\ p <= py_0_1 /\ label_of p = "Neutral")%Q.
Proof.
  intro p; unfold label_of.
  destruct (Qle_bool p py_0_1) eqn:E1; simpl.
  - apply Qle_bool_iff in E1.
    destruct (Qle_bool (- py_0_1) p) eqn:E2; simpl.
    + apply Qle_bool_iff in E2; right; right; auto.
    + right; left; split; [|reflexivity].
      apply Qnot_le_lt; intro H; apply Qle_bool_iff in H; congruence.
  - left; split; [|reflexivity].
    apply Qnot_le_lt; intro H; apply Qle_bool_iff in H; congruence.
Qed.

Lemma py_0_1_pos : (0 < py_0_1)%Q.
Proof. reflexivity. Qed.

(** C2: the label is a function of the polarity with the thresholds
    [> 0.1] and [< -0.1], boundaries [Neutral]; a raising scorer gives
    [{'Neutral', 0.0}].  The result is a value on every input. *)
Theorem analyze_sentiment_thresholds : forall textblob_sentiment text,
  let r := analyze_sentiment textblob_sentiment text in
  sentiment r = label_of (polarity r)
  /\ (sentiment r = "Positive" <-> py_0_1 < polarity r)%Q
  /\ (sentiment r = "Negative" <-> polarity r < - py_0_1)%Q
  /\ (sentiment r = "Neutral" <-> - py_0_1 <= polarity r /\ polarity r <= py_0_1)%Q
  /\ label_of py_0_1 = "Neutral"
  /\ label_of (- py_0_1) = "Neutral"
  /\ (forall err, textblob_sentiment text = BlobRaises err ->
        r = {| sentiment := "Neutral"; polarity := 0 |}).
Proof.
  intros textblob_sentiment text r.
  assert (Hlab : sentiment r = label_of (polarity r)).
  { unfold r, analyze_sentiment.
    destruct (textblob_sentiment text); reflexivity. }
  assert (H0 := py_0_1_pos).
  split; [exact Hlab|].
  rewrite Hlab.
  destruct (label_of_cases (polarity r)) as [[Hp ->] | [[Hp ->] | [Hp1 [Hp2 ->]]]].
  - repeat split; try discriminate; try (intros; lra).
    all: try (intros [? ?]; lra); try (intros; exfalso; lra); try reflexivity.
    all: try (intros err E; unfold r in *; unfold analyze_sentiment in *;
              rewrite E in *; simpl in *; lra).
  - repeat split; try discriminate; try (intros; lra).
    all: try (intros [? ?]; lra); try (intros; exfalso; lra); try reflexivity.
    all: try (intros err E; unfold r in *; unfold analyze_sentiment in *;
              rewrite E in *; simpl in *; lra).
  - repeat split; try discriminate; try (intros; lra); try reflexivity.
    all: try (intros err E; unfold r; unfold analyze_sentiment; rewrite E; reflexivity).
Qed.

Lemma keyword_loop_spec : forall t kws,
  keyword_loop t kws = true <-> exists kw, In kw kws /\ contains kw t = true.
Proof.
  intros t kws; induction kws as [|kw kws IH]; simpl.
  - split; [discriminate | intros [kw [[] _]]].
  - destruct (contains kw t) eqn:E.
    + split; [intros _; exists kw; auto | reflexivity].
    + rewrite IH; split.
      * intros [k [Hin Hc]]; exists k; auto.
      * intros [k [[<- | Hin] Hc]]; [congruence | exists k; auto].
Qed.

Lemma pattern_loop_spec : forall t ps,
  pattern_loop t ps = true <-> exists p, In p ps /\ Re.search p t <> None.
Proof.
  intros t ps; induction ps as [|p ps IH]; simpl.
  - split; [discriminate | intros [p [[] _]]].
  - destruct (Re.search p t) eqn:E.
    + split; [intros _; exists p; split; [auto | congruence] | reflexivity].
    + rewrite IH; split.
      * intros [q [Hin Hc]]; exists q; auto.
      * intros [q [[<- | Hin] Hc]]; [congruence | exists q; auto].
Qed.

(** C5: [detect_toxicity] holds exactly when the lowercased text contains
    a keyword or matches a pattern; a keyword written in any case inside
    any text is found; a clean sentence is not flagged.  It is a total
    boolean function. *)
Theorem detect_toxicity_keywords_or_patterns :
  (forall text,
     detect_toxicity text = true <->
     (exists kw, In kw toxicity_keywords /\ contains kw (lower text) = true)
     \/ (exists p, In p toxic_patterns /\ Re.search p (lower text) <> None))
  /\ (forall pre keyword_in_any_case post,
        In (lower keyword_in_any_case) toxicity_keywords ->
        detect_toxicity (pre ++ keyword_in_any_case ++ post) = true)
  /\ detect_toxicity "What a lovely song, thanks for sharing it with us." = false.
Proof.
  split; [|split].
  - intro text; unfold detect_toxicity.
    rewrite <- keyword_loop_spec, <- pattern_loop_spec.
    destruct (keyword_loop (lower text) toxicity_keywords); simpl.
    + split; auto.
    + split; [auto | intros [H|H]; [discriminate | exact H]].
  - intros pre k post Hin; unfold detect_toxicity.
    replace (keyword_loop (lower (pre ++ k ++ post)) toxicity_keywords) with true;
      [reflexivity|].
    symmetry; apply keyword_loop_spec; exists (lower k); split; [exact Hin|].
    rewrite !lower_app; apply contains_middle.
  - vm_compute; reflexivity.
Qed.

End SentimentFacts.

(* ------------------------------------------------------------------ *)
(** ** The enrichment pipeline *)

Module PipelineFacts.
Import Lang Sentiment YouTube Pipeline.

Lemma process_loop_acc : forall ld gt tb comments acc,
  fold_left (fun processed comment => app processed [process_one ld gt tb comment])
            comments acc
  = app acc (map (process_one ld gt tb) comments).
Proof.
  intros ld gt tb comments; induction comments as [|c cs IH]; intro acc; simpl.
  - rewrite app_nil_r; reflexivity.
  - rewrite IH, <- app_assoc; reflexivity.
Qed.

Lemma process_loop_map : forall ld gt tb comments,
  process_loop ld gt tb comments = map (process_one ld gt tb) comments.
Proof. intros; apply process_loop_acc. Qed.

(** C1: the loop of [process_comments] maps each raw comment, in order,
    to one record that keeps the six raw fields and adds the detected
    language of the raw text, the translated text, and the sentiment and
    toxicity of the translated text; [process_comments] applies this loop
    to the fetched list. *)
Theorem process_comments_enriches_in_order :
  forall langdetect google_translate textblob_sentiment
         (comments : list raw_comment),
  let out := process_loop langdetect google_translate textblob_sentiment comments in
  length out = length comments
  /\ (forall i c, nth_error comments i = Some c ->
      exists pc, nth_error out i = Some pc
        /\ p_id pc = id c /\ p_author pc = author c /\ p_text pc = text c
        /\ p_published_at pc = published_at c /\ p_like_count pc = like_count c
        /\ p_updated_at pc = updated_at c
        /\ original_language pc = detect_language langdetect (text c)
        /\ translated_text pc =
             (if original_language pc =? "en" then text c
              else translate_to_english langdetect google_translate (text c) None)
        /\ p_sentiment pc = sentiment (analyze_sentiment textblob_sentiment (translated_text pc))
        /\ p_polarity pc = polarity (analyze_sentiment textblob_sentiment (translated_text pc))
        /\ is_toxic pc = detect_toxicity (translated_text pc))
  /\ (forall key build api fuel url max_comments fetched,
        snd (match max_comments with
             | None => fetch_all_comments key build api fuel url
             | Some m => fetch_comments key build api fuel url m
             end) = Fetched fetched ->
        process_comments langdetect google_translate textblob_sentiment
          key build api fuel url max_comments
        = Processed (process_loop langdetect google_translate textblob_sentiment fetched)).
Proof.
  intros ld gt tb comments out; unfold out; rewrite process_loop_map.
  split; [apply length_map|split].
  - intros i c Hc; rewrite nth_error_map, Hc; simpl.
    eexists; split; [reflexivity|].
    unfold process_one; simpl.
    repeat split; try reflexivity.
    destruct (detect_language ld (text c) =? "en"); reflexivity.
  - intros key build api fuel url m fetched H; unfold process_comments.
    destruct m; rewrite H; reflexivity.
Qed.

End PipelineFacts.

(* ------------------------------------------------------------------ *)
(** ** [Counter] and the summary *)

Module SummaryFacts.
Import Pipeline Summary Vocab.
Local Open Scope nat_scope.

Lemma lookup_counter_add : forall k x m,
  lookup k (counter_add x m) =
  if String.eqb k x
  then Some (S (match lookup x m with Some n => n | None => 0 end))
  else lookup k m.
Proof.
  intros k x m; induction m as [|[k' n] m IH]; simpl.
  - destruct (String.eqb k x); reflexivity.
  - destruct (String.eqb x k') eqn:Exk; simpl.
    + apply String.eqb_eq in Exk; subst k'.
      destruct (String.eqb k x); reflexivity.
    + rewrite IH.
      destruct (String.eqb k k') eqn:Ekk'; destruct (String.eqb k x) eqn:Ekx;
        try reflexivity.
      apply String.eqb_eq in Ekk', Ekx; subst; rewrite String.eqb_refl in Exk;
        discriminate.
Qed.

Lemma keys_counter_add : forall x m,
  (forall k, In k (map fst (counter_add x m)) <-> k = x \/ In k (map fst m))
  /\ (NoDup (map fst m) -> NoDup (map fst (counter_add x m))).
Proof.
  intros x m; induction m as [|[k' n] m [IHin IHnd]]; simpl.
  - split; [intro k; split; intros [H|[]]; left; congruence
           | intros _; constructor; [intros []|constructor]].
  - destruct (String.eqb x k') eqn:Exk; simpl.
    + apply String.eqb_eq in Exk; subst k'.
      split; [intro k; split; [tauto | intros [->|H]; [left; reflexivity | exact H]]
             | exact (fun H => H)].
    + split.
      * intro k; rewrite IHin; tauto.
      * intro Hnd; inversion Hnd as [|? ? Hni Hnd']; subst; constructor.
        -- rewrite IHin; intros [->|H]; [|contradiction].
           rewrite String.eqb_refl in Exk; discriminate.
        -- apply IHnd, Hnd'.
Qed.

Lemma sum_counter_add : forall x m, sum_counts (counter_add x m) = S (sum_counts m).
Proof.
  intros x m; induction m as [|[k' n] m IH]; simpl; [reflexivity|].
  destruct (String.eqb x k'); simpl; [reflexivity | rewrite IH; lia].
Qed.

Lemma counter_snoc : forall xs x, counter (app xs [x]) = counter_add x (counter xs).
Proof. intros; unfold counter; rewrite fold_left_app; reflexivity. Qed.

(** [dict(Counter(xs))]: exact counts for the elements that occur and no
    entry for the others, distinct keys, and the counts add up to
    [len(xs)]. *)
Lemma counter_spec : forall xs,
  (forall k, lookup k (counter xs) =
             if count_occ String.string_dec xs k =? 0 then None
             else Some (count_occ String.string_dec xs k))
  /\ (forall k, In k (map fst (counter xs)) <-> In k xs)
  /\ NoDup (map fst (counter xs))
  /\ sum_counts (counter xs) = length xs.
Proof.
  induction xs as [|x xs [IHl [IHk [IHnd IHs]]]] using rev_ind.
  - simpl; split; [reflexivity | split; [tauto | split; [constructor | reflexivity]]].
  - rewrite counter_snoc; destruct (keys_counter_add x (counter xs)) as [Hk Hnd].
    split; [|split; [|split]].
    + intro k; rewrite lookup_counter_add, count_occ_app; simpl.
      destruct (String.eqb k x) eqn:Ekx.
      * apply String.eqb_eq in Ekx; subst k; rewrite IHl.
        destruct (String.string_dec x x) as [_|n]; [|congruence].
        destruct (count_occ String.string_dec xs x =? 0) eqn:E0;
          [apply Nat.eqb_eq in E0; rewrite E0|]; simpl;
          f_equal; try lia; rewrite Nat.add_1_r; reflexivity.
      * rewrite IHl; destruct (String.string_dec x k) as [e|_].
        -- subst; rewrite String.eqb_refl in Ekx; discriminate.
        -- rewrite Nat.add_0_r; reflexivity.
    + intro k; rewrite Hk, IHk, in_app_iff; simpl; intuition (subst; auto).
    + apply Hnd, IHnd.
    + rewrite sum_counter_add, IHs, length_app; simpl; lia.
Qed.

Lemma lookup_in_nodup : forall m k n,
  NoDup (map fst m) -> In (k, n) m -> lookup k m = Some n.
Proof.
  induction m as [|[k' n'] m IH]; intros k n Hnd Hin; simpl in *; [contradiction|].
  inversion Hnd as [|? ? Hni Hnd']; subst.
  destruct Hin as [Heq|Hin].
  - inversion Heq; subst; rewrite String.eqb_refl; reflexivity.
  - destruct (String.eqb k k') eqn:E.
    + apply String.eqb_eq in E; subst; exfalso; apply Hni.
      apply in_map_iff; exists (k', n); auto.
    + apply IH; auto.
Qed.

(** Every entry of [dict(Counter(xs))] is an element of [xs] with its
    number of occurrences, at least 1. *)
Lemma counter_entries : forall xs k n,
  In (k, n) (counter xs) ->
  In k xs /\ n = count_occ String.string_dec xs k /\ 1 <= n.
Proof.
  intros xs k n Hin; destruct (counter_spec xs) as [Hl [Hk [Hnd _]]].
  pose proof (lookup_in_nodup _ _ _ Hnd Hin) as Hlk; rewrite Hl in Hlk.
  destruct (count_occ String.string_dec xs k =? 0) eqn:E; [discriminate|].
  injection Hlk as Hn; apply Nat.eqb_neq in E.
  split; [apply Hk, in_map_iff; exists (k, n); auto | split; [congruence | lia]].
Qed.

(** C10: both distributions of [get_analysis_summary] hold an entry only
    for a label (language) that occurs, with its count, which is at least
    1; a label that does not occur has no entry (no zero count). *)
Theorem summary_distributions_only_occurring_keys : forall pcs,
  let s := get_analysis_summary pcs in
  (forall k n, In (k, n) (sentiment_distribution s) ->
     In k (map p_sentiment pcs) /\ 1 <= n
     /\ n = count_occ String.string_dec (map p_sentiment pcs) k)
  /\ (forall k, ~ In k (map p_sentiment pcs) ->
        lookup k (sentiment_distribution s) = None
        /\ ~ In k (map fst (sentiment_distribution s)))
  /\ (forall k n, In (k, n) (language_distribution s) ->
     In k (map original_language pcs) /\ 1 <= n
     /\ n = count_occ String.string_dec (map original_language pcs) k)
  /\ (forall k, ~ In k (map original_language pcs) ->
        lookup k (language_distribution s) = None
        /\ ~ In k (map fst (language_distribution s))).
Proof.
  intros pcs s; unfold s, get_analysis_summary; simpl.
  assert (Habs : forall xs k, ~ In k xs ->
            lookup k (counter xs) = None /\ ~ In k (map fst (counter xs))).
  { intros xs k Hk; destruct (counter_spec xs) as [Hl [Hkeys _]]; split.
    - rewrite Hl; apply (count_occ_not_In String.string_dec) in Hk; rewrite Hk;
        reflexivity.
    - rewrite Hkeys; exact Hk. }
  split; [|split; [|split]]; try apply Habs;
    intros k n Hin; destruct (counter_entries _ _ _ Hin) as [? [? ?]]; auto.
Qed.

Lemma substring_0_length : forall n t,
  String.length (substring 0 n t) = Nat.min n (String.length t).
Proof.
  induction n as [|n IH]; intro t; [destruct t; reflexivity|].
  destruct t as [|c t]; simpl; [reflexivity | rewrite IH; reflexivity].
Qed.

Lemma string_length_append : forall a b,
  String.length (a ++ b) = String.length a + String.length b.
Proof. induction a as [|c a IH]; intro b; simpl; [reflexivity | rewrite IH; reflexivity]. Qed.

Lemma excerpt_spec : forall t,
  (String.length t <= 100 -> excerpt t = t)
  /\ (100 < String.length t ->
      excerpt t = (substring 0 100 t ++ "...")%string
      /\ String.length (excerpt t) = 103).
Proof.
  intro t; unfold excerpt; split; intro H.
  - replace (100 <? String.length t) with false; [reflexivity|].
    symmetry; apply Nat.ltb_ge; exact H.
  - replace (100 <? String.length t) with true; [|symmetry; apply Nat.ltb_lt; exact H].
    split; [reflexivity|].
    rewrite string_length_append, substring_0_length, Nat.min_l by lia; reflexivity.
Qed.

(** The parts of C8 that hold: [get_analysis_summary] reports [K] comments and a
    sentiment distribution adding up to [K]; each of its sample lists
    holds the excerpts of the first (at most) 3 comments of the label in
    pipeline order, an excerpt being the text, or its first 100
    characters followed by ["..."] when longer.  The [/api/analyze]
    route lists the full texts of the first (at most) 5 comments of each
    label, and its sentiment distribution also adds up to [K]. *)
Theorem summary_totals_and_samples : forall pcs,
  let s := get_analysis_summary pcs in
  total_comments s = length pcs
  /\ sum_counts (sentiment_distribution s) = length pcs
  /\ (forall label samples,
        In (label, samples) [("Positive", sample_positive s);
                             ("Negative", sample_negative s);
                             ("Neutral", sample_neutral s)] ->
        length samples <= 3
        /\ samples = map (fun c => excerpt (p_text c))
                         (firstn 3 (with_sentiment label pcs)))
  /\ (forall t,
        (String.length t <= 100 -> excerpt t = t)
        /\ (100 < String.length t ->
            excerpt t = (substring 0 100 t ++ "...")%string
            /\ String.length (excerpt t) = 103))
  /\ sum_counts (fst (api_distributions pcs)) = length pcs
  /\ (forall label samples,
        In (label, samples) [("Positive", fst (fst (api_sample_comments pcs)));
                             ("Negative", snd (fst (api_sample_comments pcs)));
                             ("Neutral", snd (api_sample_comments pcs))] ->
        length samples <= 5
        /\ samples = firstn 5 (map p_text (with_sentiment label pcs))).
Proof.
  intros pcs s.
  destruct (SummaryFacts.counter_spec (map p_sentiment pcs)) as [_ [_ [_ Hsum]]].
  rewrite length_map in Hsum.
  split; [reflexivity|]; split; [exact Hsum|]; split; [|split; [|split; [exact Hsum|]]].
  - intros label samples Hin.
    destruct Hin as [H|[H|[H|[]]]]; injection H as <- <-;
      match goal with |- _ <= _ /\ ?x = ?y =>
        assert (E : x = y) by reflexivity; rewrite E end;
      (split; [rewrite length_map; apply firstn_le_length | reflexivity]).
  - exact excerpt_spec.
  - intros label samples Hin.
    destruct Hin as [H|[H|[H|[]]]]; injection H as <- <-;
      match goal with |- _ <= _ /\ ?x = ?y =>
        assert (E : x = y) by reflexivity; rewrite E end;
      (split; [apply firstn_le_length | reflexivity]).
Qed.

(** C8: the [/api/analyze] route does not truncate its samples, unlike
    [get_analysis_summary]: for one positive comment of 150 characters
    the route's positive sample is the whole text, while the summary's
    is its first 100 characters followed by ["..."]. *)
Theorem api_samples_not_truncated :
  let pcs := [long_positive_comment] in
  fst (fst (api_sample_comments pcs)) = [long_comment_text]
  /\ String.length long_comment_text = 150
  /\ sample_positive (get_analysis_summary pcs)
     = [(substring 0 100 long_comment_text ++ "...")%string].
Proof.
  intro pcs; split; [reflexivity|]; split; [vm_compute; reflexivity|].
  vm_compute; reflexivity.
Qed.

End SummaryFacts.

(* ------------------------------------------------------------------ *)
(** ** Ranking of the dashboard *)

Module DashboardFacts.
Import Pipeline Dashboard Vocab.

Lemma filter_all_false : forall {A} (f : A -> bool) l,
  (forall z, In z l -> f z = false) -> filter f l = [].
Proof.
  intros A f l H; induction l as [|a l IH]; simpl; [reflexivity|].
  rewrite H by (left; reflexivity); apply IH; intros z Hz; apply H; right; exact Hz.
Qed.

Section InsertionSort.

(** [before x y]: a polarity [x] is placed strictly before [y]. *)
Variable before : Q -> Q -> bool.
Hypothesis before_asym : forall x y, before x y = true -> before y x = false.
Hypothesis before_trans :
  forall x y z, before y x = false -> before z y = false -> before z x = false.
Hypothesis before_compat :
  forall x x' y, Qeq_bool x x' = true -> before x y = before x' y.

Local Abbreviation may_precede := (Vocab.may_precede before).
Local Abbreviation ins_step := (Vocab.ins_step before).

Lemma insert_by_perm : forall c l, Permutation (insert_by before c l) (c :: l).
Proof.
  intros c l; induction l as [|y l IH]; simpl; [reflexivity|].
  destruct (before (p_polarity c) (p_polarity y)); [reflexivity|].
  rewrite IH; apply perm_swap.
Qed.

Lemma insert_by_sorted : forall c l,
  Sorted may_precede l -> Sorted may_precede (insert_by before c l).
Proof.
  intros c l; induction l as [|y l IH]; intro Hs; simpl.
  - repeat constructor.
  - destruct (before (p_polarity c) (p_polarity y)) eqn:E.
    + constructor; [exact Hs | constructor; apply before_asym, E].
    + apply Sorted_inv in Hs as [Hs Hhd]; constructor; [apply IH, Hs|].
      destruct l as [|z l]; simpl; [constructor; exact E|].
      destruct (before (p_polarity c) (p_polarity z));
        [constructor; exact E | constructor; apply HdRel_inv in Hhd; exact Hhd].
Qed.

Lemma may_precede_trans : Relations_1.Transitive may_precede.
Proof. intros a b c Hab Hbc; unfold may_precede in *; eapply before_trans; eauto. Qed.

Lemma fold_insert_perm : forall l acc,
  Permutation (fold_left ins_step l acc) (app acc l).
Proof.
  induction l as [|c l IH]; intro acc; simpl; [rewrite app_nil_r; reflexivity|].
  rewrite IH; unfold ins_step; rewrite insert_by_perm.
  simpl; apply Permutation_middle.
Qed.

Lemma fold_insert_sorted : forall l acc,
  Sorted may_precede acc -> Sorted may_precede (fold_left ins_step l acc).
Proof.
  induction l as [|c l IH]; intros acc Hs; simpl; [exact Hs|].
  apply IH, insert_by_sorted, Hs.
Qed.

Lemma insert_by_stable : forall q c l,
  StronglySorted may_precede l ->
  filter (same_polarity q) (insert_by before c l)
  = app (filter (same_polarity q) l) (filter (same_polarity q) [c]).
Proof.
  intros q c l; induction l as [|y l IH]; intro Hs; simpl; [reflexivity|].
  apply StronglySorted_inv in Hs as [Hs Hall].
  destruct (before (p_polarity c) (p_polarity y)) eqn:E.
  - simpl; destruct (same_polarity q c) eqn:Ec.
    + (* no element of [y :: l] has the polarity of [c] *)
      assert (Hnone : forall z, In z (y :: l) -> same_polarity q z = false).
      { intros z Hz; destruct (same_polarity q z) eqn:Ez; [|reflexivity].
        exfalso; unfold same_polarity in *.
        assert (Hzc : Qeq_bool (p_polarity c) (p_polarity z) = true).
        { apply Qeq_bool_iff in Ec, Ez; apply Qeq_bool_iff.
          rewrite Ec, Ez; reflexivity. }
        rewrite (before_compat _ _ _ Hzc) in E.
        destruct Hz as [<- | Hz].
        - pose proof (before_asym _ _ E); congruence.
        - rewrite Forall_forall in Hall; specialize (Hall z Hz).
          unfold may_precede in Hall; congruence. }
      assert (Hl : filter (same_polarity q) l = []).
      { apply filter_all_false; intros z Hz; apply Hnone; right; exact Hz. }
      rewrite (Hnone y (or_introl eq_refl)), Hl; reflexivity.
    + rewrite app_nil_r; reflexivity.
  - simpl; destruct (same_polarity q y); rewrite IH by exact Hs; reflexivity.
Qed.

Lemma fold_insert_stable : forall q l acc,
  Sorted may_precede acc ->
  filter (same_polarity q) (fold_left ins_step l acc)
  = app (filter (same_polarity q) acc) (filter (same_polarity q) l).
Proof.
  intros q; induction l as [|c l IH]; intros acc Hs; simpl.
  - rewrite app_nil_r; reflexivity.
  - rewrite IH by (apply insert_by_sorted, Hs).
    unfold ins_step; rewrite insert_by_stable.
    + rewrite <- app_assoc; simpl; destruct (same_polarity q c); reflexivity.
    + apply Sorted_StronglySorted; [exact may_precede_trans | exact Hs].
Qed.

End InsertionSort.

Lemma qle_bool_compat : forall x x' y,
  Qeq_bool x x' = true -> Qle_bool x y = Qle_bool x' y /\ Qle_bool y x = Qle_bool y x'.
Proof.
  intros x x' y H; apply Qeq_bool_iff in H; split.
  - destruct (Qle_bool x y) eqn:E1, (Qle_bool x' y) eqn:E2; try reflexivity;
      rewrite ?Qle_bool_iff in *;
      [ apply not_true_iff_false in E2; exfalso; apply E2, Qle_bool_iff; rewrite <- H; exact E1
      | apply not_true_iff_false in E1; exfalso; apply E1, Qle_bool_iff; rewrite H; exact E2 ].
  - destruct (Qle_bool y x) eqn:E1, (Qle_bool y x') eqn:E2; try reflexivity;
      rewrite ?Qle_bool_iff in *;
      [ apply not_true_iff_false in E2; exfalso; apply E2, Qle_bool_iff; rewrite <- H; exact E1
      | apply not_true_iff_false in E1; exfalso; apply E1, Qle_bool_iff; rewrite H; exact E2 ].
Qed.

Ltac qle_bool_facts :=
  repeat match goal with
  | H : negb _ = _ |- _ => apply (f_equal negb) in H; rewrite negb_involutive in H; simpl in H
  | |- negb _ = false => apply negb_false_iff
  | H : Qle_bool _ _ = true |- _ => apply Qle_bool_iff in H
  | H : Qle_bool _ _ = false |- _ => apply not_true_iff_false in H; rewrite Qle_bool_iff in H
  | |- Qle_bool _ _ = true => apply Qle_bool_iff
  end.

Lemma desc_asym : forall x y, desc_before x y = true -> desc_before y x = false.
Proof. unfold desc_before; intros x y H; qle_bool_facts; lra. Qed.
Lemma desc_trans : forall x y z,
  desc_before y x = false -> desc_before z y = false -> desc_before z x = false.
Proof. unfold desc_before; intros x y z H1 H2; qle_bool_facts; lra. Qed.
Lemma desc_compat : forall x x' y,
  Qeq_bool x x' = true -> desc_before x y = desc_before x' y.
Proof. unfold desc_before; intros x x' y H; f_equal; apply qle_bool_compat, H. Qed.

Lemma asc_asym : forall x y, asc_before x y = true -> asc_before y x = false.
Proof. unfold asc_before; intros x y H; qle_bool_facts; lra. Qed.
Lemma asc_trans : forall x y z,
  asc_before y x = false -> asc_before z y = false -> asc_before z x = false.
Proof. unfold asc_before; intros x y z H1 H2; qle_bool_facts; lra. Qed.
Lemma asc_compat : forall x x' y,
  Qeq_bool x x' = true -> asc_before x y = asc_before x' y.
Proof. unfold asc_before; intros x x' y H; f_equal; apply qle_bool_compat, H. Qed.

Lemma sorted_weaken : forall (R R' : processed_comment -> processed_comment -> Prop) l,
  (forall a b, R a b -> R' a b) -> Sorted R l -> Sorted R' l.
Proof.
  intros R R' l HR Hs; induction Hs as [|a l Hs IH Hhd]; constructor; [exact IH|].
  destruct Hhd; constructor; apply HR; assumption.
Qed.

Lemma sorted_by_polarity_fold : forall reverse l,
  sorted_by_polarity reverse l
  = fold_left (ins_step (if reverse then desc_before else asc_before)) l [].
Proof. intros [|] l; reflexivity. Qed.

(** C9: [get_top_comments] returns the first [K] elements of a
    permutation of the comments of the label that is sorted by polarity,
    descending for ['Positive'] and ascending for ['Negative'], and that
    keeps the input order among comments of equal polarity. *)
Theorem get_top_comments_stable_ranking : forall comments label (K : nat),
  let filtered := filter (fun c => String.eqb (p_sentiment c) label) comments in
  exists sorted,
    get_top_comments comments label (Z.of_nat K) = firstn K sorted
    /\ Permutation sorted filtered
    /\ (label = "Positive" -> Sorted (fun a b => p_polarity b <= p_polarity a)%Q sorted)
    /\ (label = "Negative" -> Sorted (fun a b => p_polarity a <= p_polarity b)%Q sorted)
    /\ (forall q, filter (fun c => Qeq_bool (p_polarity c) q) sorted
                  = filter (fun c => Qeq_bool (p_polarity c) q) filtered).
Proof.
  intros comments label K filtered.
  set (rev := String.eqb label "Positive").
  set (bf := if rev then desc_before else asc_before).
  assert (Hasym : forall x y, bf x y = true -> bf y x = false)
    by (unfold bf; destruct rev; [exact desc_asym | exact asc_asym]).
  assert (Htrans : forall x y z, bf y x = false -> bf z y = false -> bf z x = false)
    by (unfold bf; destruct rev; [exact desc_trans | exact asc_trans]).
  assert (Hcompat : forall x x' y, Qeq_bool x x' = true -> bf x y = bf x' y)
    by (unfold bf; destruct rev; [exact desc_compat | exact asc_compat]).
  exists (fold_left (ins_step bf) filtered []).
  assert (Hsorted : Sorted (may_precede bf) (fold_left (ins_step bf) filtered []))
    by (apply fold_insert_sorted; [exact Hasym | constructor]).
  split; [|split; [|split; [|split]]].
  - unfold get_top_comments, YouTube.py_take; fold filtered.
    replace (0 <=? Z.of_nat K)%Z with true by (symmetry; apply Z.leb_le; lia).
    rewrite Nat2Z.id; f_equal.
    unfold bf, rev; destruct (String.eqb label "Positive");
      apply sorted_by_polarity_fold.
  - apply fold_insert_perm.
  - intros ->; apply (sorted_weaken _ _ _ (fun a b H => H)) in Hsorted.
    revert Hsorted; apply sorted_weaken; intros a b H.
    unfold may_precede, bf, rev, desc_before in H; simpl in H.
    apply negb_false_iff, Qle_bool_iff in H; exact H.
  - intros ->; revert Hsorted; apply sorted_weaken; intros a b H.
    unfold may_precede, bf, rev, asc_before in H; simpl in H.
    apply negb_false_iff, Qle_bool_iff in H; exact H.
  - intro q; apply (fold_insert_stable bf Hasym Htrans Hcompat q filtered []).
    constructor.
Qed.

End DashboardFacts.

(* ------------------------------------------------------------------ *)
(** ** The paginated fetchers *)

Module FetchFacts.
Import Lang YouTube Vocab.

Section Loops.

Variable commentThreads_list : string -> option string -> Z -> outcome api_page.
Variable video_id : string.

Local Abbreviation received := (Vocab.received commentThreads_list video_id).
Local Abbreviation next_token := (Vocab.next_token commentThreads_list video_id).
Local Abbreviation prev_token := (Vocab.prev_token commentThreads_list video_id).
Local Abbreviation answered := (Vocab.answered commentThreads_list video_id).
Local Abbreviation capped_request_ok := (Vocab.capped_request_ok commentThreads_list video_id).
Local Abbreviation full_request_ok := (Vocab.full_request_ok commentThreads_list video_id).
Local Abbreviation last_token_absent := (Vocab.last_token_absent commentThreads_list video_id).

Lemma received_app : forall l1 l2, received (app l1 l2) = app (received l1) (received l2).
Proof. intros; unfold received; apply flat_map_app. Qed.

Lemma prev_token_app : forall log ext i,
  (i <= length log)%nat -> prev_token (app log ext) i = prev_token log i.
Proof.
  intros log ext [|j] Hi; simpl; [reflexivity|].
  rewrite nth_error_app1 by lia; reflexivity.
Qed.

Lemma nth_error_snoc_cases : forall {A} (log : list A) x i r,
  nth_error (app log [x]) i = Some r ->
  (nth_error log i = Some r /\ (i < length log)%nat)
  \/ (i = length log /\ r = x).
Proof.
  intros A log x i r H.
  destruct (Nat.lt_ge_cases i (length log)) as [Hlt|Hge].
  - left; rewrite nth_error_app1 in H by exact Hlt; auto.
  - right; rewrite nth_error_app2 in H by exact Hge.
    destruct (i - length log)%nat eqn:E; simpl in H.
    + injection H as <-; split; [lia | reflexivity].
    + destruct n; discriminate.
Qed.

Lemma next_token_last : forall log r page,
  commentThreads_list video_id (fst r) (snd r) = Returns page ->
  prev_token (app log [r]) (length (app log [r])) = nextPageToken page.
Proof.
  intros log r page H; rewrite length_app; simpl.
  rewrite Nat.add_1_r; simpl; rewrite nth_error_app2 by lia.
  rewrite Nat.sub_diag; simpl; unfold next_token; rewrite H; reflexivity.
Qed.

Lemma received_snoc_page : forall log r page,
  commentThreads_list video_id (fst r) (snd r) = Returns page ->
  received (app log [r]) = app (received log) (map to_comment (items page)).
Proof.
  intros log r page H; rewrite received_app; unfold received at 2; simpl.
  rewrite H, app_nil_r; reflexivity.
Qed.

Lemma last_token_absent_snoc : forall log r page,
  commentThreads_list video_id (fst r) (snd r) = Returns page ->
  token_falsy (nextPageToken page) = true ->
  last_token_absent (app log [r]).
Proof.
  intros log r page H Hf; exists (length log), r; split; [|split].
  - rewrite nth_error_app2, Nat.sub_diag by lia; reflexivity.
  - rewrite length_app; simpl; lia.
  - unfold next_token; rewrite H; exact Hf.
Qed.

Lemma firstn_snoc_prefix : forall {A} (log ext : list A) i,
  (i <= length log)%nat -> firstn i (app log ext) = firstn i log.
Proof.
  intros A log ext i Hi; rewrite firstn_app.
  replace (i - length log)%nat with O by lia; simpl; apply app_nil_r.
Qed.

Lemma capped_ok_snoc : forall N log tok size page,
  (forall i r, nth_error log i = Some r -> capped_request_ok N log i r) ->
  tok = prev_token log (length log) ->
  (log <> [] -> token_falsy tok = false) ->
  (Z.of_nat (length (received log)) < N)%Z ->
  size = Z.min 100 (N - Z.of_nat (length (received log))) ->
  commentThreads_list video_id tok size = Returns page ->
  forall i r, nth_error (app log [(tok, size)]) i = Some r ->
  capped_request_ok N (app log [(tok, size)]) i r.
Proof.
  intros N log tok size page Hinv Htok Hnz Hlt Hsize Hpage i r Hr.
  destruct (nth_error_snoc_cases _ _ _ _ Hr) as [[Hold Hi] | [-> ->]].
  - destruct (Hinv i r Hold) as [H1 [H2 [H3 [H4 H5]]]].
    unfold capped_request_ok.
    rewrite firstn_snoc_prefix, prev_token_app by lia; auto.
  - unfold capped_request_ok; simpl.
    rewrite firstn_snoc_prefix, firstn_all, prev_token_app by lia.
    split; [exact Hlt|]; split; [exact Hsize|]; split; [exact Htok|]; split.
    + intro Hn; apply Hnz; intros ->; apply Hn; reflexivity.
    + exists page; exact Hpage.
Qed.

Lemma full_ok_snoc : forall log tok page,
  (forall i r, nth_error log i = Some r -> full_request_ok log i r) ->
  tok = prev_token log (length log) ->
  (log <> [] -> token_falsy tok = false) ->
  commentThreads_list video_id tok 100 = Returns page ->
  forall i r, nth_error (app log [(tok, 100%Z)]) i = Some r ->
  full_request_ok (app log [(tok, 100%Z)]) i r.
Proof.
  intros log tok page Hinv Htok Hnz Hpage i r Hr.
  destruct (nth_error_snoc_cases _ _ _ _ Hr) as [[Hold Hi] | [-> ->]].
  - destruct (Hinv i r Hold) as [H1 [H2 [H3 H4]]].
    unfold full_request_ok; rewrite prev_token_app by lia; auto.
  - unfold full_request_ok; simpl; rewrite prev_token_app by lia.
    split; [reflexivity|]; split; [exact Htok|]; split.
    + intro Hn; apply Hnz; intros ->; apply Hn; reflexivity.
    + exists page; exact Hpage.
Qed.

Lemma fetch_loop_fetched : forall fuel N comments tok log log' res,
  comments = received log ->
  tok = prev_token log (length log) ->
  (log <> [] -> token_falsy tok = false) ->
  (forall i r, nth_error log i = Some r -> capped_request_ok N log i r) ->
  fetch_loop commentThreads_list fuel video_id N comments tok log = (log', Fetched res) ->
  res = py_take N (received log')
  /\ (forall i r, nth_error log' i = Some r -> capped_request_ok N log' i r)
  /\ ((N <= Z.of_nat (length (received log')))%Z \/ last_token_absent log').
Proof.
  induction fuel as [|fuel IH]; intros N comments tok log log' res Hc Htok Hnz Hinv Hrun;
    simpl in Hrun; [discriminate|].
  destruct (Z.of_nat (length comments) <? N)%Z eqn:Hlt.
  - apply Z.ltb_lt in Hlt.
    set (size := Z.min 100 (N - Z.of_nat (length comments))) in Hrun.
    destruct (commentThreads_list video_id tok size) as [page|e] eqn:Hpage; [|discriminate].
    assert (Hinv' := capped_ok_snoc N log tok size page Hinv Htok Hnz
                       ltac:(rewrite <- Hc; exact Hlt) ltac:(unfold size; rewrite Hc; reflexivity)
                       Hpage).
    assert (Hrec : app comments (map to_comment (items page))
                   = received (app log [(tok, size)]))
      by (rewrite Hc; symmetry; exact (received_snoc_page log (tok, size) page Hpage)).
    destruct (token_falsy (nextPageToken page)) eqn:Hf.
    + injection Hrun as <- <-; split; [rewrite Hrec; reflexivity|]; split; [exact Hinv'|].
      right; exact (last_token_absent_snoc log (tok, size) page Hpage Hf).
    + eapply IH; [exact Hrec | | | exact Hinv' | exact Hrun].
      * symmetry; exact (next_token_last log (tok, size) page Hpage).
      * intros _; exact Hf.
  - apply Z.ltb_ge in Hlt; injection Hrun as <- <-.
    split; [rewrite Hc; reflexivity|]; split; [exact Hinv|].
    left; rewrite <- Hc; exact Hlt.
Qed.

Lemma fetch_all_loop_fetched : forall fuel comments tok log log' res,
  comments = received log ->
  tok = prev_token log (length log) ->
  (log <> [] -> token_falsy tok = false) ->
  (forall i r, nth_error log i = Some r -> full_request_ok log i r) ->
  fetch_all_loop commentThreads_list fuel video_id comments tok log = (log', Fetched res) ->
  res = received log'
  /\ (forall i r, nth_error log' i = Some r -> full_request_ok log' i r)
  /\ last_token_absent log'.
Proof.
  induction fuel as [|fuel IH]; intros comments tok log log' res Hc Htok Hnz Hinv Hrun;
    simpl in Hrun; [discriminate|].
  destruct (commentThreads_list video_id tok 100) as [page|e] eqn:Hpage; [|discriminate].
  assert (Hinv' := full_ok_snoc log tok page Hinv Htok Hnz Hpage).
  assert (Hrec : app comments (map to_comment (items page))
                 = received (app log [(tok, 100%Z)]))
    by (rewrite Hc; symmetry; exact (received_snoc_page log (tok, 100%Z) page Hpage)).
  destruct (token_falsy (nextPageToken page)) eqn:Hf.
  - injection Hrun as <- <-; split; [exact Hrec|]; split; [exact Hinv'|].
    exact (last_token_absent_snoc log (tok, 100%Z) page Hpage Hf).
  - eapply IH; [exact Hrec | | | exact Hinv' | exact Hrun].
    + symmetry; exact (next_token_last log (tok, 100%Z) page Hpage).
    + intros _; exact Hf.
Qed.

Lemma fetch_loop_raise : forall fuel N comments tok log log' out,
  (forall i r, nth_error log i = Some r -> answered r) ->
  fetch_loop commentThreads_list fuel video_id N comments tok log = (log', out) ->
  forall i r e, nth_error log' i = Some r ->
  commentThreads_list video_id (fst r) (snd r) = Raises e ->
  S i = length log' /\ out = FetchError (fetch_error_msg e).
Proof.
  induction fuel as [|fuel IH]; intros N comments tok log log' out Hans Hrun i r e Hr He;
    simpl in Hrun.
  - injection Hrun as <- <-; destruct (Hans i r Hr) as [page Hp]; congruence.
  - destruct (Z.of_nat (length comments) <? N)%Z.
    + destruct (commentThreads_list video_id tok
                  (Z.min 100 (N - Z.of_nat (length comments)))) as [page|e'] eqn:Hp.
      * assert (Hans' : forall i r, nth_error (app log [(tok, Z.min 100 (N - Z.of_nat (length comments)))]) i = Some r -> answered r).
        { intros j q Hq; destruct (nth_error_snoc_cases _ _ _ _ Hq) as [[Hq' _] | [_ ->]];
            [exact (Hans j q Hq') | exists page; exact Hp]. }
        destruct (token_falsy (nextPageToken page)).
        -- injection Hrun as <- <-; destruct (Hans' i r Hr) as [p' Hp']; congruence.
        -- exact (IH _ _ _ _ _ _ Hans' Hrun i r e Hr He).
      * injection Hrun as <- <-.
        destruct (nth_error_snoc_cases _ _ _ _ Hr) as [[Hold _] | [Hi ->]].
        -- destruct (Hans i r Hold) as [p' Hp']; congruence.
        -- simpl in He; rewrite Hp in He; injection He as ->.
           rewrite length_app; simpl; split; [lia | reflexivity].
    + injection Hrun as <- <-; destruct (Hans i r Hr) as [page Hp]; congruence.
Qed.

Lemma fetch_all_loop_raise : forall fuel comments tok log log' out,
  (forall i r, nth_error log i = Some r -> answered r) ->
  fetch_all_loop commentThreads_list fuel video_id comments tok log = (log', out) ->
  forall i r e, nth_error log' i = Some r ->
  commentThreads_list video_id (fst r) (snd r) = Raises e ->
  S i = length log' /\ out = FetchError (fetch_error_msg e).
Proof.
  induction fuel as [|fuel IH]; intros comments tok log log' out Hans Hrun i r e Hr He;
    simpl in Hrun.
  - injection Hrun as <- <-; destruct (Hans i r Hr) as [page Hp]; congruence.
  - destruct (commentThreads_list video_id tok 100) as [page|e'] eqn:Hp.
    + assert (Hans' : forall i r, nth_error (app log [(tok, 100%Z)]) i = Some r -> answered r).
      { intros j q Hq; destruct (nth_error_snoc_cases _ _ _ _ Hq) as [[Hq' _] | [_ ->]];
          [exact (Hans j q Hq') | exists page; exact Hp]. }
      destruct (token_falsy (nextPageToken page)).
      * injection Hrun as <- <-; destruct (Hans' i r Hr) as [p' Hp']; congruence.
      * exact (IH _ _ _ _ _ Hans' Hrun i r e Hr He).
    + injection Hrun as <- <-.
      destruct (nth_error_snoc_cases _ _ _ _ Hr) as [[Hold _] | [Hi ->]].
      * destruct (Hans i r Hold) as [p' Hp']; congruence.
      * simpl in He; rewrite Hp in He; injection He as ->.
        rewrite length_app; simpl; split; [lia | reflexivity].
Qed.

End Loops.

End FetchFacts.

Module PagedFacts.
Import Lang YouTube Vocab FetchFacts.

Lemma page_token_length : forall i, String.length (page_token i) = i.
Proof.
  induction i as [|i IH]; [reflexivity|].
  unfold page_token in *; simpl; rewrite IH; reflexivity.
Qed.

Lemma skipn_nth_cons : forall {A} (l : list A) i d,
  (i < length l)%nat -> skipn i l = nth i l d :: skipn (S i) l.
Proof.
  intros A l; induction l as [|a l IH]; intros i d Hi; simpl in Hi; [lia|].
  destruct i as [|i]; [reflexivity|]; simpl; apply IH; lia.
Qed.

Lemma paged_api_call : forall pages vid tok m,
  paged_api pages vid tok m
  = Returns {| items := nth (page_index tok) pages [];
               nextPageToken := if (S (page_index tok) <? length pages)%nat
                                then Some (page_token (S (page_index tok))) else None |}.
Proof. reflexivity. Qed.

Lemma page_token_truthy : forall i, token_falsy (Some (page_token (S i))) = false.
Proof. reflexivity. Qed.

Lemma paged_loop : forall pages vid n i fuel acc tok log,
  (i + n = length pages)%nat -> (0 < n)%nat -> (n <= fuel)%nat ->
  page_index tok = i ->
  snd (fetch_all_loop (paged_api pages) fuel vid acc tok log)
  = Fetched (app acc (map to_comment (concat (skipn i pages)))).
Proof.
  intros pages vid n; induction n as [|n IH]; intros i fuel acc tok log Hlen Hn Hfuel Htok;
    [lia|].
  destruct fuel as [|fuel]; [lia|]; cbn [fetch_all_loop].
  rewrite paged_api_call, Htok; cbn [items nextPageToken].
  rewrite (skipn_nth_cons pages i []) by lia; cbn [concat].
  rewrite map_app, app_assoc.
  destruct n as [|n].
  - replace (S i <? length pages)%nat with false by (symmetry; apply Nat.ltb_ge; lia).
    rewrite (skipn_all2 (n := S i) pages) by lia.
    simpl; rewrite !app_nil_r; reflexivity.
  - replace (S i <? length pages)%nat with true by (symmetry; apply Nat.ltb_lt; lia).
    rewrite page_token_truthy.
    apply IH; try lia; apply page_token_length.
Qed.

(** For any number of pages the upstream reports, [fetch_all_comments]
    returns the comments of all of them, in order, given as many loop
    iterations as there are pages. *)
Lemma fetch_all_paged : forall pages key url vid fuel,
  get_video_id url = Some vid -> token_falsy key = false ->
  (Nat.max 1 (length pages) <= fuel)%nat ->
  snd (fetch_all_comments key (Returns tt) (paged_api pages) fuel url)
  = Fetched (map to_comment (concat pages)).
Proof.
  intros pages key url vid fuel Hvid Hkey Hfuel.
  unfold fetch_all_comments; rewrite Hvid, Hkey.
  destruct pages as [|p ps].
  - destruct fuel as [|fuel]; [simpl in Hfuel; lia|]; reflexivity.
  - apply (paged_loop (p :: ps) vid (length (p :: ps)) 0); simpl in *; lia.
Qed.

End PagedFacts.

(* ------------------------------------------------------------------ *)
(** ** Properties of [fetch_comments] and [fetch_all_comments] *)

Module FetchTheorems.
Import Lang YouTube Vocab StrFacts FetchFacts PagedFacts.

Lemma py_take_nonneg_length : forall {A} N (l : list A),
  (0 <= N)%Z -> (Z.of_nat (length (py_take N l)) <= N)%Z.
Proof.
  intros A N l HN; unfold py_take.
  replace (0 <=? N)%Z with true by (symmetry; apply Z.leb_le; exact HN).
  rewrite length_firstn, Nat2Z.inj_min, Z2Nat.id by exact HN; lia.
Qed.

(** A successful [fetch_comments] issued no request when [max_results]
    is not positive, so its result never exceeds [max(0, max_results)]. *)
Lemma fetch_result_length : forall api vid N log res,
  res = py_take N (received api vid log) ->
  (forall i r, nth_error log i = Some r -> capped_request_ok api vid N log i r) ->
  (Z.of_nat (length res) <= Z.max 0 N)%Z.
Proof.
  intros api vid N log res Hres Hok.
  destruct (Z.le_gt_cases 0 N) as [HN|HN].
  - rewrite Hres; pose proof (py_take_nonneg_length N (received api vid log) HN); lia.
  - destruct log as [|r log].
    + rewrite Hres; unfold py_take; cbn [received flat_map].
      destruct (0 <=? N)%Z; rewrite firstn_nil; simpl; lia.
    + destruct (Hok O r eq_refl) as [Hb _]; simpl in Hb; lia.
Qed.

Lemma string_append_empty_r : forall s, (s ++ "")%string = s.
Proof. induction s as [|a s IH]; simpl; [reflexivity | rewrite IH; reflexivity]. Qed.

Lemma contains_self : forall s, PyStr.contains s s = true.
Proof.
  intro s; apply contains_of_prefix.
  pose proof (prefix_app_self s "") as H; rewrite string_append_empty_r in H; exact H.
Qed.

Lemma no_answered_nil : forall api vid i (r : request),
  nth_error (@nil request) i = Some r -> answered api vid r.
Proof. intros api vid [|i] r H; discriminate. Qed.

Lemma no_capped_nil : forall api vid N i (r : request),
  nth_error (@nil request) i = Some r -> capped_request_ok api vid N [] i r.
Proof. intros api vid N [|i] r H; discriminate. Qed.

Lemma no_full_nil : forall api vid i (r : request),
  nth_error (@nil request) i = Some r -> full_request_ok api vid [] i r.
Proof. intros api vid [|i] r H; discriminate. Qed.

Ltac open_fetch H vid :=
  match type of H with
  | context [get_video_id ?url] =>
      destruct (get_video_id url) as [vid|] eqn:?; [|discriminate];
      destruct (token_falsy _); [discriminate|];
      destruct (_ : outcome unit) as [[]|?]; [|discriminate]
  end.

(** C6: for every bound [N] and every upstream, a successful
    [fetch_comments] returns at most [max(0, N)] comments, namely the
    first [N] of those received, in arrival order; every page request
    it made was sent while fewer than [N] comments had been received,
    asked for [min(100, N - received)] of them, and carried the
    previous page's (present) [nextPageToken]; and the loop stopped
    only once [N] comments were received or the last page had no
    token.  A successful [fetch_all_comments] returns every comment
    received, asked for 100 per page with the same token chaining, and
    stopped exactly at the first page without a token; and for any
    number of pages the upstream reports, it returns the comments of
    all of them, in order. *)
Theorem fetch_comments_capped_pagination :
  (forall key build api fuel url N log res,
     fetch_comments key build api fuel url N = (log, Fetched res) ->
     exists vid, get_video_id url = Some vid
       /\ (Z.of_nat (length res) <= Z.max 0 N)%Z
       /\ res = py_take N (received api vid log)
       /\ (forall i r, nth_error log i = Some r -> capped_request_ok api vid N log i r)
       /\ ((N <= Z.of_nat (length (received api vid log)))%Z
           \/ last_token_absent api vid log))
  /\ (forall key build api fuel url log res,
     fetch_all_comments key build api fuel url = (log, Fetched res) ->
     exists vid, get_video_id url = Some vid
       /\ res = received api vid log
       /\ (forall i r, nth_error log i = Some r -> full_request_ok api vid log i r)
       /\ last_token_absent api vid log)
  /\ (forall pages key url vid fuel,
     get_video_id url = Some vid -> token_falsy key = false ->
     (Nat.max 1 (length pages) <= fuel)%nat ->
     snd (fetch_all_comments key (Returns tt) (paged_api pages) fuel url)
     = Fetched (map to_comment (concat pages))).
Proof.
  split; [|split].
  - intros key build api fuel url N log res H; unfold fetch_comments in H.
    open_fetch H vid.
    destruct (fetch_loop_fetched api vid fuel N [] None [] log res
                eq_refl eq_refl (fun Hn => ltac:(congruence))
                (no_capped_nil api vid N) H) as [Hres [Hok Hstop]].
    exists vid; split; [reflexivity|]; split;
      [exact (fetch_result_length api vid N log res Hres Hok)|].
    split; [exact Hres|]; split; [exact Hok | exact Hstop].
  - intros key build api fuel url log res H; unfold fetch_all_comments in H.
    open_fetch H vid.
    destruct (fetch_all_loop_fetched api vid fuel [] None [] log res
                eq_refl eq_refl (fun Hn => ltac:(congruence))
                (no_full_nil api vid) H) as [Hres [Hok Hstop]].
    exists vid; split; [reflexivity|]; split; [exact Hres|]; split; [exact Hok | exact Hstop].
  - exact fetch_all_paged.
Qed.

(** On two pages of two comments and [max_results = 3], the second
    request asks for one comment, and the result is the first three. *)
Lemma fetch_comments_capped_pagination_witness :
  fetch_comments (Some "key") (Returns tt) (paged_api sample_pages) 4 sample_url 3
  = ([(None, 3%Z); (Some "p", 1%Z)],
     Fetched (map to_comment [sample_item "1"; sample_item "2"; sample_item "3"]))
  /\ capped_request_ok (paged_api sample_pages) "dQw4w9WgXcQ" 3
       [(None, 3%Z); (Some "p", 1%Z)] 1 (Some "p", 1%Z).
Proof.
  assert (H : fetch_comments (Some "key") (Returns tt) (paged_api sample_pages) 4 sample_url 3
              = ([(None, 3%Z); (Some "p", 1%Z)],
                 Fetched (map to_comment [sample_item "1"; sample_item "2"; sample_item "3"])))
    by (vm_compute; reflexivity).
  split; [exact H|].
  destruct (proj1 fetch_comments_capped_pagination _ _ _ _ _ _ _ _ H)
    as (vid & Hvid & _ & _ & Hok & _).
  vm_compute in Hvid; injection Hvid as <-.
  exact (Hok 1%nat _ eq_refl).
Defined.

(** C7: both fetchers fail with no request sent when the URL yields no
    video id, or when the API key is missing or empty; and once a page
    request raises [e], it is the last request sent and the fetch fails
    as a whole with [Error fetching comments: e], a message containing
    [e]. *)
Theorem fetch_precondition_and_error_propagation :
  (forall key build api fuel url N,
     get_video_id url = None ->
     fetch_comments key build api fuel url N = ([], FetchError invalid_url_msg)
     /\ fetch_all_comments key build api fuel url = ([], FetchError invalid_url_msg))
  /\ (forall key build api fuel url N vid,
     get_video_id url = Some vid -> token_falsy key = true ->
     fetch_comments key build api fuel url N = ([], FetchError missing_key_msg)
     /\ fetch_all_comments key build api fuel url = ([], FetchError missing_key_msg))
  /\ (forall key build api fuel url N log out i r e vid,
     get_video_id url = Some vid ->
     fetch_comments key build api fuel url N = (log, out) ->
     nth_error log i = Some r -> api vid (fst r) (snd r) = Raises e ->
     S i = length log /\ out = FetchError (fetch_error_msg e))
  /\ (forall key build api fuel url log out i r e vid,
     get_video_id url = Some vid ->
     fetch_all_comments key build api fuel url = (log, out) ->
     nth_error log i = Some r -> api vid (fst r) (snd r) = Raises e ->
     S i = length log /\ out = FetchError (fetch_error_msg e))
  /\ (forall e, PyStr.contains e (fetch_error_msg e) = true).
Proof.
  split; [|split; [|split; [|split]]].
  - intros key build api fuel url N Hu; unfold fetch_comments, fetch_all_comments;
      rewrite Hu; split; reflexivity.
  - intros key build api fuel url N vid Hu Hk; unfold fetch_comments, fetch_all_comments;
      rewrite Hu, Hk; split; reflexivity.
  - intros key build api fuel url N log out i r e vid Hu H Hr He.
    unfold fetch_comments in H; rewrite Hu in H.
    destruct (token_falsy key); [injection H as <- _; destruct i; discriminate|].
    destruct build as [[]|b]; [|injection H as <- _; destruct i; discriminate].
    exact (fetch_loop_raise api vid fuel N [] None [] log out
             (no_answered_nil api vid) H i r e Hr He).
  - intros key build api fuel url log out i r e vid Hu H Hr He.
    unfold fetch_all_comments in H; rewrite Hu in H.
    destruct (token_falsy key); [injection H as <- _; destruct i; discriminate|].
    destruct build as [[]|b]; [|injection H as <- _; destruct i; discriminate].
    exact (fetch_all_loop_raise api vid fuel [] None [] log out
             (no_answered_nil api vid) H i r e Hr He).
  - intro e; unfold fetch_error_msg; apply contains_app_l, contains_self.
Qed.

End FetchTheorems.

(* ------------------------------------------------------------------ *)
(** ** The matcher and [get_video_id] *)

Module VideoIdFacts.
Import Re YouTube ReVocab StrFacts.
Local Open Scope nat_scope.

Lemma string_app_assoc : forall a b c : string, ((a ++ b) ++ c)%string = (a ++ (b ++ c))%string.
Proof. induction a as [|x a IH]; intros b c; simpl; [reflexivity | rewrite IH; reflexivity]. Qed.

Lemma orelse_some : forall (a b : result) x,
  orelse a b = Some x -> a = Some x \/ b = Some x.
Proof. intros [a|] b x H; simpl in H; auto. Qed.

(** A group-free regex hands the continuation's result through: a
    success comes from the continuation called on a suffix. *)
Lemma mt_nogroup : forall r, nogroup r = true ->
  forall p s k x, mt r p s k = Some x ->
  exists p' m t, s = (m ++ t)%string /\ k p' t = Some x.
Proof.
  induction r as [lit|cls|cls| | | |r1 IH1|r1 IH1 r2 IH2|r1 IH1 r2 IH2|r1 IH1];
    intros Hng p s k x H; simpl in Hng.
  - revert p s H; induction lit as [|a lit IHl]; intros p s H.
    + exists p, "", s; split; [reflexivity | exact H].
    + destruct s as [|b s]; simpl in H; [discriminate|].
      destruct (Ascii.eqb a b); [|discriminate].
      destruct (IHl _ _ H) as (p' & m & t & -> & Hk).
      exists p', (String b m), t; split; [reflexivity | exact Hk].
  - destruct s as [|c s]; simpl in H; [discriminate|].
    destruct (cls c); [|discriminate].
    exists (Some c), (String c ""), s; split; [reflexivity | exact H].
  - revert p H; induction s as [|c s IHs]; intros p H; simpl in H; [discriminate|].
    destruct (cls c); [|discriminate].
    destruct (orelse_some _ _ _ H) as [H1|H1].
    + destruct (IHs _ H1) as (p' & m & t & -> & Hk).
      exists p', (String c m), t; split; [reflexivity | exact Hk].
    + exists (Some c), (String c ""), s; split; [reflexivity | exact H1].
  - revert p H; induction s as [|c s IHs]; intros p H; simpl in H.
    + exists p, "", ""; split; [reflexivity | exact H].
    + destruct (orelse_some _ _ _ H) as [H1|H1].
      * destruct (is_newline c); [discriminate|].
        destruct (IHs _ H1) as (p' & m & t & -> & Hk).
        exists p', (String c m), t; split; [reflexivity | exact Hk].
      * exists p, "", (String c s); split; [reflexivity | exact H1].
  - simpl in H; destruct (xorb (word_opt p) (word_opt (head_opt s))); [|discriminate].
    exists p, "", s; split; [reflexivity | exact H].
  - exists p, "", s; split; [reflexivity|].
    destruct s as [|c [|c' s']]; simpl in H; [exact H | | discriminate].
    destruct (is_newline c); [exact H | discriminate].
  - destruct (orelse_some _ _ _ H) as [H1|H1].
    + exact (IH1 Hng _ _ _ _ H1).
    + exists p, "", s; split; [reflexivity | exact H1].
  - apply andb_true_iff in Hng as [Hng1 Hng2].
    destruct (orelse_some _ _ _ H) as [H1|H1]; [exact (IH1 Hng1 _ _ _ _ H1) | exact (IH2 Hng2 _ _ _ _ H1)].
  - apply andb_true_iff in Hng as [Hng1 Hng2].
    destruct (IH1 Hng1 _ _ _ _ H) as (p1 & m1 & t1 & -> & H1).
    destruct (IH2 Hng2 _ _ _ _ H1) as (p2 & m2 & t2 & -> & H2).
    exists p2, (m1 ++ m2)%string, t2; split; [rewrite string_app_assoc; reflexivity | exact H2].
  - discriminate.
Qed.

(** [cls{n}] consumes exactly [n] characters of the class. *)
Lemma mt_rep_cls : forall n cls p s k x,
  mt (rep n (RCls cls)) p s k = Some x ->
  exists p' pref t, s = (pref ++ t)%string /\ String.length pref = n
                    /\ all_cls cls pref = true /\ k p' t = Some x.
Proof.
  induction n as [|n IH]; intros cls p s k x H; simpl in H.
  - exists p, "", s; split; [reflexivity|]; split; [reflexivity|]; split; [reflexivity | exact H].
  - destruct s as [|c s]; [discriminate|].
    destruct (cls c) eqn:Ec; [|discriminate].
    destruct (IH _ _ _ _ _ H) as (p' & pref & t & -> & Hl & Ha & Hk).
    exists p', (String c pref), t; split; [reflexivity|]; split; [simpl; rewrite Hl; reflexivity|].
    split; [unfold all_cls in *; simpl; rewrite Ec, Ha; reflexivity | exact Hk].
Qed.

Lemma substring_0_app : forall pref t,
  substring 0 (String.length (pref ++ t) - String.length t) (pref ++ t) = pref.
Proof.
  intros pref t.
  assert (L : forall a b, String.length (a ++ b) = String.length a + String.length b)
    by (induction a as [|c a IH]; intro b; simpl; [reflexivity | rewrite IH; reflexivity]).
  rewrite L; replace (String.length pref + String.length t - String.length t)
    with (String.length pref) by lia.
  induction pref as [|c pref IH]; simpl; [destruct t; reflexivity | rewrite IH; reflexivity].
Qed.

(** The group [([a-zA-Z0-9_-]{11})] captures 11 characters of the class. *)
Lemma mt_id11_capture : forall p s k x,
  mt id11 p s k = Some x ->
  exists pref t, s = (pref ++ t)%string /\ String.length pref = 11
                 /\ all_cls id_cls pref = true /\ x = Some pref.
Proof.
  intros p s k x H; unfold id11 in H; cbn [mt] in H.
  destruct (mt_rep_cls 11 id_cls _ _ _ _ H) as (p' & pref & t & -> & Hl & Ha & Hk).
  exists pref, t; split; [reflexivity|]; split; [exact Hl|]; split; [exact Ha|].
  destruct (k p' t); [|discriminate]; injection Hk as <-.
  f_equal; apply substring_0_app.
Qed.

(** [re.search] succeeds when the pattern matches at some suffix. *)
Lemma search_suffix : forall r s x,
  search r s = Some x ->
  exists p m t, s = (m ++ t)%string /\ mt r p t (fun _ _ => Some None) = Some x.
Proof.
  intros r s x; unfold search; generalize (@None ascii) as p; revert x.
  induction s as [|c s IH]; intros x p H.
  - exists p, "", ""; split; [reflexivity|]; destruct (orelse_some _ _ _ H) as [H1|H1];
      [exact H1 | discriminate].
  - destruct (orelse_some _ _ _ H) as [H1|H1].
    + exists p, "", (String c s); split; [reflexivity | exact H1].
    + destruct (IH _ _ H1) as (p' & m & t & -> & Hm).
      exists p', (String c m), t; split; [reflexivity | exact Hm].
Qed.

Lemma mt_seq : forall r1 r2 p s k,
  mt (RSeq r1 r2) p s k = mt r1 p s (fun p' t => mt r2 p' t k).
Proof. reflexivity. Qed.

Lemma mt_seq_nogroup : forall a r p s k x, nogroup a = true ->
  mt (RSeq a r) p s k = Some x ->
  exists p' m t, s = (m ++ t)%string /\ mt r p' t k = Some x.
Proof. intros a r p s k x Hng H; rewrite mt_seq in H; exact (mt_nogroup a Hng _ _ _ _ H). Qed.

(** [cls+] consumes a non-empty run of the class. *)
Lemma mt_plus_cls : forall cls p s k x,
  mt (RPlus cls) p s k = Some x ->
  exists p' pref t, s = (pref ++ t)%string /\ pref <> ""
                    /\ all_cls cls pref = true /\ k p' t = Some x.
Proof.
  intros cls p s; revert p; induction s as [|c s IH]; intros p k x H; simpl in H; [discriminate|].
  destruct (cls c) eqn:Ec; [|discriminate].
  destruct (orelse_some _ _ _ H) as [H1|H1].
  - destruct (IH _ _ _ H1) as (p' & pref & t & -> & Hne & Ha & Hk).
    exists p', (String c pref), t; split; [reflexivity|]; split; [discriminate|].
    split; [unfold all_cls in *; simpl; rewrite Ec, Ha; reflexivity | exact Hk].
  - exists (Some c), (String c ""), s; split; [reflexivity|]; split; [discriminate|].
    split; [unfold all_cls; simpl; rewrite Ec; reflexivity | exact H1].
Qed.

Lemma prefix_substring_0 : forall m s, prefix (substring 0 m s) s = true.
Proof.
  induction m as [|m IH]; intro s; [destruct s; reflexivity|].
  destruct s as [|c s]; [reflexivity|]; simpl.
  destruct (ascii_dec c c) as [_|n]; [apply IH | congruence].
Qed.

Lemma contains_substring : forall n m s, PyStr.contains (substring n m s) s = true.
Proof.
  intros n m s; revert n; induction s as [|c s IH]; intro n.
  - destruct n, m; reflexivity.
  - destruct n as [|n].
    + apply contains_of_prefix, prefix_substring_0.
    + simpl substring; simpl; rewrite IH, orb_true_r; reflexivity.
Qed.

Lemma video_id_patterns_capture : forall pat url x,
  In pat video_id_patterns -> search pat url = Some x ->
  exists pref, x = Some pref /\ String.length pref = 11
               /\ all_cls id_cls pref = true /\ PyStr.contains pref url = true.
Proof.
  intros pat url x Hin Hs.
  destruct (search_suffix _ _ _ Hs) as (p & m & t & -> & Hm).
  assert (Hcap : exists p' m' t', t = (m' ++ t')%string
                   /\ mt id11 p' t' (fun _ _ => Some None) = Some x).
  { simpl in Hin; destruct Hin as [<-|[<-|[<-|[<-|[]]]]];
      [ | unfold seqs in Hm | | ];
      apply mt_seq_nogroup in Hm; try reflexivity; try exact Hm.
    destruct Hm as (p1 & m1 & t1 & -> & H1).
    apply mt_seq_nogroup in H1; [|reflexivity].
    destruct H1 as (p2 & m2 & t2 & -> & H2).
    apply mt_seq_nogroup in H2; [|reflexivity].
    destruct H2 as (p3 & m3 & t3 & -> & H3).
    exists p3, (m1 ++ m2 ++ m3)%string, t3; split; [rewrite !string_app_assoc; reflexivity | exact H3]. }
  destruct Hcap as (p' & m' & t' & -> & Hid).
  destruct (mt_id11_capture _ _ _ _ Hid) as (pref & t'' & -> & Hl & Ha & ->).
  exists pref; split; [reflexivity|]; split; [exact Hl|]; split; [exact Ha|].
  replace (m ++ m' ++ pref ++ t'')%string with ((m ++ m') ++ pref ++ t'')%string
    by apply string_app_assoc.
  apply contains_middle.
Qed.

Lemma try_patterns_found : forall url ps g,
  (fix try_patterns (ps : list regex) : option (option string) :=
     match ps with
     | [] => None
     | p :: ps' =>
         match search p url with
         | Some group1 => Some group1
         | None => try_patterns ps'
         end
     end) ps = Some g ->
  exists p, In p ps /\ search p url = Some g.
Proof.
  intros url ps g; induction ps as [|p ps IH]; intro H; [discriminate|].
  destruct (search p url) eqn:E.
  - injection H as <-; exists p; split; [left; reflexivity | exact E].
  - destruct (IH H) as (q & Hq & Hs); exists q; split; [right; exact Hq | exact Hs].
Qed.

Lemma rmatch_video_id_re : forall v x,
  rmatch video_id_re v = Some x ->
  exists pref, (v = pref \/ v = (pref ++ String "010"%char "")%string)
               /\ all_cls id_cls pref = true.
Proof.
  intros v x H; unfold rmatch, video_id_re in H; rewrite mt_seq in H.
  destruct (mt_plus_cls _ _ _ _ _ H) as (p' & pref & t & -> & _ & Ha & Hk).
  exists pref; split; [|exact Ha].
  destruct t as [|c [|c' t]]; simpl in Hk.
  - left; apply FetchTheorems.string_append_empty_r.
  - right; unfold is_newline in Hk; destruct (PyStr.code c =? 10) eqn:Ec; [|discriminate].
    apply Nat.eqb_eq in Ec; unfold PyStr.code in Ec.
    rewrite <- (ascii_nat_embedding c), Ec; reflexivity.
  - discriminate.
Qed.

(** Every video id [get_video_id] returns has 11 characters. *)
Lemma get_video_id_length : forall url v,
  get_video_id url = Some v -> String.length v = 11.
Proof.
  intros url v H; unfold get_video_id in H.
  destruct (url =? "")%string; [discriminate|].
  match type of H with
  | match ?T with Some _ => _ | None => _ end = _ => destruct T as [g|] eqn:E
  end.
  - apply try_patterns_found in E; destruct E as (pat & Hin & Hs).
    destruct (video_id_patterns_capture _ _ _ Hin Hs) as (pref & -> & Hl & _ & _).
    injection H as <-; exact Hl.
  - destruct (PyStr.contains "v=" url); [|discriminate]; cbv zeta in H.
    match type of H with
    | (if ?c then _ else _) = _ => destruct c eqn:Ec; [|discriminate]
    end.
    injection H as <-.
    apply andb_true_iff in Ec as [Hl _]; apply Nat.eqb_eq in Hl; exact Hl.
Qed.

(** Every video id [get_video_id] returns has 11 characters and occurs
    in the URL; its characters are all in [[a-zA-Z0-9_-]], except that
    the [v=] fallback, whose check [^[a-zA-Z0-9_-]+$] lets [$] match
    before a final newline, can return ten such characters followed by
    a newline. *)
Theorem get_video_id_shape : forall url v,
  get_video_id url = Some v ->
  String.length v = 11 /\ PyStr.contains v url = true
  /\ (all_cls id_cls v = true
      \/ exists pref, v = (pref ++ String "010"%char "")%string
                      /\ all_cls id_cls pref = true).
Proof.
  intros url v H; unfold get_video_id in H.
  destruct (url =? "")%string; [discriminate|].
  match type of H with
  | match ?T with Some _ => _ | None => _ end = _ => destruct T as [g|] eqn:E
  end.
  - apply try_patterns_found in E; destruct E as (pat & Hin & Hs).
    destruct (video_id_patterns_capture _ _ _ Hin Hs) as (pref & -> & Hl & Ha & Hc).
    injection H as <-; split; [exact Hl|]; split; [exact Hc | left; exact Ha].
  - destruct (PyStr.contains "v=" url); [|discriminate]; cbv zeta in H.
    match type of H with
    | (if ?c then _ else _) = _ => destruct c eqn:Ec; [|discriminate]
    end.
    injection H as <-.
    apply andb_true_iff in Ec as [Hl Hm]; apply Nat.eqb_eq in Hl.
    split; [exact Hl|]; split; [apply contains_substring|].
    match type of Hm with
    | match ?T with Some _ => _ | None => _ end = true => destruct T as [x|] eqn:Er; [|discriminate]
    end.
    destruct (rmatch_video_id_re _ _ Er) as (pref & [Hv|Hv] & Ha).
    + left; rewrite Hv; exact Ha.
    + right; exists pref; split; [exact Hv | exact Ha].
Qed.

(** The fallback at work: [v=abcdefghij] followed by a newline. *)
Lemma get_video_id_shape_witness :
  get_video_id ("v=abcdefghij" ++ String "010"%char "") = Some ("abcdefghij" ++ String "010"%char "")
  /\ exists pref, ("abcdefghij" ++ String "010"%char "")%string = (pref ++ String "010"%char "")%string
                  /\ all_cls id_cls pref = true.
Proof.
  assert (H : get_video_id ("v=abcdefghij" ++ String "010"%char "")
              = Some ("abcdefghij" ++ String "010"%char "")) by (vm_compute; reflexivity).
  split; [exact H|].
  destruct (get_video_id_shape _ _ H) as (_ & _ & [Hall|Hnl]); [|exact Hnl].
  vm_compute in Hall; discriminate.
Defined.

Lemma mt_rep_cls_app : forall cls pref rest p k,
  all_cls cls pref = true ->
  exists p', mt (rep (String.length pref) (RCls cls)) p (pref ++ rest) k = k p' rest.
Proof.
  intros cls pref; induction pref as [|c pref IH]; intros rest p k Ha; simpl.
  - exists p; reflexivity.
  - unfold all_cls in Ha; simpl in Ha; apply andb_true_iff in Ha as [Hc Ha].
    rewrite Hc; exact (IH rest (Some c) k Ha).
Qed.

Lemma mt_id11_app : forall vid rest p,
  String.length vid = 11 -> all_cls id_cls vid = true ->
  mt id11 p (vid ++ rest) (fun _ _ => Some None) = Some (Some vid).
Proof.
  intros vid rest p Hl Ha; unfold id11; cbn [mt].
  rewrite <- Hl.
  destruct (mt_rep_cls_app id_cls vid rest p
              (fun p0 t => match (fun _ _ => Some None) p0 t : result with
                           | Some _ => Some (Some (substring 0 (String.length (vid ++ rest) - String.length t) (vid ++ rest)))
                           | None => None
                           end) Ha) as [p' E].
  rewrite E; f_equal; f_equal; apply substring_0_app.
Qed.

Lemma search_watch_url : forall vid rest,
  String.length vid = 11 -> all_cls id_cls vid = true ->
  search (RSeq (alts [RStr "youtube.com/watch?v="; RStr "youtu.be/"; RStr "youtube.com/embed/"]) id11)
    ("https://www.youtube.com/watch?v=" ++ vid ++ rest) = Some (Some vid).
Proof.
  intros vid rest Hl Ha; unfold search; cbn -[id11].
  rewrite mt_id11_app by assumption; reflexivity.
Qed.

Lemma search_short_url : forall vid rest,
  String.length vid = 11 -> all_cls id_cls vid = true ->
  search (RSeq (alts [RStr "youtube.com/watch?v="; RStr "youtu.be/"; RStr "youtube.com/embed/"]) id11)
    ("https://youtu.be/" ++ vid ++ rest) = Some (Some vid).
Proof.
  intros vid rest Hl Ha; unfold search; cbn -[id11].
  rewrite mt_id11_app by assumption; reflexivity.
Qed.

Lemma search_embed_url : forall vid rest,
  String.length vid = 11 -> all_cls id_cls vid = true ->
  search (RSeq (alts [RStr "youtube.com/watch?v="; RStr "youtu.be/"; RStr "youtube.com/embed/"]) id11)
    ("https://www.youtube.com/embed/" ++ vid ++ rest) = Some (Some vid).
Proof.
  intros vid rest Hl Ha; unfold search; cbn -[id11].
  rewrite mt_id11_app by assumption; reflexivity.
Qed.

Lemma get_video_id_first_pattern : forall url vid,
  search (RSeq (alts [RStr "youtube.com/watch?v="; RStr "youtu.be/"; RStr "youtube.com/embed/"]) id11) url
    = Some (Some vid) ->
  get_video_id url = Some vid.
Proof.
  intros url vid H; unfold get_video_id.
  destruct (String.eqb url "") eqn:E.
  - apply String.eqb_eq in E; subst url; discriminate H.
  - unfold video_id_patterns; rewrite H; reflexivity.
Qed.

(** get_video_id recovers an 11-character id written after any of the three
    canonical URL prefixes, whatever follows it. *)
Theorem get_video_id_canonical_urls : forall vid rest,
  String.length vid = 11 -> all_cls id_cls vid = true ->
  get_video_id ("https://www.youtube.com/watch?v=" ++ vid ++ rest) = Some vid
  /\ get_video_id ("https://youtu.be/" ++ vid ++ rest) = Some vid
  /\ get_video_id ("https://www.youtube.com/embed/" ++ vid ++ rest) = Some vid.
Proof.
  intros vid rest Hl Ha; split; [|split]; apply get_video_id_first_pattern.
  - apply search_watch_url; assumption.
  - apply search_short_url; assumption.
  - apply search_embed_url; assumption.
Qed.

Lemma get_video_id_canonical_urls_witness :
  String.length "dQw4w9WgXcQ" = 11 /\ all_cls id_cls "dQw4w9WgXcQ" = true
  /\ get_video_id ("https://www.youtube.com/watch?v=" ++ "dQw4w9WgXcQ" ++ "&t=5") = Some "dQw4w9WgXcQ".
Proof.
  split; [reflexivity|split; [reflexivity|]].
  apply (get_video_id_canonical_urls "dQw4w9WgXcQ" "&t=5"); reflexivity.
Defined.

End VideoIdFacts.

(* ------------------------------------------------------------------ *)
(** ** Properties of [chatbot.py] *)

Module ChatbotFacts.
Import Lang Summary PyFmt Chatbot StrFacts.
Local Open Scope nat_scope.

Lemma prefix_app : forall needle s t,
  prefix needle s = true -> prefix needle (s ++ t) = true.
Proof.
  induction needle as [|a needle IH]; intros s t H; [destruct (s ++ t); reflexivity|].
  destruct s as [|b s]; simpl in *; [discriminate H|].
  destruct (ascii_dec a b); [apply IH; exact H | discriminate H].
Qed.

Lemma contains_app_r : forall needle a b,
  PyStr.contains needle a = true -> PyStr.contains needle (a ++ b) = true.
Proof.
  intros needle a b; induction a as [|c a IH]; intro H.
  - simpl in H; destruct needle; [destruct b; reflexivity | discriminate H].
  - change (String c a ++ b)%string with (String c (a ++ b)).
    cbn [PyStr.contains] in H |- *; apply orb_true_iff in H as [H|H]; apply orb_true_iff.
    + left; change (String c (a ++ b)) with (String c a ++ b)%string.
      apply prefix_app; exact H.
    + right; apply IH; exact H.
Qed.

Lemma contains_concat_map : forall {A} (f : A -> string) needle x l,
  In x l -> PyStr.contains needle (f x) = true ->
  PyStr.contains needle (String.concat "" (map f l)) = true.
Proof.
  intros A f needle x l; induction l as [|y l IH]; intros Hin Hc; [destruct Hin|].
  destruct Hin as [->|Hin].
  - destruct l as [|z l]; simpl; [exact Hc|]; apply contains_app_r; exact Hc.
  - destruct l as [|z l]; [destruct Hin|].
    change (String.concat "" (map f (y :: z :: l)))
      with (f y ++ "" ++ String.concat "" (map f (z :: l)))%string.
    apply contains_app_l, contains_app_l, IH; assumption.
Qed.

Lemma numbered_lines_nth : forall cs i j c,
  nth_error cs j = Some c ->
  PyStr.contains ("  " ++ py_str_nat (i + j) ++ ". " ++ c ++ nl)
                 (numbered_lines i cs) = true.
Proof.
  induction cs as [|c0 cs IH]; intros i j c H; [destruct j; discriminate H|].
  destruct j as [|j].
  - injection H as ->; rewrite Nat.add_0_r; cbn [numbered_lines].
    pose proof (contains_middle "" ("  " ++ py_str_nat i ++ ". " ++ c ++ nl)
                  (numbered_lines (S i) cs)) as Hm.
    rewrite !VideoIdFacts.string_app_assoc in Hm; exact Hm.
  - cbn [numbered_lines]; simpl in H.
    rewrite Nat.add_succ_r, <- Nat.add_succ_l.
    apply (contains_app_l _ "  "), (contains_app_l _ (py_str_nat i)),
          (contains_app_l _ ". "), (contains_app_l _ c0), (contains_app_l _ nl).
    apply IH; exact H.
Qed.

(** X3: the prompt [ask_question] sends with a summary as context contains
    the question and, for every label, the numbered line of each of its
    sample comments. *)
Theorem build_prompt_contents : forall question s,
  PyStr.contains question (build_prompt question (Some s)) = true
  /\ (forall k cs i c, In (k, cs) (sample_comments s) -> nth_error cs i = Some c ->
        PyStr.contains ("  " ++ py_str_nat (S i) ++ ". " ++ c ++ nl)
                       (build_prompt question (Some s)) = true).
Proof.
  intros question s; split.
  - cbn [build_prompt]; apply contains_app_l, contains_app_l.
    unfold prompt_tail; apply contains_middle.
  - intros k cs i c Hin Hnth; cbn [build_prompt].
    apply contains_app_l, contains_app_r.
    apply (contains_concat_map (fun kv => sample_block (fst kv) (snd kv)) _ (k, cs));
      [exact Hin|].
    destruct cs as [|c0 cs]; [destruct i; discriminate Hnth|].
    cbn [fst snd sample_block].
    apply (contains_app_l _ nl), (contains_app_l _ (py_capitalize k)),
          (contains_app_l _ " Comments:"), (contains_app_l _ nl).
    exact (numbered_lines_nth (c0 :: cs) 1 i c Hnth).
Qed.

Lemma fallback_models_nodup : NoDup fallback_models.
Proof.
  unfold fallback_models;
    repeat (apply NoDup_cons;
            [simpl; intro H; repeat (destruct H as [H|H]; [discriminate H|]); exact H|]).
  apply NoDup_nil.
Qed.

Lemma fallback_models_nonempty : forall n, In n fallback_models -> n <> "".
Proof.
  unfold fallback_models; simpl; intros n H; repeat destruct H as [H|H];
    subst; [discriminate ..|destruct H].
Qed.

Lemma default_name_nonempty : forall x : string,
  (if String.eqb x "" then "models/gemini-flash-latest" else x) <> "".
Proof.
  intro x; destruct (String.eqb x "") eqn:E; [discriminate|].
  intro Hx; subst x; discriminate E.
Qed.

Section Init.

Variable GEMINI_AVAILABLE : bool.
Variable GEMINI_API_KEY : string.
Variable list_models : option (outcome (list model_info)).
Variable gen_model : Type.
Variable GenerativeModel : string -> outcome gen_model.

Local Abbreviation raised := (CbVocab.raised GenerativeModel).

Lemma choose_model_name_nonempty : forall model_name,
  choose_model_name GEMINI_AVAILABLE list_models model_name <> "".
Proof.
  intro model_name; unfold choose_model_name.
  destruct (py_truthy model_name) eqn:T; [|apply default_name_nonempty].
  destruct model_name as [v|]; [|discriminate T].
  intro Hv; subst v; discriminate T.
Qed.

Lemma try_fallbacks_spec : forall name fs, NoDup fs ->
  match try_fallbacks gen_model GenerativeModel name fs with
  | (tried, r) =>
      NoDup tried /\ (forall x, In x tried -> In x fs /\ x <> name)
      /\ length tried <= length fs
      /\ (r = None -> Forall raised tried)
      /\ (forall m, r = Some m -> exists pre n, tried = (pre ++ [n])%list
                    /\ GenerativeModel n = Returns m /\ Forall raised pre)
  end.
Proof.
  intros name fs; induction fs as [|f fs IH]; intro Hnd.
  - cbn; split; [constructor|]; split; [intros x []|].
    split; [apply le_n|]; split; [intros _; constructor|intros m H; discriminate H].
  - inversion Hnd as [|f' fs' Hf Hnd']; subst; specialize (IH Hnd'); cbn [try_fallbacks].
    destruct (String.eqb f name) eqn:E; cbn [negb].
    + destruct (try_fallbacks gen_model GenerativeModel name fs) as [tried r].
      destruct IH as (H1 & H2 & H3 & H4 & H5).
      split; [exact H1|]; split; [intros x Hx; destruct (H2 x Hx); split; [right|]; assumption|].
      split; [simpl; lia|]; split; assumption.
    + apply String.eqb_neq in E; destruct (GenerativeModel f) as [model|e] eqn:G.
      * split; [repeat constructor; intros []|].
        split; [intros x [<-|[]]; split; [left; reflexivity|exact E]|].
        split; [simpl; lia|]; split; [intro H; discriminate H|].
        intros m Hm; injection Hm as <-; exists [], f; split; [reflexivity|].
        split; [exact G|constructor].
      * destruct (try_fallbacks gen_model GenerativeModel name fs) as [tried r].
        destruct IH as (H1 & H2 & H3 & H4 & H5).
        split; [constructor; [intro Hin; apply Hf, (H2 f Hin)|exact H1]|].
        split; [intros x [<-|Hx]; [split; [left; reflexivity|exact E]|
                                   destruct (H2 x Hx); split; [right|]; assumption]|].
        split; [simpl; lia|].
        split; [intro Hr; constructor; [exists e; exact G|exact (H4 Hr)]|].
        intros m Hm; destruct (H5 m Hm) as (pre & n & -> & Hn & Hpre).
        exists (f :: pre), n; split; [reflexivity|]; split; [exact Hn|].
        constructor; [exists e; exact G|exact Hpre].
Qed.

(** X4: [initialize_chatbot] never passes an empty name to
    [GenerativeModel], never tries a name twice, and tries at most five;
    it returns the model of the last name tried, all earlier ones having
    raised, and returns [None] only when every name tried raised. *)
Theorem initialize_chatbot_attempts : forall model_name,
  match initialize_chatbot GEMINI_AVAILABLE GEMINI_API_KEY list_models gen_model
          GenerativeModel model_name with
  | (tried, r) =>
      NoDup tried /\ length tried <= 5 /\ Forall (fun n => n <> "") tried
      /\ (r = None -> Forall raised tried)
      /\ (forall m, r = Some m -> exists pre n, tried = (pre ++ [n])%list
                    /\ GenerativeModel n = Returns m /\ Forall raised pre)
  end.
Proof.
  intro model_name; unfold initialize_chatbot.
  pose proof (choose_model_name_nonempty model_name) as Hne.
  destruct GEMINI_AVAILABLE; cbn [negb];
    [|split; [constructor|]; split; [simpl; lia|]; split; [constructor|];
      split; [intros _; constructor|intros m H; discriminate H]].
  destruct (String.eqb GEMINI_API_KEY "");
    [split; [constructor|]; split; [simpl; lia|]; split; [constructor|];
      split; [intros _; constructor|intros m H; discriminate H]|].
  set (name := choose_model_name true list_models model_name) in *.
  destruct (GenerativeModel name) as [model|e] eqn:G.
  - split; [repeat constructor; intros []|]; split; [simpl; lia|].
    split; [constructor; [exact Hne|constructor]|]; split; [intro H; discriminate H|].
    intros m Hm; injection Hm as <-; exists [], name; split; [reflexivity|].
    split; [exact G|constructor].
  - pose proof (try_fallbacks_spec name fallback_models fallback_models_nodup) as Hs.
    destruct (try_fallbacks gen_model GenerativeModel name fallback_models) as [tried r].
    destruct Hs as (H1 & H2 & H3 & H4 & H5).
    split; [constructor; [intro Hin; exact (proj2 (H2 name Hin) eq_refl)|exact H1]|].
    split; [simpl in H3 |- *; lia|].
    split; [constructor; [exact Hne|]|].
    { apply Forall_forall; intros x Hx; exact (fallback_models_nonempty x (proj1 (H2 x Hx))). }
    split; [intro Hr; constructor; [exists e; exact G|exact (H4 Hr)]|].
    intros m Hm; destruct (H5 m Hm) as (pre & n & -> & Hn & Hpre).
    exists (name :: pre), n; split; [reflexivity|]; split; [exact Hn|].
    constructor; [exists e; exact G|exact Hpre].
Qed.

(** X5: [initialize_chatbot] constructs no model, and returns [None],
    exactly when the library is missing or the API key is empty;
    otherwise the first name it tries is [model_name] when that is a
    non-empty string. *)
Theorem initialize_chatbot_first_attempt : forall model_name,
  match initialize_chatbot GEMINI_AVAILABLE GEMINI_API_KEY list_models gen_model
          GenerativeModel model_name with
  | ([], r) => r = None /\ (GEMINI_AVAILABLE = false \/ GEMINI_API_KEY = "")
  | (n :: _, _) => GEMINI_AVAILABLE = true /\ GEMINI_API_KEY <> ""
                   /\ (forall v, model_name = Some v -> v <> "" -> n = v)
  end.
Proof.
  intro model_name; unfold initialize_chatbot.
  destruct GEMINI_AVAILABLE; cbn [negb]; [|split; [reflexivity|left; reflexivity]].
  destruct (String.eqb GEMINI_API_KEY "") eqn:K;
    [split; [reflexivity|right; apply String.eqb_eq; exact K]|].
  assert (Hfirst : forall v, model_name = Some v -> v <> "" ->
                   choose_model_name true list_models model_name = v).
  { intros v -> Hv; unfold choose_model_name; cbn [py_truthy].
    destruct (String.eqb v "") eqn:E; [apply String.eqb_eq in E; contradiction|reflexivity]. }
  assert (HK : GEMINI_API_KEY <> "") by (apply String.eqb_neq; exact K).
  destruct (GenerativeModel (choose_model_name true list_models model_name));
    [|destruct (try_fallbacks gen_model GenerativeModel
                  (choose_model_name true list_models model_name) fallback_models)];
    (split; [reflexivity|split; [exact HK|exact Hfirst]]).
Qed.

End Init.

End ChatbotFacts.

(* ------------------------------------------------------------------ *)
(** ** Properties of the [web_dashboard.py] callbacks *)

Module WebFacts.
Import Lang Sentiment YouTube Pipeline Dashboard Chatbot PyFmt Web CbVocab.
Local Open Scope nat_scope.

Lemma three_labels_count : forall xs,
  Forall (fun x => x = "Positive" \/ x = "Negative" \/ x = "Neutral") xs ->
  count_occ String.string_dec xs "Positive" + count_occ String.string_dec xs "Negative"
  + count_occ String.string_dec xs "Neutral" = length xs.
Proof.
  induction xs as [|x xs IH]; intro H; [reflexivity|].
  inversion H as [|x' xs' Hx Hxs]; subst; specialize (IH Hxs); simpl.
  destruct Hx as [ -> | [ -> | -> ]]; simpl; lia.
Qed.

Lemma analyze_sentiment_label : forall tb t,
  let l := Sentiment.sentiment (analyze_sentiment tb t) in
  l = "Positive" \/ l = "Negative" \/ l = "Neutral".
Proof.
  intros tb t; unfold analyze_sentiment.
  destruct (tb t) as [p| |e]; cbn [Sentiment.sentiment]; [| |right; right; reflexivity];
    [destruct (SentimentFacts.label_of_cases p) as [[_ ->]|[[_ ->]|(_ & _ & ->)]]
    |destruct (SentimentFacts.label_of_cases 0) as [[_ ->]|[[_ ->]|(_ & _ & ->)]]];
    auto.
Qed.

Lemma process_comments_labels : forall ld gt tb key build api fuel url mode data,
  process_comments ld gt tb key build api fuel url mode = Processed data ->
  Forall (fun x => x = "Positive" \/ x = "Negative" \/ x = "Neutral")
         (map p_sentiment data).
Proof.
  intros ld gt tb key build api fuel url mode data H; unfold process_comments in H.
  destruct (match mode with
            | Some m => snd (fetch_comments key build api fuel url m)
            | None => snd (fetch_all_comments key build api fuel url)
            end) as [comments|msg|]; [|discriminate H|discriminate H].
  injection H as <-; rewrite PipelineFacts.process_loop_map, map_map.
  apply Forall_forall; intros x Hx; apply in_map_iff in Hx as (c & <- & _).
  apply analyze_sentiment_label.
Qed.

Lemma counter_get_count : forall k xs,
  counter_get k (Summary.counter xs) = count_occ String.string_dec xs k.
Proof.
  intros k xs; unfold counter_get.
  destruct (SummaryFacts.counter_spec xs) as [Hl _]; rewrite Hl.
  destruct (count_occ String.string_dec xs k =? 0) eqn:E; [|reflexivity].
  symmetry; apply Nat.eqb_eq; exact E.
Qed.

Section Callbacks.

Variable langdetect : string -> outcome string.
Variable google_translate : string -> outcome (option string).
Variable textblob_sentiment : string -> blob_sentiment.
Variable YOUTUBE_API_KEY : option string.
Variable youtube_build : outcome unit.
Variable commentThreads_list : string -> option string -> Z -> outcome api_page.
Variable GEMINI_AVAILABLE : bool.
Variable GEMINI_API_KEY : string.
Variable list_models : option (outcome (list model_info)).
Variable gen_model : Type.
Variable GenerativeModel : string -> outcome gen_model.
Variable generate_content : gen_model -> string -> outcome string.

Local Abbreviation UD :=
  (update_dashboard langdetect google_translate textblob_sentiment YOUTUBE_API_KEY
     youtube_build commentThreads_list GEMINI_AVAILABLE GEMINI_API_KEY list_models
     gen_model GenerativeModel).
Local Abbreviation PC :=
  (process_comments langdetect google_translate textblob_sentiment YOUTUBE_API_KEY
     youtube_build commentThreads_list).
Local Abbreviation chat_model :=
  (snd (initialize_chatbot GEMINI_AVAILABLE GEMINI_API_KEY list_models gen_model
          GenerativeModel (Some "models/gemini-flash-latest"))).

(** The run that an analysis with results shown came from. *)
Lemma update_dashboard_success : forall fuel n_clicks video_url max_comments
                                        fetch_all_value st st' v,
  UD fuel n_clicks video_url max_comments fetch_all_value st = Some (st', v) ->
  results_display v = true ->
  exists u data,
    video_url = Some u
    /\ PC fuel u (if existsb (String.eqb "yes") fetch_all_value then None
                  else Some max_comments) = Processed data
    /\ st' = {| processed_data := data;
                analysis_summary := Some (Summary.get_analysis_summary data);
                chatbot_model := chat_model |}
    /\ v = {| loading_message := NoMessage; results_display := true;
              total_text := py_str_nat (length data);
              positive_text := py_str_nat (counter_get "Positive" (Summary.counter (map p_sentiment data)));
              negative_text := py_str_nat (counter_get "Negative" (Summary.counter (map p_sentiment data)));
              neutral_text := py_str_nat (counter_get "Neutral" (Summary.counter (map p_sentiment data)));
              sentiment_fig := Some (Summary.counter (map p_sentiment data));
              language_fig := Some (Summary.counter (map original_language data));
              top_positive_html := Some (map comment_item
                 (firstn 3 (sorted_by_polarity true (Summary.with_sentiment "Positive" data))));
              top_negative_html := Some (map comment_item
                 (firstn 3 (sorted_by_polarity false (Summary.with_sentiment "Negative" data)))) |}.
Proof.
  intros fuel n_clicks video_url max_comments fetch_all_value st st' v H Hv.
  unfold update_dashboard in H.
  destruct video_url as [u|];
    [|cbn [py_truthy negb] in H; rewrite orb_true_r in H;
      injection H as _ <-; cbn in Hv; discriminate Hv].
  destruct ((n_clicks =? 0)%Z || negb (py_truthy (Some u))).
  - injection H as _ <-; cbn in Hv; discriminate Hv.
  - destruct (PC fuel u _) as [data|e|] eqn:E;
      [|injection H as _ <-; cbn in Hv; discriminate Hv|discriminate H].
    injection H as <- <-; exists u, data; split; [reflexivity|]; split; [exact E|].
    split; reflexivity.
Qed.

(** X6: [update_dashboard] with no click, or with no URL or an empty one,
    shows the reset view and keeps the globals.  Otherwise it runs
    [process_comments] on the URL: on an error [e] it shows
    ["Error: " + str(e)] and keeps the globals, hence the data the chatbot
    answers about; on success it shows the results and sets
    [processed_data], [analysis_summary] and [chatbot_model] together
    from the new data. *)
Theorem update_dashboard_globals : forall fuel n_clicks video_url max_comments
                                          fetch_all_value st,
  let mode := if existsb (String.eqb "yes") fetch_all_value then None
              else Some max_comments in
  ((n_clicks = 0%Z \/ py_truthy video_url = false) ->
   UD fuel n_clicks video_url max_comments fetch_all_value st = Some (st, reset_view))
  /\ (forall u, n_clicks <> 0%Z -> video_url = Some u -> u <> "" ->
      match PC fuel u mode with
      | ProcessOutOfFuel => UD fuel n_clicks video_url max_comments fetch_all_value st = None
      | ProcessError e =>
          UD fuel n_clicks video_url max_comments fetch_all_value st = Some (st, error_view e)
      | Processed data =>
          exists v, UD fuel n_clicks video_url max_comments fetch_all_value st
                    = Some ({| processed_data := data;
                               analysis_summary := Some (Summary.get_analysis_summary data);
                               chatbot_model := chat_model |}, v)
                    /\ results_display v = true
      end).
Proof.
  intros fuel n_clicks video_url max_comments fetch_all_value st mode.
  split.
  - intro H; unfold update_dashboard.
    replace ((n_clicks =? 0)%Z || negb (py_truthy video_url)) with true; [reflexivity|].
    destruct H as [ -> | -> ]; [reflexivity|symmetry; apply orb_true_r].
  - intros u Hn -> Hu; unfold update_dashboard.
    apply Z.eqb_neq in Hn; rewrite Hn; cbn [orb py_truthy].
    destruct (String.eqb u "") eqn:E; [apply String.eqb_eq in E; contradiction|cbn [negb]].
    fold mode; destruct (PC fuel u mode) as [data|e|]; [|reflexivity|reflexivity].
    eexists; split; [reflexivity|reflexivity].
Qed.

(** X7: when [update_dashboard] shows results, the positive, negative and
    neutral counts it shows add up to the total it shows, and its two lists
    of top comments are [dashboard.get_top_comments(processed_data, label, 3)]
    for ['Positive'] and ['Negative']. *)
Theorem update_dashboard_results : forall fuel n_clicks video_url max_comments
                                          fetch_all_value st st' v,
  UD fuel n_clicks video_url max_comments fetch_all_value st = Some (st', v) ->
  results_display v = true ->
  (exists t p ng nu, total_text v = py_str_nat t /\ positive_text v = py_str_nat p
                     /\ negative_text v = py_str_nat ng /\ neutral_text v = py_str_nat nu
                     /\ p + ng + nu = t)
  /\ top_positive_html v
       = Some (map comment_item (get_top_comments (processed_data gen_model st') "Positive" 3))
  /\ top_negative_html v
       = Some (map comment_item (get_top_comments (processed_data gen_model st') "Negative" 3)).
Proof.
  intros fuel n_clicks video_url max_comments fetch_all_value st st' v H Hv.
  destruct (update_dashboard_success _ _ _ _ _ _ _ _ H Hv)
    as (u & data & _ & Hpc & -> & ->).
  split; [|split; reflexivity].
  do 4 eexists; split; [reflexivity|]; split; [reflexivity|]; split; [reflexivity|].
  split; [reflexivity|].
  rewrite !counter_get_count, three_labels_count, length_map; [reflexivity|].
  exact (process_comments_labels _ _ _ _ _ _ _ _ _ _ Hpc).
Qed.

(** X8: a chat turn on the web dashboard with no click or an empty input
    returns the history ([None] read as [[]]); otherwise it appends
    exactly the user's entry and one bot entry to the earlier entries (a
    history that is not a list is dropped), the bot entry being the
    unavailable message when there is no chatbot model. *)
Theorem update_chatbot_history : forall st n_clicks user_input chat_history,
  match update_chatbot gen_model generate_content st n_clicks user_input chat_history with
  | HistList l =>
      ((n_clicks = 0%Z \/ py_truthy user_input = false)
       /\ chat_history <> HistOther /\ l = hist_entries chat_history)
      \/ (exists q r, n_clicks <> 0%Z /\ user_input = Some q /\ q <> ""
          /\ l = (hist_entries chat_history ++ [YouSaid q; BotSaid r])%list
          /\ (chatbot_model gen_model st = None -> r = unavailable_msg))
  | h => h = chat_history /\ h = HistOther
         /\ (n_clicks = 0%Z \/ py_truthy user_input = false)
  end.
Proof.
  intros st n_clicks user_input chat_history; unfold update_chatbot.
  destruct ((n_clicks =? 0)%Z || negb (py_truthy user_input)) eqn:G.
  - apply orb_true_iff in G.
    assert (G' : n_clicks = 0%Z \/ py_truthy user_input = false)
      by (destruct G as [G|G]; [left; apply Z.eqb_eq; exact G
                               |right; apply negb_true_iff; exact G]).
    destruct chat_history as [|l|]; cbn [hist_entries].
    + left; split; [exact G'|]; split; [discriminate|reflexivity].
    + left; split; [exact G'|]; split; [discriminate|reflexivity].
    + split; [reflexivity|]; split; [reflexivity|exact G'].
  - apply orb_false_iff in G as [G1 G2]; apply negb_false_iff in G2.
    destruct user_input as [q|]; [|discriminate G2].
    assert (Hq : q <> "") by (intro E; subst q; discriminate G2).
    right; exists q, (match chatbot_model gen_model st with
                   | Some m => ask_question gen_model generate_content (Some m) q
                                 (analysis_summary gen_model st)
                   | None => unavailable_msg end).
    split; [apply Z.eqb_neq; exact G1|]; split; [reflexivity|]; split; [exact Hq|].
    split.
    + destruct chat_history as [|l|], (chatbot_model gen_model st);
        cbn [hist_entries]; rewrite <- ?app_assoc; reflexivity.
    + intros ->; reflexivity.
Qed.

(** X9: after [update_dashboard] shows the results of an analysis, a chat
    turn with a question answers it with [ask_question] on the chatbot
    model that analysis initialised and, as context, the summary of the
    comments it processed. *)
Theorem chat_after_analysis : forall fuel n_clicks video_url max_comments
                                     fetch_all_value st st' v n_clicks' q h,
  UD fuel n_clicks video_url max_comments fetch_all_value st = Some (st', v) ->
  results_display v = true -> n_clicks' <> 0%Z -> q <> "" ->
  update_chatbot gen_model generate_content st' n_clicks' (Some q) h
  = HistList (hist_entries h
              ++ [YouSaid q;
                  BotSaid (ask_question gen_model generate_content chat_model q
                             (Some (Summary.get_analysis_summary
                                      (processed_data gen_model st'))))])%list.
Proof.
  intros fuel n_clicks video_url max_comments fetch_all_value st st' v n_clicks' q h
         H Hv Hn Hq.
  destruct (update_dashboard_success _ _ _ _ _ _ _ _ H Hv) as (u & data & _ & _ & -> & _).
  unfold update_chatbot; cbn [processed_data analysis_summary chatbot_model].
  apply Z.eqb_neq in Hn; rewrite Hn; cbn [orb py_truthy].
  destruct (String.eqb q "") eqn:E; [apply String.eqb_eq in E; contradiction|cbn [negb]].
  destruct h as [|l|], chat_model; cbn [hist_entries ask_question];
    rewrite <- ?app_assoc; reflexivity.
Qed.

End Callbacks.

Lemma update_dashboard_results_witness :
  sample_update = Some (fst sample_result, snd sample_result)
  /\ results_display (snd sample_result) = true
  /\ top_positive_html (snd sample_result)
     = Some (map comment_item
               (get_top_comments (processed_data unit (fst sample_result)) "Positive" 3)).
Proof.
  split; [vm_compute; reflexivity|]; split; [vm_compute; reflexivity|].
  apply (update_dashboard_results sample_langdetect sample_translate sample_textblob
           (Some "key") (Returns tt) (Vocab.paged_api Vocab.sample_pages) false "" None unit
           (fun _ => Returns tt) 5 1 (Some Vocab.sample_url) 50 [] (initial_state unit)
           (fst sample_result) (snd sample_result));
    vm_compute; reflexivity.
Defined.

Lemma chat_after_analysis_witness :
  sample_update = Some (fst sample_result, snd sample_result)
  /\ results_display (snd sample_result) = true
  /\ update_chatbot unit sample_generate (fst sample_result) 1 (Some "What do people like?")
       HistNone
     = HistList [YouSaid "What do people like?"; BotSaid unavailable_msg].
Proof.
  split; [vm_compute; reflexivity|]; split; [vm_compute; reflexivity|].
  rewrite (chat_after_analysis sample_langdetect sample_translate sample_textblob
             (Some "key") (Returns tt) (Vocab.paged_api Vocab.sample_pages) false "" None unit
             (fun _ => Returns tt) sample_generate 5 1 (Some Vocab.sample_url) 50 []
             (initial_state unit) (fst sample_result) (snd sample_result)).
  - vm_compute; reflexivity.
  - vm_compute; reflexivity.
  - vm_compute; reflexivity.
  - discriminate.
  - discriminate.
Defined.

End WebFacts.

(* ------------------------------------------------------------------ *)
(** ** Properties of [auth.py] *)

Module AuthFacts.
Import Chatbot Auth.
Local Open Scope nat_scope.

Lemma find_none_in : forall {A} (f : A -> bool) l,
  find f l = None -> forall x, In x l -> f x = false.
Proof.
  intros A f l; induction l as [|y l IH]; intros H x Hx; [destruct Hx|].
  simpl in H; destruct (f y) eqn:E; [discriminate H|].
  destruct Hx as [->|Hx]; [exact E|exact (IH H x Hx)].
Qed.

Lemma nodup_snoc : forall {A} (l : list A) x,
  NoDup l -> ~ In x l -> NoDup (l ++ [x])%list.
Proof.
  intros A l x Hnd Hx; apply NoDup_app; [exact Hnd|repeat constructor; intros []|].
  intros y Hy [<-|[]]; exact (Hx Hy).
Qed.

Lemma next_pk_fresh : forall us u, In u us -> user_pk u < next_pk us.
Proof.
  unfold next_pk; induction us as [|v us IH]; intros u Hu; [destruct Hu|]; simpl.
  destruct Hu as [->|Hu]; [lia|specialize (IH u Hu); simpl in IH; lia].
Qed.

Lemma map_set_last_login : forall (f : user -> string) now pk us,
  (forall u now', f {| user_pk := user_pk u; username := username u; email := email u;
                       password_hash := password_hash u; last_login := now';
                       is_active := is_active u |} = f u) ->
  map f (set_last_login now pk us) = map f us.
Proof.
  intros f now pk us Hf; unfold set_last_login; rewrite map_map.
  apply map_ext; intro u; destruct (user_pk u =? pk); [apply Hf|reflexivity].
Qed.

(** X10: a registration either leaves the user table as it is or appends
    one row, and it appends a row only when no existing row has its
    username or its e-mail address, giving it a key above every existing
    key; so it keeps usernames, e-mail addresses and primary keys unique
    in the user table. *)
Theorem register_keeps_unique : forall gen username email password confirm_password db,
  let db' := snd (register gen username email password confirm_password db) in
  (users db' = users db
   \/ exists u, users db' = (users db ++ [u])%list
                /\ find_by_username (Auth.username u) (users db) = None
                /\ find_by_email (Auth.email u) (users db) = None
                /\ (forall r, In r (users db) -> user_pk r < user_pk u))
  /\ (NoDup (map Auth.username (users db)) -> NoDup (map Auth.email (users db)) ->
      NoDup (map user_pk (users db)) ->
      NoDup (map Auth.username (users db')) /\ NoDup (map Auth.email (users db'))
      /\ NoDup (map user_pk (users db'))).
Proof.
  intros gen username email password confirm_password db db'.
  assert (A : users db' = users db
              \/ exists u, users db' = (users db ++ [u])%list
                           /\ find_by_username (Auth.username u) (users db) = None
                           /\ find_by_email (Auth.email u) (users db) = None
                           /\ (forall r, In r (users db) -> user_pk r < user_pk u)).
  { subst db'; unfold register.
    destruct (_ || _ || _); [left; reflexivity|].
    destruct (negb _); [left; reflexivity|].
    destruct (_ <? 6); [left; reflexivity|].
    destruct (find_by_username _ (users db)) eqn:FU; [left; reflexivity|].
    destruct (find_by_email _ (users db)) eqn:FE; [left; reflexivity|].
    right; eexists; split; [reflexivity|]; cbn [Auth.username Auth.email user_pk].
    split; [exact FU|]; split; [exact FE|].
    intros r Hr; exact (next_pk_fresh _ _ Hr). }
  split; [exact A|]; intros Hu He Hk.
  destruct A as [E|(u & E & FU & FE & Hlt)]; rewrite E; [split; [exact Hu|split; assumption]|].
  rewrite !map_app; cbn [map].
  split; [|split].
  - apply nodup_snoc; [exact Hu|]; intro Hin; apply in_map_iff in Hin as (r & Hn & Hin).
    unfold find_by_username in FU.
    pose proof (find_none_in _ _ FU r Hin) as F; cbv beta in F; rewrite Hn, String.eqb_refl in F; discriminate F.
  - apply nodup_snoc; [exact He|]; intro Hin; apply in_map_iff in Hin as (r & Hn & Hin).
    unfold find_by_email in FE.
    pose proof (find_none_in _ _ FE r Hin) as F; cbv beta in F; rewrite Hn, String.eqb_refl in F; discriminate F.
  - apply nodup_snoc; [exact Hk|]; intro Hin; apply in_map_iff in Hin as (r & Hn & Hin).
    pose proof (Hlt r Hin); lia.
Qed.

(** X11: a login that is refused changes nothing and logs nobody in; a
    login that succeeds checked the password against the stored hash of
    the user with that name, adds exactly one login record for that user,
    keeps every username, e-mail address and password hash, and redirects
    to the [next] argument verbatim whenever it is non-empty, whatever
    site it names. *)
Theorem login_effects : forall check utcnow ip agent username password next db,
  match login check utcnow ip agent username password next db with
  | (_, Render _, db', logged) => db' = db /\ logged = None
  | (_, Redirect target, db', logged) =>
      exists u p, username = Some u /\ password = Some p
      /\ (exists usr, find_by_username u (users db) = Some usr
                      /\ check (password_hash usr) p = true
                      /\ login_history db' = (login_history db
                           ++ [{| record_user_id := user_pk usr; ip_address := ip;
                                  user_agent := agent |}])%list
                      /\ (logged = None \/ logged = Some (user_pk usr)))
      /\ map Auth.username (users db') = map Auth.username (users db)
      /\ map Auth.email (users db') = map Auth.email (users db)
      /\ map password_hash (users db') = map password_hash (users db)
      /\ (forall n, next = Some n -> n <> "" -> target = n)
  end.
Proof.
  intros check utcnow ip agent username password next db; unfold login.
  destruct (negb (py_truthy username) || negb (py_truthy password)) eqn:G;
    [split; reflexivity|].
  apply orb_false_iff in G as [G1 G2]; apply negb_false_iff in G1, G2.
  destruct username as [u|]; [|discriminate G1]; destruct password as [p|]; [|discriminate G2].
  destruct (find_by_username u (users db)) as [usr|] eqn:F; [|split; reflexivity].
  destruct (check (password_hash usr) p) eqn:C; [|split; reflexivity].
  exists u, p; split; [reflexivity|]; split; [reflexivity|].
  split; [exists usr; split; [exact F|]; split; [exact C|]; split; [reflexivity|];
          destruct (is_active usr); [right|left]; reflexivity|].
  cbn [users]; split; [apply map_set_last_login; reflexivity|].
  split; [apply map_set_last_login; reflexivity|].
  split; [apply map_set_last_login; reflexivity|].
  intros n -> Hn; cbn [py_truthy]; destruct (String.eqb n "") eqn:E; [|reflexivity].
  apply String.eqb_eq in E; contradiction.
Qed.

Lemma find_app_none : forall {A} (f : A -> bool) l x,
  find f l = None -> find f (l ++ [x])%list = if f x then Some x else None.
Proof.
  intros A f l x; induction l as [|y l IH]; intro H; simpl in *; [reflexivity|].
  destruct (f y); [discriminate H|exact (IH H)].
Qed.

(** X12: with a password check that accepts the hashes [generate_password_hash]
    makes, a successful registration is followed by a successful login with
    the same username and password, which logs in the new user. *)
Theorem register_then_login : forall gen check utcnow ip agent u e p next db,
  (forall pw, check (gen pw) pw = true) ->
  fst (fst (register gen (Some u) (Some e) (Some p) (Some p) db))
    = ("Registration successful. Please log in.", "success") ->
  exists db'' target,
    login check utcnow ip agent (Some u) (Some p) next
          (snd (register gen (Some u) (Some e) (Some p) (Some p) db))
    = (None, Redirect target, db'', Some (next_pk (users db))).
Proof.
  intros gen check utcnow ip agent u e p next db Hc Hr.
  unfold register in *.
  destruct (negb (py_truthy (Some u)) || negb (py_truthy (Some e)) || negb (py_truthy (Some p)))
    eqn:V; [discriminate Hr|].
  apply orb_false_iff in V as [V Hp]; apply orb_false_iff in V as [Hu _].
  apply negb_false_iff in Hu, Hp.
  cbn [opt_str_eqb] in *; rewrite String.eqb_refl in *; cbn [negb] in *.
  destruct (String.length p <? 6); [discriminate Hr|].
  destruct (find_by_username u (users db)) eqn:FU; [discriminate Hr|].
  destruct (find_by_email e (users db)) eqn:FE; [discriminate Hr|].
  cbn [snd users]; unfold login.
  rewrite Hu, Hp; cbn [negb orb].
  unfold find_by_username in FU |- *; cbn [users login_history].
  rewrite (find_app_none _ _ _ FU); cbn [Auth.username].
  rewrite String.eqb_refl; cbn [password_hash is_active user_pk]; rewrite Hc.
  do 2 eexists; reflexivity.
Qed.

Lemma register_keeps_unique_witness :
  NoDup (map Auth.username (users AuthVocab.sample_db))
  /\ NoDup (map Auth.email (users AuthVocab.sample_db))
  /\ NoDup (map user_pk (users AuthVocab.sample_db))
  /\ NoDup (map Auth.username (users (snd (register AuthVocab.sample_hash (Some "bob")
         (Some "bob@example.org") (Some "secret1") (Some "secret1") AuthVocab.sample_db)))).
Proof.
  assert (H1 : NoDup (map Auth.username (users AuthVocab.sample_db)))
    by (repeat constructor; intros []).
  assert (H2 : NoDup (map Auth.email (users AuthVocab.sample_db)))
    by (repeat constructor; intros []).
  assert (H3 : NoDup (map user_pk (users AuthVocab.sample_db)))
    by (repeat constructor; intros []).
  split; [exact H1|]; split; [exact H2|]; split; [exact H3|].
  exact (proj1 (proj2 (register_keeps_unique AuthVocab.sample_hash (Some "bob")
                  (Some "bob@example.org") (Some "secret1") (Some "secret1")
                  AuthVocab.sample_db) H1 H2 H3)).
Defined.

Lemma register_then_login_witness :
  (forall pw, AuthVocab.sample_check (AuthVocab.sample_hash pw) pw = true)
  /\ fst (fst (register AuthVocab.sample_hash (Some "bob") (Some "bob@example.org")
                 (Some "secret1") (Some "secret1") AuthVocab.sample_db))
     = ("Registration successful. Please log in.", "success")
  /\ exists db'' target,
       login AuthVocab.sample_check "2024-01-01 00:00:00" None None (Some "bob") (Some "secret1")
             None (snd (register AuthVocab.sample_hash (Some "bob") (Some "bob@example.org")
                          (Some "secret1") (Some "secret1") AuthVocab.sample_db))
       = (None, Redirect target, db'', Some 2).
Proof.
  assert (Hc : forall pw, AuthVocab.sample_check (AuthVocab.sample_hash pw) pw = true)
    by (intro pw; apply String.eqb_refl).
  split; [exact Hc|]; split; [vm_compute; reflexivity|].
  exact (register_then_login AuthVocab.sample_hash AuthVocab.sample_check "2024-01-01 00:00:00"
           None None "bob" "bob@example.org" "secret1" None AuthVocab.sample_db Hc
           ltac:(vm_compute; reflexivity)).
Defined.

End AuthFacts.

(* ------------------------------------------------------------------ *)
(** ** Properties of the [/api/analyze] route *)

Module ApiFacts.
Import Lang Sentiment YouTube Pipeline Summary PyFmt Api Vocab.
Local Open Scope nat_scope.

Lemma comment_rows_length : forall sid next cs,
  length (comment_rows sid next cs) = length cs.
Proof. intros sid next cs; revert next; induction cs as [|c cs IH]; intro next; simpl; auto. Qed.

Lemma comment_rows_search_id : forall sid next cs,
  Forall (fun r => ca_search_id r = sid) (comment_rows sid next cs).
Proof.
  intros sid next cs; revert next; induction cs as [|c cs IH]; intro next; simpl;
    constructor; [reflexivity|apply IH].
Qed.

Lemma comment_rows_comment_ids : forall sid next cs,
  map ca_comment_id (comment_rows sid next cs) = map p_id cs.
Proof.
  intros sid next cs; revert next; induction cs as [|c cs IH]; intro next; simpl;
    [reflexivity|rewrite IH; reflexivity].
Qed.

Lemma comment_rows_ids : forall sid next cs,
  map ca_id (comment_rows sid next cs) = seq next (length cs).
Proof.
  intros sid next cs; revert next; induction cs as [|c cs IH]; intro next; simpl;
    [reflexivity|rewrite IH; reflexivity].
Qed.

Lemma next_search_id_fresh : forall rows r, In r rows -> sh_id r < next_search_id rows.
Proof.
  induction rows as [|r' rows IH]; intros r Hin; [destruct Hin|].
  unfold next_search_id in *; cbn [fold_right].
  destruct Hin as [<-|Hin]; [lia|specialize (IH r Hin); lia].
Qed.

Lemma next_comment_id_fresh : forall rows r, In r rows -> ca_id r < next_comment_id rows.
Proof.
  induction rows as [|r' rows IH]; intros r Hin; [destruct Hin|].
  unfold next_comment_id in *; cbn [fold_right].
  destruct Hin as [<-|Hin]; [lia|specialize (IH r Hin); lia].
Qed.

Section Route.

Variable langdetect : string -> outcome string.
Variable google_translate : string -> outcome (option string).
Variable textblob_sentiment : string -> blob_sentiment.
Variable YOUTUBE_API_KEY : option string.
Variable youtube_build : outcome unit.
Variable commentThreads_list : string -> option string -> Z -> outcome api_page.

Local Abbreviation AA :=
  (api_analyze langdetect google_translate textblob_sentiment YOUTUBE_API_KEY youtube_build
               commentThreads_list).

(** The fetch [api_analyze] runs on [url]. *)
Local Abbreviation FETCH fuel url max_comments fetch_all :=
  (if match fetch_all with Some b => b | None => false end
   then snd (fetch_all_comments YOUTUBE_API_KEY youtube_build commentThreads_list fuel url)
   else snd (fetch_comments YOUTUBE_API_KEY youtube_build commentThreads_list fuel url
                            match max_comments with Some m => m | None => 100%Z end)).

Lemma fetched_video_id : forall fuel url max_comments fetch_all cs,
  FETCH fuel url max_comments fetch_all = Fetched cs ->
  exists video_id, get_video_id url = Some video_id.
Proof.
  intros fuel url max_comments fetch_all cs H.
  destruct (get_video_id url) as [v|] eqn:G; [exists v; reflexivity|].
  destruct (match fetch_all with Some b => b | None => false end);
    [unfold fetch_all_comments in H|unfold fetch_comments in H];
    rewrite G in H; discriminate H.
Qed.

(** X13: [api_analyze] answers 400 with ['YouTube URL is required'] when
    the URL is missing or empty, and 500 with the message of the fetch
    error when fetching fails, leaving the database unchanged in both
    cases; otherwise it answers with the processed comments, one per
    fetched comment, and distributions whose counts add up to their
    number. *)
Theorem api_analyze_outcomes : forall fuel user_id url max_comments fetch_all db,
  match AA fuel user_id url max_comments fetch_all db with
  | None => exists u, url = Some u /\ FETCH fuel u max_comments fetch_all = OutOfFuel
  | Some (ApiError m s, db') =>
      db' = db
      /\ ((s = 400 /\ m = url_required_msg /\ (url = None \/ url = Some ""))
          \/ (s = 500 /\ exists u, url = Some u /\ u <> ""
                                   /\ FETCH fuel u max_comments fetch_all = FetchError m))
  | Some (ApiOk b, _) =>
      exists u cs, url = Some u /\ u <> "" /\ FETCH fuel u max_comments fetch_all = Fetched cs
      /\ body_comments b = map (process_one langdetect google_translate textblob_sentiment) cs
      /\ body_total_comments b = length cs
      /\ sum_counts (body_sentiment_distribution b) = length cs
      /\ sum_counts (body_language_distribution b) = length cs
  end.
Proof.
  intros fuel user_id url max_comments fetch_all db; unfold api_analyze.
  destruct url as [u|];
    [|split; [reflexivity|left; split; [reflexivity|split; [reflexivity|left; reflexivity]]]].
  destruct (String.eqb u "") eqn:E.
  { apply String.eqb_eq in E; subst u.
    split; [reflexivity|left; split; [reflexivity|split; [reflexivity|right; reflexivity]]]. }
  apply String.eqb_neq in E.
  destruct (FETCH fuel u max_comments fetch_all) as [cs|e|] eqn:F.
  - cbn [body_comments body_total_comments body_sentiment_distribution
         body_language_distribution].
    exists u, cs; split; [reflexivity|]; split; [exact E|]; split; [exact F|].
    rewrite PipelineFacts.process_loop_map; split; [reflexivity|]; split; [apply length_map|].
    destruct (SummaryFacts.counter_spec (map p_sentiment (map (process_one langdetect google_translate
                                                 textblob_sentiment) cs))) as (_ & _ & _ & Hs).
    destruct (SummaryFacts.counter_spec (map original_language (map (process_one langdetect google_translate
                                                 textblob_sentiment) cs))) as (_ & _ & _ & Hl).
    rewrite Hs, Hl, !length_map; split; reflexivity.
  - split; [reflexivity|right; split; [reflexivity|]].
    exists u; split; [reflexivity|]; split; [exact E|exact F].
  - exists u; split; [reflexivity|exact F].
Qed.

(** X14: a successful [api_analyze] always saves the analysis: it appends
    one [SearchHistory] row for the user, with the video id of the URL, the
    number of comments and the JSON of both distributions, under an id no
    earlier row has; and one [CommentAnalysis] row for each of the first
    50 comments, in order, each pointing to that row and with an id no
    earlier row has. *)
Theorem api_analyze_saves : forall fuel user_id url max_comments fetch_all db b db',
  AA fuel user_id url max_comments fetch_all db = Some (ApiOk b, db') ->
  exists u video_id, url = Some u /\ get_video_id u = Some video_id
  /\ search_history db'
     = (search_history db
        ++ [{| sh_id := next_search_id (search_history db); sh_user_id := user_id;
               sh_youtube_url := u; sh_video_id := video_id;
               sh_total_comments := body_total_comments b;
               sh_sentiment_distribution := json_dumps_counts (body_sentiment_distribution b);
               sh_language_distribution := json_dumps_counts (body_language_distribution b) |}])%list
  /\ ~ In (next_search_id (search_history db)) (map sh_id (search_history db))
  /\ exists rows, comment_analysis db' = (comment_analysis db ++ rows)%list
     /\ length rows = Nat.min 50 (body_total_comments b)
     /\ map ca_comment_id rows = map p_id (firstn 50 (body_comments b))
     /\ Forall (fun r => ca_search_id r = next_search_id (search_history db)) rows
     /\ NoDup (map ca_id rows)
     /\ (forall r, In r rows -> ~ In (ca_id r) (map ca_id (comment_analysis db))).
Proof.
  intros fuel user_id url max_comments fetch_all db b db' H; unfold api_analyze in H.
  destruct url as [u|]; [|discriminate H].
  destruct (String.eqb u ""); [discriminate H|].
  destruct (FETCH fuel u max_comments fetch_all) as [cs|e|] eqn:F;
    [|discriminate H|discriminate H].
  destruct (fetched_video_id _ _ _ _ _ F) as (vid & G).
  pose proof (VideoIdFacts.get_video_id_length _ _ G) as Hl.
  rewrite G in H.
  destruct (String.eqb vid "") eqn:V; [apply String.eqb_eq in V; subst vid; discriminate Hl|].
  injection H as <- <-.
  exists u, vid; split; [reflexivity|]; split; [exact G|].
  cbn [search_history comment_analysis body_total_comments body_comments
       body_sentiment_distribution body_language_distribution].
  split; [reflexivity|].
  split.
  { intro Hin; apply in_map_iff in Hin as (r & Hr & Hin).
    pose proof (next_search_id_fresh _ _ Hin); lia. }
  eexists; split; [reflexivity|].
  split; [exact (eq_trans (comment_rows_length _ _ _) (length_firstn 50 _))|].
  split; [apply comment_rows_comment_ids|].
  split; [apply comment_rows_search_id|].
  split; [rewrite comment_rows_ids; apply seq_NoDup|].
  intros r Hr Hin.
  assert (Hr' : In (ca_id r) (map ca_id (comment_rows (next_search_id (search_history db))
                  (next_comment_id (comment_analysis db))
                  (firstn 50 (process_loop langdetect google_translate textblob_sentiment cs)))))
    by (apply in_map; exact Hr).
  rewrite comment_rows_ids in Hr'; apply in_seq in Hr' as [Hge _].
  apply in_map_iff in Hin as (r' & Hid & Hin).
  pose proof (next_comment_id_fresh _ _ Hin); lia.
Qed.

End Route.

(** The route on the sample video: one search row and four comment rows. *)
Lemma api_analyze_saves_witness :
  sample_analyze = Some (ApiOk sample_body, sample_saved_db)
  /\ exists u video_id, Some sample_url = Some u /\ get_video_id u = Some video_id
     /\ length (search_history sample_saved_db) = 1
     /\ length (comment_analysis sample_saved_db) = 4.
Proof.
  assert (H : sample_analyze = Some (ApiOk sample_body, sample_saved_db))
    by (vm_compute; reflexivity).
  split; [exact H|].
  destruct (api_analyze_saves CbVocab.sample_langdetect CbVocab.sample_translate
              CbVocab.sample_textblob (Some "key") (Returns tt) (paged_api sample_pages)
              5 7 (Some sample_url) None None empty_db sample_body sample_saved_db H)
    as (u & vid & Hu & Hv & _).
  exists u, vid; split; [exact Hu|]; split; [exact Hv|].
  split; vm_compute; reflexivity.
Defined.

End ApiFacts.

(* ------------------------------------------------------------------ *)
(** ** Properties of [main.interactive_chatbot] *)

Module MainChatFacts.
Import Lang Summary Chatbot MainChat.

Lemma prefix_bot_line : forall r, String.prefix (nl ++ "Bot: ") (bot_line r) = true.
Proof. intros [|c r]; reflexivity. Qed.

Lemma prefix_you_prompt : String.prefix (nl ++ "Bot: ") you_prompt = false.
Proof. reflexivity. Qed.

Section Session.

Variable gen_model : Type.
Variable generate_content : gen_model -> string -> outcome string.
Variable model : option gen_model.
Variable context_data : option analysis_summary.

Local Abbreviation IC := (interactive_chatbot gen_model generate_content model context_data).
Local Abbreviation LOOP := (chat_loop gen_model generate_content model context_data).
Local Abbreviation reply q := (bot_line (ask_question gen_model generate_content model q context_data)).

Lemma chat_loop_stops : forall pre line post,
  Forall (fun l => is_exit (PyStr.strip l) = false) pre ->
  is_exit (PyStr.strip line) = true ->
  snd (LOOP (pre ++ line :: post)%list) = SessionExit
  /\ LOOP (pre ++ line :: post)%list = LOOP (pre ++ [line])%list
  /\ bot_lines (fst (LOOP (pre ++ line :: post)%list))
     = map (fun q => reply q) (filter (fun q => negb (String.eqb q "")) (map PyStr.strip pre)).
Proof.
  intros pre line post Hpre Hl; induction Hpre as [|l pre Hl' Hpre IH]; cbn [app].
  - cbn [chat_loop]; rewrite Hl; split; [reflexivity|]; split; [reflexivity|].
    reflexivity.
  - destruct IH as (IH1 & IH2 & IH3); rewrite IH2 in IH1, IH3.
    cbn [chat_loop]; rewrite Hl', IH2.
    cbn [map filter].
    destruct (LOOP (pre ++ [line])%list) as [out e].
    cbn [fst snd] in IH1, IH3 |- *.
    destruct (String.eqb (PyStr.strip l) "") eqn:B; cbn [negb fst snd];
      (split; [exact IH1|]; split; [reflexivity|]).
    + unfold bot_lines; cbn [filter]; rewrite prefix_you_prompt; exact IH3.
    + unfold bot_lines in *; cbn [filter map]; rewrite prefix_you_prompt, prefix_bot_line.
      f_equal; exact IH3.
Qed.

(** X15: [interactive_chatbot] ends at the first line that reads [exit]
    or [quit] once stripped, in any letter case, and reads no line after
    it; up to there it sends each non-blank stripped line, in order, to
    [ask_question] and prints one [Bot:] line per answer, blank lines
    giving none; input that runs out before such a line ends the session
    with [EOFError]. *)
Theorem interactive_chatbot_session : forall lines,
  (Forall (fun l => is_exit (PyStr.strip l) = false) lines -> snd (IC lines) = SessionEOFError)
  /\ (forall pre line post, lines = (pre ++ line :: post)%list ->
      Forall (fun l => is_exit (PyStr.strip l) = false) pre ->
      is_exit (PyStr.strip line) = true ->
      snd (IC lines) = SessionExit
      /\ IC lines = IC (pre ++ [line])%list
      /\ bot_lines (fst (IC lines))
         = map (fun q => reply q) (filter (fun q => negb (String.eqb q "")) (map PyStr.strip pre))).
Proof.
  intro lines; split.
  - intro H; unfold interactive_chatbot.
    assert (snd (LOOP lines) = SessionEOFError) as HE.
    { induction H as [|l ls Hl H IH]; [reflexivity|].
      cbn [chat_loop]; rewrite Hl.
      destruct (LOOP ls) as [out e]; cbn [snd] in IH |- *.
      destruct (negb _); exact IH. }
    destruct (LOOP lines) as [out e]; exact HE.
  - intros pre line post -> Hpre Hl.
    destruct (chat_loop_stops pre line post Hpre Hl) as (H1 & H2 & H3).
    unfold interactive_chatbot; rewrite H2 in H1, H3 |- *.
    destruct (LOOP (pre ++ [line])%list) as [out e]; cbn [fst snd] in H1, H3 |- *.
    split; [exact H1|]; split; [reflexivity|].
    unfold bot_lines in *; cbn [filter].
    replace (String.prefix (nl ++ "Bot: ") (nl ++ "--- Chatbot Session ---" ++ nl)) with false
      by reflexivity.
    replace (String.prefix (nl ++ "Bot: ")
               ("Ask questions about the analysis or type 'exit' to quit." ++ nl)) with false
      by reflexivity.
    exact H3.
Qed.

End Session.

(** A session on [sample_session]: two questions, a blank line, then
    [ QUIT ]; the line after it is never read. *)
Lemma interactive_chatbot_session_witness :
  Forall (fun l => is_exit (PyStr.strip l) = false) ["  What do people like?  "; "   "; "Why?"]
  /\ is_exit (PyStr.strip " QUIT ") = true
  /\ bot_lines (fst (interactive_chatbot unit CbVocab.sample_generate (Some tt) None sample_session))
     = [bot_line "ok"; bot_line "ok"].
Proof.
  assert (Hpre : Forall (fun l => is_exit (PyStr.strip l) = false)
                        ["  What do people like?  "; "   "; "Why?"])
    by (repeat constructor).
  assert (Hl : is_exit (PyStr.strip " QUIT ") = true) by reflexivity.
  split; [exact Hpre|]; split; [exact Hl|].
  destruct (proj2 (interactive_chatbot_session unit CbVocab.sample_generate (Some tt) None
                     sample_session)
              ["  What do people like?  "; "   "; "Why?"] " QUIT " ["ignored"] eq_refl Hpre Hl)
    as (_ & _ & H3).
  rewrite H3; reflexivity.
Defined.

End MainChatFacts.
